(** * Bruker enhanced-multiframe DICOM to NIfTI conversion

    A shallow embedding of [sammba/io_conversions/bruker_dicom.py]
    ([_is_dicom], [dcm_to_nii]) and the properties of the tag scan, the
    per-frame parameter table, the volume reshape, the affine and the output
    naming.

    Conventions of the embedding:
    - a Python exception is a value of [PyError]; a computation that may raise
      is a [result], and the stages of [dcm_to_nii] are sequenced in the order
      in which the source evaluates them, so that the first exception wins;
    - a local variable that the tag scan may leave unassigned is an [option];
      reading it while it is [None] raises [UnboundLocalError];
    - a [str] is a [string] whose characters are code points below 256;
    - floating-point arithmetic, [float()], [int()], the matrix product of
      [np.matrix] and [_rotate_affine] (module [utils], not part of this
      file's source) are the fields of the class [Runtime];
    - the NumPy calls on lists ([np.array], [np.atleast_2d], [np.hstack],
      [np.reshape], [np.transpose], boolean indexing) are embedded by their
      documented behaviour; a ragged nesting is an error, as it is from
      NumPy 1.24 on;
    - [print] and [warnings.warn] append to the diagnostics of the result;
      the two calls of [dcmdump] and the files written by nibabel and
      [np.savetxt] are outside the embedding: the dump text (as its
      [splitlines()]) and the raw sample vector are inputs, and the paths are
      the absolute paths returned by [os.path.abspath]. *)

From Stdlib Require Import ZArith List String Ascii Bool Lia QArith.
Import ListNotations.

Local Open Scope string_scope.
Local Open Scope Z_scope.

(** ** Exceptions and the error monad *)

Inductive PyError : Type :=
| UnboundLocalError (name : string)
| ValueError (what : string)
| TypeError (what : string)
| IndexError (what : string)
| ZeroDivisionError.

Inductive result (A : Type) : Type :=
| OK (a : A)
| Raise (e : PyError).

Arguments OK {A} a.
Arguments Raise {A} e.

Definition bind {A B : Type} (m : result A) (k : A -> result B) : result B :=
  match m with
  | OK a => k a
  | Raise e => Raise e
  end.

Notation "x <- m ;; k" := (bind m (fun x => k))
  (at level 61, m at next level, right associativity).
Notation "' p <- m ;; k" := (bind m (fun p => k))
  (at level 61, p pattern, m at next level, right associativity).

(** Reading a local variable. *)
Definition local {A : Type} (name : string) (v : option A) : result A :=
  match v with
  | Some a => OK a
  | None => Raise (UnboundLocalError name)
  end.

(** [seq[i]] for a non-negative literal index [i]. *)
Definition item {A : Type} (what : string) (l : list A) (i : nat) : result A :=
  match nth_error l i with
  | Some a => OK a
  | None => Raise (IndexError what)
  end.

Definition failed {A : Type} (m : result A) : Prop := exists e, m = Raise e.

(** ** Python strings *)

Definition chars (s : string) : list ascii := list_ascii_of_string s.
Definition str (l : list ascii) : string := string_of_list_ascii l.

(** [str.isspace] on code points below 256. *)
Definition isspace (c : ascii) : bool :=
  let n := nat_of_ascii c in
  ((9 <=? n) && (n <=? 13) || (28 <=? n) && (n <=? 32)
   || (n =? 133) || (n =? 160))%nat.

Fixpoint lstrip_chars (l : list ascii) : list ascii :=
  match l with
  | c :: l' => if isspace c then lstrip_chars l' else l
  | [] => []
  end.

Definition lstrip (s : string) : string := str (lstrip_chars (chars s)).

Definition rstrip_chars (l : list ascii) : list ascii :=
  rev (lstrip_chars (rev l)).

(** [s.rfind(c)]: the last index of [c], [None] for Python's [-1]. *)
Fixpoint rfind_chars (c : ascii) (l : list ascii) : option nat :=
  match l with
  | [] => None
  | x :: l' =>
      match rfind_chars c l' with
      | Some k => Some (S k)
      | None => if Ascii.eqb x c then Some O else None
      end
  end.

(** [s[:s.rfind(c)]]; a result of [-1] makes the slice drop the last
    character. *)
Definition upto_last (c : ascii) (l : list ascii) : list ascii :=
  match rfind_chars c l with
  | Some k => firstn k l
  | None => removelast l
  end.

(** [s.split(c)] for a one-character separator. *)
Fixpoint split_chars (c : ascii) (l : list ascii) : list (list ascii) :=
  match l with
  | [] => [[]]
  | x :: l' =>
      if Ascii.eqb x c then [] :: split_chars c l'
      else match split_chars c l' with
           | w :: ws => (x :: w) :: ws
           | [] => [[x]]
           end
  end.

Definition split (c : ascii) (s : string) : list string :=
  map str (split_chars c (chars s)).

(** [sep.join(parts)] for a list of strings. *)
Fixpoint join (sep : string) (parts : list string) : string :=
  match parts with
  | [] => EmptyString
  | [p] => p
  | p :: ps => p ++ sep ++ join sep ps
  end.

(** The value bound to [vals] in the tag scan: a string, or the list that
    [split] returned when it has more or fewer than one component.  Some
    variables ([protocol], [bruker_sequence]) start as the empty list. *)
Inductive pyval : Type :=
| PStr (s : string)
| PList (l : list string).

(** Iterating a [str] yields its one-character strings. *)
Definition iter_str (s : string) : list string :=
  map (fun c => String c EmptyString) (chars s).

Definition iter_val (v : pyval) : list string :=
  match v with
  | PStr s => iter_str s
  | PList l => l
  end.

(** [sep.join(v)] where [v] is a [str] or a list of [str]. *)
Definition join_val (sep : string) (v : pyval) : string :=
  join sep (iter_val v).

Definition pyval_eqb_str (v : pyval) (s : string) : bool :=
  match v with
  | PStr t => String.eqb t s
  | PList _ => false
  end.

(** ** The numeric runtime

    The type parameter [float] stands for Python's [float] / NumPy's
    [float64].  Nothing is assumed of the operations: every statement below
    holds for IEEE arithmetic as well as for exact arithmetic. *)

Definition matrix (A : Type) : Type := list (list A).

Class Runtime (float : Type) : Type := {
  fneg : float -> float;
  fsub : float -> float -> float;
  fmul : float -> float -> float;
  fdiv : float -> float -> float;
  fpow : float -> float -> float;
  fadd : float -> float -> float;
  (** conversion of a Python [int] *)
  of_int : Z -> float;
  (** the literal [0.5] *)
  fhalf : float;
  (** [float(s)] and [int(s)] on a string; [None] when they raise
      [ValueError] *)
  float_of_str : string -> option float;
  int_of_str : string -> option Z;
  (** the product of [np.matrix] *)
  matmul : matrix float -> matrix float -> matrix float;
  (** [_rotate_affine(angle, axis)] of [sammba.io_conversions.utils] *)
  _rotate_affine : Z -> string -> matrix float
}.

(** ** An exact runtime

    Rational arithmetic in lowest terms, plain decimal literals (sign,
    digits, at most one point with digits on both sides), and the
    quarter-turn rotations.  It serves to run the conversion on concrete
    dumps; the numbers of the dumps below are binary fractions, on which
    Python computes the same values. *)

Module Exact.

Definition qneg (x : Q) : Q := Qred (- x).
Definition qsub (x y : Q) : Q := Qred (x - y).
Definition qadd (x y : Q) : Q := Qred (x + y).
Definition qmul (x y : Q) : Q := Qred (x * y).
Definition qdiv (x y : Q) : Q := Qred (x / y).

(** [x ** 2] and [x ** 0.5], the two powers the conversion takes; the root
    is exact on squares of rationals. *)
Definition qpow (x y : Q) : Q :=
  if Qeq_bool y (2 # 1) then qmul x x
  else Qred (Z.sqrt (Qnum (Qred x)) # Pos.sqrt (Qden (Qred x))).

Definition digit (c : ascii) : option Z :=
  let n := nat_of_ascii c in
  if ((48 <=? n) && (n <=? 57))%nat then Some (Z.of_nat n - 48) else None.

Fixpoint digits (l : list ascii) (acc : Z) : option Z :=
  match l with
  | [] => Some acc
  | c :: l' =>
      match digit c with
      | Some d => digits l' (10 * acc + d)
      | None => None
      end
  end.

Definition unsigned (l : list ascii) : option Z :=
  match l with
  | [] => None
  | _ => digits l 0
  end.

Definition signed {A : Type} (f : list ascii -> option A) (opp : A -> A)
    (l : list ascii) : option A :=
  match l with
  | "-"%char :: l' => option_map opp (f l')
  | "+"%char :: l' => f l'
  | _ => f l
  end.

Definition decimal_int (s : string) : option Z :=
  signed unsigned Z.opp (chars s).

Definition unsigned_decimal (l : list ascii) : option Q :=
  match split_chars "."%char l with
  | [i] => option_map inject_Z (unsigned i)
  | [i; f] =>
      match unsigned i, unsigned f with
      | Some a, Some b =>
          let scale := Z.pow 10 (Z.of_nat (List.length f)) in
          Some (Qred ((a * scale + b) # Z.to_pos scale))
      | _, _ => None
      end
  | _ => None
  end.

Definition decimal_float (s : string) : option Q :=
  signed unsigned_decimal qneg (chars s).

Definition dot (r c : list Q) : Q :=
  fold_left qadd (map (fun xy => qmul (fst xy) (snd xy)) (combine r c)) 0%Q.

Definition matrix_column (j : nat) (m : matrix Q) : list Q :=
  map (fun r => nth j r 0%Q) m.

Definition qmatmul (a b : matrix Q) : matrix Q :=
  map (fun r => map (fun j => dot r (matrix_column j b))
                    (seq 0 (List.length r))) a.

(** Modelled from the spec: [_rotate_affine] lives in the module [utils],
    which is not among the sources; section 4.4 of the specification calls
    it a standard right-handed rotation about the named axis.  Only
    multiples of a quarter turn are given, where cosine and sine are exact. *)
Definition quarter_turn (angle : Z) (axis : string) : matrix Q :=
  let q := (angle / 90) mod 4 in
  let c : Q := if q =? 0 then 1%Q else if q =? 2 then (-1)%Q else 0%Q in
  let s : Q := if q =? 1 then 1%Q else if q =? 3 then (-1)%Q else 0%Q in
  let o : Q := 0%Q in
  let i : Q := 1%Q in
  if String.eqb axis "x" then
    [ [i; o; o; o]; [o; c; qneg s; o]; [o; s; c; o]; [o; o; o; i] ]
  else if String.eqb axis "y" then
    [ [c; o; s; o]; [o; i; o; o]; [qneg s; o; c; o]; [o; o; o; i] ]
  else
    [ [c; qneg s; o; o]; [s; c; o; o]; [o; o; i; o]; [o; o; o; i] ].

#[export] Instance runtime : Runtime Q := {|
  fneg := qneg;
  fsub := qsub;
  fmul := qmul;
  fdiv := qdiv;
  fpow := qpow;
  fadd := qadd;
  of_int := inject_Z;
  fhalf := (1 # 2)%Q;
  float_of_str := decimal_float;
  int_of_str := decimal_int;
  matmul := qmatmul;
  _rotate_affine := quarter_turn
|}.

End Exact.

(** ** Dumps used as concrete inputs

    Lines as [dcmdump +L -M] prints them: the study attributes at the left
    margin, the attributes of each frame indented inside their sequence
    items. *)

Definition study_lines (position n_frames n_rows : string) : list string :=
  [ "# Dicom-File-Format";
    "(0008,0021) DA [20160219]                      #   8, 1 SeriesDate";
    "(0008,0031) TM [101500]                        #   6, 1 SeriesTime";
    "(0010,0020) LO [mouse01]                       #   8, 1 PatientID";
    "(0018,1030) LO [T2_TurboRARE]                  #  12, 1 ProtocolName";
    "(0018,5100) CS [" ++ position
      ++ "]                           #   4, 1 PatientPosition";
    "(0020,0037) DS [1\0\0\0\1\0]                   #  12, 6 ImageOrientationPatient";
    "(0028,0010) US " ++ n_rows
      ++ "                               #   2, 1 Rows";
    "(0028,0011) US 3                               #   2, 1 Columns";
    "(0028,0030) DS [0.5\0.25]                      #   8, 2 PixelSpacing" ]
  ++ match n_frames with
     | EmptyString => []
     | _ => [ "(0028,0008) IS [" ++ n_frames
                ++ "]                             #   2, 1 NumberOfFrames" ]
     end.

Definition frame_item (isp position div : string) : list string :=
  [ "      (0020,9057) UL " ++ isp
      ++ "                         #   4, 1 InStackPositionNumber";
    "      (0020,0032) DS [" ++ position
      ++ "]            #  12, 3 ImagePositionPatient";
    "      (0020,9157) UL " ++ div
      ++ "                       #   8, 2 DimensionIndexValues" ].

Definition two_slices_twice : list string :=
  (frame_item "1" "-9\-7.5\1.25" "1\1" ++ frame_item "2" "-9\-7.5\2.25" "1\2"
   ++ frame_item "1" "-9\-7.5\1.25" "2\1"
   ++ frame_item "2" "-9\-7.5\2.25" "2\2")%list.

(** Four frames of 2 x 3 samples in two slices; four diffusion
    directionalities (one per frame), one inversion time (too few) and five
    temporal position indices (too many). *)
Definition sample_dump : list string :=
  (study_lines "HFS" "4" "2" ++ two_slices_twice
   ++ [ "      (0018,9075) CS [DIRECTIONAL]             #  12, 1 DiffusionDirectionality";
        "      (0018,9075) CS [NONE]                    #   4, 1 DiffusionDirectionality";
        "      (0018,9075) CS [DIRECTIONAL]             #  12, 1 DiffusionDirectionality";
        "      (0018,9075) CS [NONE]                    #   4, 1 DiffusionDirectionality";
        "      (0018,9079) FD 35                        #   8, 1 InversionTimes";
        "      (0020,9128) UL 1                         #   4, 1 TemporalPositionIndex";
        "      (0020,9128) UL 1                         #   4, 1 TemporalPositionIndex";
        "      (0020,9128) UL 2                         #   4, 1 TemporalPositionIndex";
        "      (0020,9128) UL 2                         #   4, 1 TemporalPositionIndex";
        "      (0020,9128) UL 3                         #   4, 1 TemporalPositionIndex" ])%list.

(** The same study with the patient feet first and prone. *)
Definition prone_dump : list string :=
  (study_lines "FFP" "4" "2" ++ two_slices_twice)%list.

(** The same study without the Number of Frames line. *)
Definition dump_without_frames : list string :=
  (study_lines "HFS" EmptyString "2" ++ two_slices_twice)%list.

(** Study attributes only: neither the number of frames nor any frame. *)
Definition dump_without_frames_or_items : list string :=
  study_lines "HFS" EmptyString "2".


Definition three_frames : list string :=
  (frame_item "1" "-9\-7.5\1.25" "1\1" ++ frame_item "2" "-9\-7.5\2.25" "1\2"
   ++ frame_item "1" "-9\-7.5\1.25" "2\1")%list.

(** Three frames in two slices, of 2 x 3 samples each. *)
Definition odd_dump : list string :=
  (study_lines "HFS" "3" "2" ++ three_frames)%list.

(** Three frames in two slices, of 0 x 3 samples each. *)
Definition odd_empty_dump : list string :=
  (study_lines "HFS" "3" "0" ++ three_frames)%list.

(** Three frames with the in-stack position numbers 1, 3, 3. *)
Definition gap_dump : list string :=
  (study_lines "HFS" "3" "2"
   ++ frame_item "1" "-9\-7.5\1.25" "1\1" ++ frame_item "3" "-9\-7.5\3.25" "1\3"
   ++ frame_item "3" "-9\-7.5\3.25" "2\3")%list.

(** Two slices whose second position is shifted by one millimetre along each
    axis, of 2 x 3 samples each. *)
Definition oblique_dump : list string :=
  (study_lines "HFS" "2" "2"
   ++ frame_item "1" "-9\-7.5\1.25" "1\1"
   ++ frame_item "2" "-8\-6.5\2.25" "1\2")%list.

Definition samples (n : nat) : list Z := map Z.of_nat (seq 0 n).

Definition dicom_path : string := "/data/s1/7/pdata/1/dicom/EnIm1.dcm".

Definition out_dir : string := "/out".

(** Five slices one millimetre apart along z, first slice at the origin. *)
Definition stack_of_five : list (list Q) :=
  [ [0; 0; 0]; [0; 0; -1]; [0; 0; -2]; [0; 0; -3]; [0; 0; -4] ]%Q.

(** ** State of the tag scan (source lines 145-161 and 194-249) *)

Section Conversion.

Context {float : Type} {RT : Runtime float}.

(** Variables assigned at most once per matching line.  [TR], [protocol] and
    [bruker_sequence] start as the empty list: [TR = None] stands for [[]]. *)
Record Scalars : Type := {
  acqdate : option pyval;
  acqtime : option pyval;
  patID : option pyval;
  acqdims : option pyval;
  thk : option float;
  TR : option float;
  protocol : pyval;
  patpos : option pyval;
  bruker_sequence : pyval;
  cosines : option (list float);
  frames : option Z;
  rows : option Z;
  cols : option Z;
  pixspac : option (list float)
}.

(** Lists appended to on every matching line. *)
Record Frames : Type := {
  diffdir : list pyval;
  TIs : list float;
  bval : list float;
  bvalXX : list float;
  bvalXY : list float;
  bvalXZ : list float;
  bvalYY : list float;
  bvalYZ : list float;
  bvalZZ : list float;
  IPPs : list (list float);
  ISPnums : list Z;
  repno : list Z;
  DIVs : list (list Z);
  frame_comments : list pyval
}.

Record State : Type := {
  scalars : Scalars;
  per_frame : Frames
}.

Definition initial_state : State :=
  {| scalars :=
       {| acqdate := None; acqtime := None; patID := None; acqdims := None;
          thk := None; TR := None; protocol := PList []; patpos := None;
          bruker_sequence := PList []; cosines := None; frames := None;
          rows := None; cols := None; pixspac := None |};
     per_frame :=
       {| diffdir := []; TIs := []; bval := []; bvalXX := []; bvalXY := [];
          bvalXZ := []; bvalYY := []; bvalYZ := []; bvalZZ := []; IPPs := [];
          ISPnums := []; repno := []; DIVs := []; frame_comments := [] |} |}.

Definition on_scalars (f : Scalars -> Scalars) (st : State) : State :=
  {| scalars := f (scalars st); per_frame := per_frame st |}.

Definition on_frames (f : Frames -> Frames) (st : State) : State :=
  {| scalars := scalars st; per_frame := f (per_frame st) |}.

Definition set_acqdate (v : pyval) (s : Scalars) : Scalars :=
  let (_, a1, a2, a3, a4, a5, a6, a7, a8, a9, a10, a11, a12, a13) := s in
  Build_Scalars (Some v) a1 a2 a3 a4 a5 a6 a7 a8 a9 a10 a11 a12 a13.
Definition set_acqtime (v : pyval) (s : Scalars) : Scalars :=
  let (a0, _, a2, a3, a4, a5, a6, a7, a8, a9, a10, a11, a12, a13) := s in
  Build_Scalars a0 (Some v) a2 a3 a4 a5 a6 a7 a8 a9 a10 a11 a12 a13.
Definition set_patID (v : pyval) (s : Scalars) : Scalars :=
  let (a0, a1, _, a3, a4, a5, a6, a7, a8, a9, a10, a11, a12, a13) := s in
  Build_Scalars a0 a1 (Some v) a3 a4 a5 a6 a7 a8 a9 a10 a11 a12 a13.
Definition set_acqdims (v : pyval) (s : Scalars) : Scalars :=
  let (a0, a1, a2, _, a4, a5, a6, a7, a8, a9, a10, a11, a12, a13) := s in
  Build_Scalars a0 a1 a2 (Some v) a4 a5 a6 a7 a8 a9 a10 a11 a12 a13.
Definition set_thk (x : float) (s : Scalars) : Scalars :=
  let (a0, a1, a2, a3, _, a5, a6, a7, a8, a9, a10, a11, a12, a13) := s in
  Build_Scalars a0 a1 a2 a3 (Some x) a5 a6 a7 a8 a9 a10 a11 a12 a13.
Definition set_TR (x : float) (s : Scalars) : Scalars :=
  let (a0, a1, a2, a3, a4, _, a6, a7, a8, a9, a10, a11, a12, a13) := s in
  Build_Scalars a0 a1 a2 a3 a4 (Some x) a6 a7 a8 a9 a10 a11 a12 a13.
Definition set_protocol (v : pyval) (s : Scalars) : Scalars :=
  let (a0, a1, a2, a3, a4, a5, _, a7, a8, a9, a10, a11, a12, a13) := s in
  Build_Scalars a0 a1 a2 a3 a4 a5 v a7 a8 a9 a10 a11 a12 a13.
Definition set_patpos (v : pyval) (s : Scalars) : Scalars :=
  let (a0, a1, a2, a3, a4, a5, a6, _, a8, a9, a10, a11, a12, a13) := s in
  Build_Scalars a0 a1 a2 a3 a4 a5 a6 (Some v) a8 a9 a10 a11 a12 a13.
Definition set_bruker_sequence (v : pyval) (s : Scalars) : Scalars :=
  let (a0, a1, a2, a3, a4, a5, a6, a7, _, a9, a10, a11, a12, a13) := s in
  Build_Scalars a0 a1 a2 a3 a4 a5 a6 a7 v a9 a10 a11 a12 a13.
Definition set_cosines (l : list float) (s : Scalars) : Scalars :=
  let (a0, a1, a2, a3, a4, a5, a6, a7, a8, _, a10, a11, a12, a13) := s in
  Build_Scalars a0 a1 a2 a3 a4 a5 a6 a7 a8 (Some l) a10 a11 a12 a13.
Definition set_frames (z : Z) (s : Scalars) : Scalars :=
  let (a0, a1, a2, a3, a4, a5, a6, a7, a8, a9, _, a11, a12, a13) := s in
  Build_Scalars a0 a1 a2 a3 a4 a5 a6 a7 a8 a9 (Some z) a11 a12 a13.
Definition set_rows (z : Z) (s : Scalars) : Scalars :=
  let (a0, a1, a2, a3, a4, a5, a6, a7, a8, a9, a10, _, a12, a13) := s in
  Build_Scalars a0 a1 a2 a3 a4 a5 a6 a7 a8 a9 a10 (Some z) a12 a13.
Definition set_cols (z : Z) (s : Scalars) : Scalars :=
  let (a0, a1, a2, a3, a4, a5, a6, a7, a8, a9, a10, a11, _, a13) := s in
  Build_Scalars a0 a1 a2 a3 a4 a5 a6 a7 a8 a9 a10 a11 (Some z) a13.
Definition set_pixspac (l : list float) (s : Scalars) : Scalars :=
  let (a0, a1, a2, a3, a4, a5, a6, a7, a8, a9, a10, a11, a12, _) := s in
  Build_Scalars a0 a1 a2 a3 a4 a5 a6 a7 a8 a9 a10 a11 a12 (Some l).

Definition add_diffdir (v : pyval) (f : Frames) : Frames :=
  let (b0, b1, b2, b3, b4, b5, b6, b7, b8, b9, b10, b11, b12, b13) := f in
  Build_Frames (b0 ++ [v]) b1 b2 b3 b4 b5 b6 b7 b8 b9 b10 b11 b12 b13.
Definition add_TIs (x : float) (f : Frames) : Frames :=
  let (b0, b1, b2, b3, b4, b5, b6, b7, b8, b9, b10, b11, b12, b13) := f in
  Build_Frames b0 (b1 ++ [x]) b2 b3 b4 b5 b6 b7 b8 b9 b10 b11 b12 b13.
Definition add_bval (x : float) (f : Frames) : Frames :=
  let (b0, b1, b2, b3, b4, b5, b6, b7, b8, b9, b10, b11, b12, b13) := f in
  Build_Frames b0 b1 (b2 ++ [x]) b3 b4 b5 b6 b7 b8 b9 b10 b11 b12 b13.
Definition add_bvalXX (x : float) (f : Frames) : Frames :=
  let (b0, b1, b2, b3, b4, b5, b6, b7, b8, b9, b10, b11, b12, b13) := f in
  Build_Frames b0 b1 b2 (b3 ++ [x]) b4 b5 b6 b7 b8 b9 b10 b11 b12 b13.
Definition add_bvalXY (x : float) (f : Frames) : Frames :=
  let (b0, b1, b2, b3, b4, b5, b6, b7, b8, b9, b10, b11, b12, b13) := f in
  Build_Frames b0 b1 b2 b3 (b4 ++ [x]) b5 b6 b7 b8 b9 b10 b11 b12 b13.
Definition add_bvalXZ (x : float) (f : Frames) : Frames :=
  let (b0, b1, b2, b3, b4, b5, b6, b7, b8, b9, b10, b11, b12, b13) := f in
  Build_Frames b0 b1 b2 b3 b4 (b5 ++ [x]) b6 b7 b8 b9 b10 b11 b12 b13.
Definition add_bvalYY (x : float) (f : Frames) : Frames :=
  let (b0, b1, b2, b3, b4, b5, b6, b7, b8, b9, b10, b11, b12, b13) := f in
  Build_Frames b0 b1 b2 b3 b4 b5 (b6 ++ [x]) b7 b8 b9 b10 b11 b12 b13.
Definition add_bvalYZ (x : float) (f : Frames) : Frames :=
  let (b0, b1, b2, b3, b4, b5, b6, b7, b8, b9, b10, b11, b12, b13) := f in
  Build_Frames b0 b1 b2 b3 b4 b5 b6 (b7 ++ [x]) b8 b9 b10 b11 b12 b13.
Definition add_bvalZZ (x : float) (f : Frames) : Frames :=
  let (b0, b1, b2, b3, b4, b5, b6, b7, b8, b9, b10, b11, b12, b13) := f in
  Build_Frames b0 b1 b2 b3 b4 b5 b6 b7 (b8 ++ [x]) b9 b10 b11 b12 b13.
Definition add_IPPs (p : list float) (f : Frames) : Frames :=
  let (b0, b1, b2, b3, b4, b5, b6, b7, b8, b9, b10, b11, b12, b13) := f in
  Build_Frames b0 b1 b2 b3 b4 b5 b6 b7 b8 (b9 ++ [p]) b10 b11 b12 b13.
Definition add_ISPnums (z : Z) (f : Frames) : Frames :=
  let (b0, b1, b2, b3, b4, b5, b6, b7, b8, b9, b10, b11, b12, b13) := f in
  Build_Frames b0 b1 b2 b3 b4 b5 b6 b7 b8 b9 (b10 ++ [z]) b11 b12 b13.
Definition add_repno (z : Z) (f : Frames) : Frames :=
  let (b0, b1, b2, b3, b4, b5, b6, b7, b8, b9, b10, b11, b12, b13) := f in
  Build_Frames b0 b1 b2 b3 b4 b5 b6 b7 b8 b9 b10 (b11 ++ [z]) b12 b13.
Definition add_DIVs (d : list Z) (f : Frames) : Frames :=
  let (b0, b1, b2, b3, b4, b5, b6, b7, b8, b9, b10, b11, b12, b13) := f in
  Build_Frames b0 b1 b2 b3 b4 b5 b6 b7 b8 b9 b10 b11 (b12 ++ [d]) b13.
Definition add_frame_comments (v : pyval) (f : Frames) : Frames :=
  let (b0, b1, b2, b3, b4, b5, b6, b7, b8, b9, b10, b11, b12, b13) := f in
  Build_Frames b0 b1 b2 b3 b4 b5 b6 b7 b8 b9 b10 b11 b12 (b13 ++ [v]).

(** ** The tag scan (source lines 177-249) *)

(** [float(vals)] and [int(vals)]: a list argument is a [TypeError]. *)
Definition py_float (v : pyval) : result float :=
  match v with
  | PStr s =>
      match float_of_str s with
      | Some x => OK x
      | None => Raise (ValueError "could not convert string to float")
      end
  | PList _ => Raise (TypeError "float() argument must be a string or a number")
  end.

Definition py_int (v : pyval) : result Z :=
  match v with
  | PStr s =>
      match int_of_str s with
      | Some z => OK z
      | None => Raise (ValueError "invalid literal for int()")
      end
  | PList _ => Raise (TypeError "int() argument must be a string or a number")
  end.

Fixpoint mapM {A B : Type} (f : A -> result B) (l : list A) : result (list B) :=
  match l with
  | [] => OK []
  | a :: l' => b <- f a ;; bs <- mapM f l' ;; OK (b :: bs)
  end.

(** [[float(i) for i in vals]] and [[int(i) for i in vals]]: a [str] is
    iterated character by character. *)
Definition py_floats (v : pyval) : result (list float) :=
  mapM (fun s => py_float (PStr s)) (iter_val v).

Definition py_ints (v : pyval) : result (list Z) :=
  mapM (fun s => py_int (PStr s)) (iter_val v).

Definition handler : Type := pyval -> State -> result State.

Definition assign (set : pyval -> Scalars -> Scalars) : handler :=
  fun vals st => OK (on_scalars (set vals) st).

Definition assign_float (set : float -> Scalars -> Scalars) : handler :=
  fun vals st => x <- py_float vals ;; OK (on_scalars (set x) st).

Definition assign_int (set : Z -> Scalars -> Scalars) : handler :=
  fun vals st => z <- py_int vals ;; OK (on_scalars (set z) st).

Definition assign_floats (set : list float -> Scalars -> Scalars) : handler :=
  fun vals st => l <- py_floats vals ;; OK (on_scalars (set l) st).

Definition append (add : pyval -> Frames -> Frames) : handler :=
  fun vals st => OK (on_frames (add vals) st).

Definition append_float (add : float -> Frames -> Frames) : handler :=
  fun vals st => x <- py_float vals ;; OK (on_frames (add x) st).

Definition append_int (add : Z -> Frames -> Frames) : handler :=
  fun vals st => z <- py_int vals ;; OK (on_frames (add z) st).

Definition append_floats (add : list float -> Frames -> Frames) : handler :=
  fun vals st => l <- py_floats vals ;; OK (on_frames (add l) st).

Definition append_ints (add : list Z -> Frames -> Frames) : handler :=
  fun vals st => l <- py_ints vals ;; OK (on_frames (add l) st).

(** One entry per [if tag == ...] of the source, in source order. *)
Definition handlers : list (string * handler) :=
  [ ("(0008,0021)", assign set_acqdate);
    ("(0008,0031)", assign set_acqtime);
    ("(0010,0020)", assign set_patID);
    ("(0018,0023)", assign set_acqdims);
    ("(0018,0050)", assign_float set_thk);
    ("(0018,0080)", assign_float set_TR);
    ("(0018,1030)", assign set_protocol);
    ("(0018,5100)", assign set_patpos);
    ("(0018,9005)", assign set_bruker_sequence);
    ("(0018,9075)", append add_diffdir);
    ("(0018,9079)", append_float add_TIs);
    ("(0018,9087)", append_float add_bval);
    ("(0018,9602)", append_float add_bvalXX);
    ("(0018,9603)", append_float add_bvalXY);
    ("(0018,9604)", append_float add_bvalXZ);
    ("(0018,9605)", append_float add_bvalYY);
    ("(0018,9606)", append_float add_bvalYZ);
    ("(0018,9607)", append_float add_bvalZZ);
    ("(0020,0032)", append_floats add_IPPs);
    ("(0020,0037)", assign_floats set_cosines);
    ("(0020,9057)", append_int add_ISPnums);
    ("(0020,9128)", append_int add_repno);
    ("(0020,9157)", append_ints add_DIVs);
    ("(0020,9158)", append add_frame_comments);
    ("(0028,0008)", assign_int set_frames);
    ("(0028,0010)", assign_int set_rows);
    ("(0028,0011)", assign_int set_cols);
    ("(0028,0030)", assign_floats set_pixspac) ].

(** The chain of [if]s: each test is made in turn on the same [tag]. *)
Fixpoint run_handlers (hs : list (string * handler)) (tag : string)
    (vals : pyval) (st : State) : result State :=
  match hs with
  | [] => OK st
  | (t, h) :: hs' =>
      st' <- (if String.eqb tag t then h vals st else OK st) ;;
      run_handlers hs' tag vals st'
  end.

Definition dispatch : string -> pyval -> State -> result State :=
  run_handlers handlers.

(** The tag of a line: [pline[0:11]] when [pline] has at least 11 characters
    and [(], [,], [)] at positions 0, 5 and 10. *)
Definition tag_of (pline : list ascii) : option string :=
  if (11 <=? List.length pline)%nat then
    match nth_error pline 0, nth_error pline 5, nth_error pline 10 with
    | Some "("%char, Some ","%char, Some ")"%char => Some (str (firstn 11 pline))
    | _, _, _ => None
    end
  else None.

Definition line_tag (line : string) : option string :=
  tag_of (lstrip_chars (chars line)).

(** [val = pline[:pline.rfind('#')].rstrip()[15:]], then the brackets are
    removed; [val[0]] raises on the empty string. *)
Definition raw_value (pline : list ascii) : result (list ascii) :=
  let val := skipn 15 (rstrip_chars (upto_last "#"%char pline)) in
  match val with
  | [] => Raise (IndexError "string index out of range")
  | c :: rest => if Ascii.eqb c "["%char then OK (removelast rest) else OK val
  end.

(** The separator of multi-valued fields, the character 92. *)
Definition backslash : ascii := ascii_of_nat 92.

(** [vals = val.split(backslash)], a one-element list becoming its
    element. *)
Definition components (val : list ascii) : pyval :=
  match split backslash (str val) with
  | [v] => PStr v
  | l => PList l
  end.

Definition scan_line (line : string) (st : State) : result State :=
  let pline := lstrip_chars (chars line) in
  match tag_of pline with
  | Some tag =>
      val <- raw_value pline ;;
      dispatch tag (components val) st
  | None => OK st
  end.

Fixpoint scan (lines : list string) (st : State) : result State :=
  match lines with
  | [] => OK st
  | line :: rest => st' <- scan_line line st ;; scan rest st'
  end.

(** ** The parameter table (source lines 260-288) *)

(** An entry of the table.  NumPy stores the text of each entry ([str] of a
    number, of a position list); the embedding keeps the value. *)
Inductive cell : Type :=
| CStr (s : string)
| CMulti (l : list string)
| CInt (z : Z)
| CFloat (x : float)
| CPos (p : list float).

Definition cell_of_val (v : pyval) : cell :=
  match v with
  | PStr s => CStr s
  | PList l => CMulti l
  end.

Definition NA : cell := CStr "NA".

(** [if len(x) != len(ISPnums): x = list(itertools.repeat('NA', len(ISPnums)))] *)
Definition na_unless_aligned {A : Type} (to_cell : A -> cell) (x : list A)
    (n : nat) : list cell :=
  if (List.length x =? n)%nat then map to_cell x else repeat NA n.

(** The eleven optional sequences after lines 260-281, in the order of the
    source. *)
Record Optional : Type := {
  o_diffdir : list cell;
  o_TIs : list cell;
  o_bval : list cell;
  o_bvalXX : list cell;
  o_bvalXY : list cell;
  o_bvalXZ : list cell;
  o_bvalYY : list cell;
  o_bvalYZ : list cell;
  o_bvalZZ : list cell;
  o_repno : list cell;
  o_frame_comments : list cell
}.

Definition normalise (f : Frames) : Optional :=
  let n := List.length (ISPnums f) in
  {| o_diffdir := na_unless_aligned cell_of_val (diffdir f) n;
     o_TIs := na_unless_aligned CFloat (TIs f) n;
     o_bval := na_unless_aligned CFloat (bval f) n;
     o_bvalXX := na_unless_aligned CFloat (bvalXX f) n;
     o_bvalXY := na_unless_aligned CFloat (bvalXY f) n;
     o_bvalXZ := na_unless_aligned CFloat (bvalXZ f) n;
     o_bvalYY := na_unless_aligned CFloat (bvalYY f) n;
     o_bvalYZ := na_unless_aligned CFloat (bvalYZ f) n;
     o_bvalZZ := na_unless_aligned CFloat (bvalZZ f) n;
     o_repno := na_unless_aligned CInt (repno f) n;
     o_frame_comments := na_unless_aligned cell_of_val (frame_comments f) n |}.

(** The twelve lists given to the first [np.array], in the order of the
    source; [IPPs_str] is [map CPos]. *)
Definition table_columns (f : Frames) (o : Optional) : list (list cell) :=
  [ o_repno o; map CInt (ISPnums f); o_diffdir o; o_TIs o; o_bval o;
    o_bvalXX o; o_bvalXY o; o_bvalXZ o; o_bvalYY o; o_bvalYZ o; o_bvalZZ o;
    map CPos (IPPs f) ].

Definition is_scalar (c : cell) : bool :=
  match c with
  | CMulti _ => false
  | _ => true
  end.

Definition same_length {A : Type} (n : nat) (ls : list (list A)) : bool :=
  forallb (fun l => (List.length l =? n)%nat) ls.

(** Row [i] of the transpose of a list of columns. *)
Definition transpose {A : Type} (d : A) (n : nat) (columns : list (list A))
  : list (list A) :=
  map (fun i => map (fun c => nth i c d) columns) (seq 0 n).

Definition inhomogeneous : PyError :=
  ValueError "setting an array element with a sequence: inhomogeneous shape".

Definition hstack_mismatch : PyError :=
  ValueError "all the input arrays must have same number of dimensions and matching sizes".

(** [np.array([...twelve lists...]).T]: the lists must have one length and
    hold scalars (NumPy 1.24 and later raise on a ragged nesting; earlier
    versions build a one-dimensional array of lists, on which the later
    [hstack] raises). *)
Definition first_block (f : Frames) (o : Optional) : result (list (list cell)) :=
  let columns := table_columns f o in
  let n := List.length (o_repno o) in
  if same_length n columns && forallb (forallb is_scalar) columns
  then OK (transpose NA n columns)
  else Raise inhomogeneous.

Definition multi (c : cell) : option (list string) :=
  match c with
  | CMulti l => Some l
  | _ => None
  end.

Fixpoint all_multi (l : list cell) : option (list (list string)) :=
  match l with
  | [] => Some []
  | c :: l' =>
      match multi c, all_multi l' with
      | Some x, Some xs => Some (x :: xs)
      | _, _ => None
      end
  end.

(** [np.atleast_2d(frame_comments).T]: one column of scalars; when every
    comment is a list of [k] components the array is already two-dimensional
    and its transpose has [k] rows. *)
Definition comment_block (fc : list cell) : result (list (list cell)) :=
  if forallb is_scalar fc then OK (map (fun c => [c]) fc)
  else
    match all_multi fc with
    | Some (x :: xs) =>
        let k := List.length x in
        if same_length k xs
        then OK (transpose NA k (map (map CStr) (x :: xs)))
        else Raise inhomogeneous
    | _ => Raise inhomogeneous
    end.

(** [np.array(DIVs)] as [hstack] sees it: two-dimensional unless the list is
    empty or ragged. *)
Definition div_block (divs : list (list Z)) : result (list (list cell)) :=
  match divs with
  | [] => Raise hstack_mismatch
  | d :: ds =>
      if same_length (List.length d) ds then OK (map (map CInt) divs)
      else Raise inhomogeneous
  end.

Fixpoint hstack3 {A : Type} (a b c : list (list A)) : list (list A) :=
  match a, b, c with
  | x :: a', y :: b', z :: c' => (x ++ y ++ z)%list :: hstack3 a' b' c'
  | _, _, _ => []
  end.

(** [ptbl_data]: the three blocks side by side; their row counts must
    agree. *)
Definition build_ptbl (f : Frames) : result (list (list cell)) :=
  let o := normalise f in
  a <- first_block f o ;;
  b <- comment_block (o_frame_comments o) ;;
  c <- div_block (DIVs f) ;;
  if (List.length a =? List.length b)%nat && (List.length a =? List.length c)%nat
  then OK (hstack3 a b c)
  else Raise hstack_mismatch.

(** [slices = max(ISPnums)] (source line 290) *)
Definition py_max (l : list Z) : result Z :=
  match l with
  | [] => Raise (ValueError "max() arg is an empty sequence")
  | x :: l' => OK (fold_left Z.max l' x)
  end.

(** ** The volume (source lines 302-304)

    An [ndarray] is a view on a flat buffer: a shape and, per axis, the
    distance in elements between neighbours.  [np.reshape] of a C-contiguous
    array keeps the buffer and installs row-major strides; [np.transpose]
    permutes shape and strides and moves no sample. *)

Record ndarray : Type := {
  shape : list Z;
  strides : list Z;
  buffer : list Z
}.

Definition size_of (dims : list Z) : Z := fold_right Z.mul 1 dims.

Fixpoint c_strides (dims : list Z) : list Z :=
  match dims with
  | [] => []
  | _ :: rest => size_of rest :: c_strides rest
  end.

Definition cannot_reshape : PyError :=
  ValueError "cannot reshape array into shape".

(** NumPy's resolution of the requested shape: a negative entry is the one
    dimension to infer; otherwise the sizes must agree. *)
Definition fix_shape (size : Z) (dims : list Z) : result (list Z) :=
  let known := size_of (filter (fun d => 0 <=? d) dims) in
  match filter (fun d => d <? 0) dims with
  | [] => if known =? size then OK dims else Raise cannot_reshape
  | [_] =>
      if (known =? 0) || negb (size mod known =? 0) then Raise cannot_reshape
      else OK (map (fun d => if d <? 0 then size / known else d) dims)
  | _ => Raise (ValueError "can only specify one unknown dimension")
  end.

Definition np_reshape (samples : list Z) (newshape : list Z) : result ndarray :=
  dims <- fix_shape (Z.of_nat (List.length samples)) newshape ;;
  OK {| shape := dims; strides := c_strides dims; buffer := samples |}.

Definition permute (axes : list nat) (l : list Z) : list Z :=
  map (fun k => nth k l 0) axes.

Definition np_transpose (a : ndarray) (axes : list nat) : ndarray :=
  {| shape := permute axes (shape a);
     strides := permute axes (strides a);
     buffer := buffer a |}.

(** The buffer position of a full index; a negative index counts from the
    end of its axis. *)
Fixpoint offset (dims strs idx : list Z) : result Z :=
  match dims, strs, idx with
  | [], [], [] => OK 0
  | d :: dims', s :: strs', i :: idx' =>
      if (i <? - d) || (d <=? i)
      then Raise (IndexError "index is out of bounds for axis")
      else
        o <- offset dims' strs' idx' ;;
        OK ((if i <? 0 then i + d else i) * s + o)
  | _, _, _ => Raise (IndexError "wrong number of indices")
  end.

(** [a[i0, i1, ...]] with one index per axis. *)
Definition getitem (a : ndarray) (idx : list Z) : result Z :=
  o <- offset (shape a) (strides a) idx ;;
  item "buffer" (buffer a) (Z.to_nat o).

(** [int(frames / slices)]: the quotient truncated towards zero (the float
    division is exact enough for counts below 2^53). *)
Definition repetitions (f slices : Z) : result Z :=
  if slices =? 0 then Raise ZeroDivisionError else OK (Z.quot f slices).

(** Lines 302-304 on the values of [frames], [rows], [cols] and [slices]. *)
Definition reshape_frames (rawarray : list Z) (f r c slices : Z)
  : result ndarray :=
  a1 <- np_reshape rawarray [f; r; c] ;;
  reps <- repetitions f slices ;;
  a2 <- np_reshape (buffer a1) [reps; slices; r; c] ;;
  OK (np_transpose a2 [3; 2; 1; 0]%nat).

Definition reshape_volume (sc : Scalars) (slices : Z) (rawarray : list Z)
  : result ndarray :=
  f <- local "frames" (frames sc) ;;
  r <- local "rows" (rows sc) ;;
  c <- local "cols" (cols sc) ;;
  reshape_frames rawarray f r c slices.

(** ** Slice geometry (source lines 307-319) *)

Inductive pynum : Type :=
| PInt (z : Z)
| PFloat (x : float).

Definition neg (v : pynum) : pynum :=
  match v with
  | PInt z => PInt (- z)
  | PFloat x => PFloat (fneg x)
  end.

(** The conversion done by [np.matrix] on an entry. *)
Definition to_float (v : pynum) : float :=
  match v with
  | PInt z => of_int z
  | PFloat x => x
  end.

(** [np.array(IPPs)[np.array(ISPnums) == k].tolist()[0]]: the position of the
    first frame whose in-stack position number is [k]. *)
Definition rows_where (k : Z) (positions : list (list float)) (nums : list Z)
  : list (list float) :=
  map fst (filter (fun pn => snd pn =? k) (combine positions nums)).

Definition rectangular {A : Type} (ls : list (list A)) : bool :=
  match ls with
  | [] => true
  | l :: ls' => same_length (List.length l) ls'
  end.

Definition position_of (k : Z) (positions : list (list float)) (nums : list Z)
  : result (list float) :=
  if negb (rectangular positions) then Raise inhomogeneous
  else if negb (List.length positions =? List.length nums)%nat
  then Raise (IndexError "boolean index did not match indexed array")
  else item "list index out of range" (rows_where k positions nums) 0.

Fixpoint vsub (a b : list float) : list float :=
  match a, b with
  | x :: a', y :: b' => fsub x y :: vsub a' b'
  | _, _ => []
  end.

(** [(d[0] ** 2 + d[1] ** 2 + d[2] ** 2) ** 0.5] *)
Definition euclid (d : list float) : result float :=
  d0 <- item "index 0 is out of bounds" d 0 ;;
  d1 <- item "index 1 is out of bounds" d 1 ;;
  d2 <- item "index 2 is out of bounds" d 2 ;;
  OK (fpow (fadd (fadd (fpow d0 (of_int 2)) (fpow d1 (of_int 2)))
                 (fpow d2 (of_int 2))) fhalf).

Record Geometry : Type := {
  fsp : list float;
  lsp : list float;
  eucliddist : float;
  step : list pynum;
  slicegap : option float
}.

Definition slice_geometry (positions : list (list float)) (nums : list Z)
    (slices : Z) : result Geometry :=
  first <- position_of 1 positions nums ;;
  last <- position_of slices positions nums ;;
  let flspdiff := vsub first last in
  dist <- euclid flspdiff ;;
  OK (if slices =? 1
      then {| fsp := first; lsp := last; eucliddist := dist;
              step := [PInt 0; PInt 0; PInt (-1)]; slicegap := None |}
      else {| fsp := first; lsp := last; eucliddist := dist;
              step := map (fun x => PFloat (fdiv x (of_int (1 - slices))))
                          flspdiff;
              slicegap := Some (fdiv dist (of_int (slices - 1))) |}).

(** ** The affine (source lines 321-342) *)

(** [cosines[i]] and [pixspac[j]], read in this order. *)
Definition cosine_spacing (sc : Scalars) (i j : nat) : result (float * float) :=
  cs <- local "cosines" (cosines sc) ;;
  c <- item "cosines" cs i ;;
  px <- local "pixspac" (pixspac sc) ;;
  s <- item "pixspac" px j ;;
  OK (c, s).

(** The literal given to [np.matrix], its entries evaluated row by row. *)
Definition base_affine (sc : Scalars) (g : Geometry) : result (matrix float) :=
  '(c0, s1) <- cosine_spacing sc 0 1 ;;
  '(c3, s0) <- cosine_spacing sc 3 0 ;;
  t0 <- item "step" (step g) 0 ;;
  p0 <- item "fsp" (fsp g) 0 ;;
  '(c1, s1') <- cosine_spacing sc 1 1 ;;
  '(c4, s0') <- cosine_spacing sc 4 0 ;;
  t1 <- item "step" (step g) 1 ;;
  p1 <- item "fsp" (fsp g) 1 ;;
  '(c2, s1'') <- cosine_spacing sc 2 1 ;;
  '(c5, s0'') <- cosine_spacing sc 5 0 ;;
  t2 <- item "step" (step g) 2 ;;
  p2 <- item "fsp" (fsp g) 2 ;;
  OK [ [fmul (fneg c0) s1; fmul (fneg c3) s0; to_float (neg t0); fneg p0];
       [fmul (fneg c1) s1'; fmul (fneg c4) s0'; to_float (neg t1); fneg p1];
       [fmul c2 s1''; fmul c5 s0''; to_float t2; p2];
       [of_int 0; of_int 0; of_int 0; of_int 1] ].

(** [np.eye(4, dtype=int)] *)
Definition affineident : matrix float :=
  [ [of_int 1; of_int 0; of_int 0; of_int 0];
    [of_int 0; of_int 1; of_int 0; of_int 0];
    [of_int 0; of_int 0; of_int 1; of_int 0];
    [of_int 0; of_int 0; of_int 0; of_int 1] ].

(** Lines 330-336: [ppaff] is assigned only for the three codes. *)
Definition patient_position_affine (code : pyval) : option (matrix float) :=
  let ppaff := None in
  let ppaff :=
    if pyval_eqb_str code "HFS" then Some (_rotate_affine 180 "y") else ppaff in
  let ppaff :=
    if pyval_eqb_str code "FFS" then Some affineident else ppaff in
  let ppaff :=
    if pyval_eqb_str code "HFP" then Some (_rotate_affine 180 "x") else ppaff in
  ppaff.

(** Lines 330-342: the affine given to the image and what [print] wrote. *)
Definition orient (siap_fix : bool) (sc : Scalars) (affine : matrix float)
  : result (matrix float * list string) :=
  code <- local "patpos" (patpos sc) ;;
  let ppaff := patient_position_affine code in
  if siap_fix then
    let r := matmul (matmul (_rotate_affine 270 "x") (_rotate_affine 180 "y"))
                    (_rotate_affine 180 "z") in
    pp <- local "ppaff" ppaff ;;
    OK (matmul (matmul r pp) affine, [])
  else OK (affine, ["siap_fix is False"]).

(** ** Output naming (source lines 351-382) *)

Record Options : Type := {
  siap_fix : bool;
  id_in_filename : bool;
  date_in_filename : bool;
  time_in_filename : bool;
  protocol_in_filename : bool;
  paravision_folder_in_filename : bool;
  siap_in_filename : bool
}.

(** [l[-k]] for a positive literal [k]. *)
Definition item_from_end {A : Type} (what : string) (l : list A) (k : nat)
  : result A :=
  if (k <=? List.length l)%nat then item what l (List.length l - k)
  else Raise (IndexError what).

(** [os.path.basename] and the two-argument [os.path.join] of [posixpath];
    [os.sep] is [/]. *)
Definition basename (path : string) : string :=
  let l := chars path in
  match rfind_chars "/"%char l with
  | Some k => str (skipn (S k) l)
  | None => path
  end.

Definition endswith_sep (a : string) : bool :=
  match rev (chars a) with
  | c :: _ => Ascii.eqb c "/"%char
  | [] => false
  end.

Definition path_join (a b : string) : string :=
  if String.prefix "/" b then b
  else if String.eqb a EmptyString || endswith_sep a then a ++ b
  else a ++ "/" ++ b.

(** [if flag: basename_parts.append(''.join(value))] *)
Definition append_part (flag : bool) (value : result pyval)
    (basename_parts : list string) : result (list string) :=
  if flag then v <- value ;; OK (basename_parts ++ [join_val EmptyString v])%list
  else OK basename_parts.

Definition naming_warning : string :=
  "You choose not to include ID, date, time, protocol, SIAP nor paravision folder number in the NIFTI filename. Using the DICOM basename instead".

Record Names : Type := {
  basename_no_ext : string;
  nii_path : string;
  txt_path : string;
  warnings : list string
}.

(** [dicom_filename] and [save_directory] are the absolute, normalised paths
    that [os.path.abspath] returned. *)
Definition output_names (o : Options) (sc : Scalars)
    (dicom_filename save_directory : string) : result Names :=
  folder <- item_from_end "list index out of range"
              (split "/"%char dicom_filename) 5 ;;
  let bf := "bf" ++ folder in
  let SIAPfixres := if siap_fix o then "fixedSIAP" else "origSIAP" in
  parts <- append_part (id_in_filename o) (local "patID" (patID sc)) [] ;;
  parts <- append_part (date_in_filename o) (local "acqdate" (acqdate sc)) parts ;;
  parts <- append_part (time_in_filename o) (local "acqtime" (acqtime sc)) parts ;;
  parts <- append_part (protocol_in_filename o) (OK (protocol sc)) parts ;;
  parts <- append_part (siap_in_filename o) (OK (PStr SIAPfixres)) parts ;;
  parts <- append_part (paravision_folder_in_filename o) (OK (PStr bf)) parts ;;
  let '(basename_parts, warned) :=
    match parts with
    | [] => (PStr (basename dicom_filename), [naming_warning])
    | _ => (PList parts, [])
    end in
  let stem := join_val "_" basename_parts in
  OK {| basename_no_ext := stem;
        nii_path := path_join save_directory (stem ++ ".nii.gz");
        txt_path := path_join save_directory (stem ++ "_ptbl.txt");
        warnings := warned |}.

(** ** The conversion *)

(** What [dcm_to_nii] hands to nibabel and [np.savetxt], the path it returns
    and the diagnostics it emitted. *)
Record Converted : Type := {
  volume : ndarray;
  affine : matrix float;
  pixdim4 : option float;
  ptbl_data : list (list cell);
  nii_filename : string;
  txt_filename : string;
  diagnostics : list string
}.

(** Lines 260-391 on the state left by the scan. *)
Definition convert (st : State) (rawarray : list Z)
    (dicom_filename save_directory : string) (o : Options) : result Converted :=
  let sc := scalars st in
  let fr := per_frame st in
  table <- build_ptbl fr ;;
  slices <- py_max (ISPnums fr) ;;
  vol <- reshape_volume sc slices rawarray ;;
  g <- slice_geometry (IPPs fr) (ISPnums fr) slices ;;
  base <- base_affine sc g ;;
  '(aff, printed) <- orient (siap_fix o) sc base ;;
  names <- output_names o sc dicom_filename save_directory ;;
  OK {| volume := vol;
        affine := aff;
        pixdim4 := TR sc;
        ptbl_data := table;
        nii_filename := nii_path names;
        txt_filename := txt_path names;
        diagnostics := (printed ++ warnings names)%list |}.

Definition dcm_to_nii (dcmdump_output : list string) (rawarray : list Z)
    (dicom_filename save_directory : string) (o : Options) : result Converted :=
  st <- scan dcmdump_output initial_state ;;
  convert st rawarray dicom_filename save_directory o.

(** [_is_dicom]: the name starts with [EnIm] and ends with [.dcm]. *)
Definition startswith (p s : string) : bool := String.prefix p s.

Definition endswith (p s : string) : bool :=
  String.prefix (str (rev (chars p))) (str (rev (chars s))).

Definition _is_dicom (filename : string) : bool :=
  if startswith "EnIm" filename && endswith ".dcm" filename then true
  else false.




(** ** Vocabulary of the statements *)

(** [line] is a tag line of the dump carrying the tag [t]. *)
Definition has_tag (t : string) (line : string) : bool :=
  match line_tag line with
  | Some t' => String.eqb t' t
  | None => false
  end.

(** No line of the dump carries the tag [t]. *)
Definition tag_absent (t : string) (dump : list string) : bool :=
  forallb (fun line => negb (has_tag t line)) dump.

(** Column [k] of a table given by its rows. *)
Definition column {A : Type} (d : A) (k : nat) (table : list (list A)) : list A :=
  map (fun row => nth k row d) table.

(** The codes for which [ppaff] is assigned. *)
Definition supported_position (code : pyval) : bool :=
  pyval_eqb_str code "HFS" || pyval_eqb_str code "FFS"
  || pyval_eqb_str code "HFP".

(** The tags of the variables that the geometry reads without a default:
    orientation cosines, pixel spacing, rows, columns, number of frames. *)
Definition required_tags : list string :=
  [ "(0020,0037)"; "(0028,0030)"; "(0028,0010)"; "(0028,0011)";
    "(0028,0008)" ].

Definition unset {A : Type} (v : option A) : bool :=
  match v with
  | Some _ => false
  | None => true
  end.

(** The variables that a line with tag [tag] does not assign. *)
Definition keeps (tag : string) (st st' : State) : Prop :=
  (tag <> "(0028,0008)" -> frames (scalars st') = frames (scalars st)) /\
  (tag <> "(0028,0010)" -> rows (scalars st') = rows (scalars st)) /\
  (tag <> "(0028,0011)" -> cols (scalars st') = cols (scalars st)) /\
  (tag <> "(0020,0037)" -> cosines (scalars st') = cosines (scalars st)) /\
  (tag <> "(0028,0030)" -> pixspac (scalars st') = pixspac (scalars st)) /\
  (tag <> "(0020,9057)" ->
   ISPnums (per_frame st') = ISPnums (per_frame st)).

(** The variable assigned by the tag [t] is the same in both states. *)
Definition untouched (t : string) (st st' : State) : Prop :=
  (t = "(0028,0008)" -> frames (scalars st') = frames (scalars st)) /\
  (t = "(0028,0010)" -> rows (scalars st') = rows (scalars st)) /\
  (t = "(0028,0011)" -> cols (scalars st') = cols (scalars st)) /\
  (t = "(0020,0037)" -> cosines (scalars st') = cosines (scalars st)) /\
  (t = "(0028,0030)" -> pixspac (scalars st') = pixspac (scalars st)) /\
  (t = "(0020,9057)" ->
   ISPnums (per_frame st') = ISPnums (per_frame st)).

(** What lines 260-281 leave in a variable: the sequence itself when it has
    one entry per in-stack position number, [n] times the string ["NA"]
    otherwise. *)
Definition all_or_nothing {A : Type} (to_cell : A -> cell) (x : list A)
    (n : nat) (now : list cell) : Prop :=
  (List.length x <> n -> now = repeat (CStr "NA") n) /\
  (List.length x = n -> now = map to_cell x).

(** ** Options and scans of the concrete inputs *)

(** Every name component on; the axis correction as given. *)
Definition named (fix_axes : bool) : Options :=
  {| siap_fix := fix_axes; id_in_filename := true; date_in_filename := true;
     time_in_filename := true; protocol_in_filename := true;
     paravision_folder_in_filename := true; siap_in_filename := true |}.

(** Every name component off. *)
Definition unnamed (fix_axes : bool) : Options :=
  {| siap_fix := fix_axes; id_in_filename := false; date_in_filename := false;
     time_in_filename := false; protocol_in_filename := false;
     paravision_folder_in_filename := false; siap_in_filename := false |}.

(** The state a scan ends in ([initial_state] stands for a scan that
    raised). *)
Definition scanned (dump : list string) : State :=
  match scan dump initial_state with
  | OK st => st
  | Raise _ => initial_state
  end.

(** ** Further example inputs *)

(** The study of [sample_dump] with a repetition time, a slice thickness, an
    acquisition type, a tag that the scan does not read and a line of text. *)
Definition extended_dump : list string :=
  (sample_dump
   ++ [ "(0018,0080) DS [2500]                          #   4, 1 RepetitionTime";
        "(0018,0050) DS [0.8]                           #   4, 1 SliceThickness";
        "(0018,0023) CS [2D]                            #   2, 1 MRAcquisitionType";
        "(0028,0100) US 16                              #   2, 1 BitsAllocated";
        "dcmdump: end of file" ])%list.

(** A tag line that ends after the value representation. *)
Definition valueless_line : string := "(0018,9075) CS".

(** A Rows line whose value is no integer. *)
Definition bad_rows_line : string :=
  "(0028,0010) US many                            #   2, 1 Rows".

(** The study of [sample_dump] without its Patient ID line. *)
Definition anonymous_dump : list string :=
  filter (fun line => negb (String.prefix "(0010,0020)" line)) sample_dump.

(** A second Number of Frames line. *)
Definition frames_line : string :=
  "(0028,0008) IS [8]                             #   2, 1 NumberOfFrames".

(** ** Tag lines of a dump and their counts *)

(** The tags that the scan reads, in the order of the source. *)
Definition known_tags : list string := map fst handlers.

(** [line] passes the two tests of lines 180-181. *)
Definition is_tag_line (line : string) : bool :=
  match line_tag line with
  | Some _ => true
  | None => false
  end.

(** The number of lines of the dump that carry the tag [t]. *)
Definition count_tag (t : string) (dump : list string) : nat :=
  List.length (filter (has_tag t) dump).

(** The fourteen lists of lines 148-161 with the tags that append to them. *)
Definition frame_lists : list (string * (Frames -> nat)) :=
  [ ("(0018,9075)", fun f => List.length (diffdir f));
    ("(0018,9079)", fun f => List.length (TIs f));
    ("(0018,9087)", fun f => List.length (bval f));
    ("(0018,9602)", fun f => List.length (bvalXX f));
    ("(0018,9603)", fun f => List.length (bvalXY f));
    ("(0018,9604)", fun f => List.length (bvalXZ f));
    ("(0018,9605)", fun f => List.length (bvalYY f));
    ("(0018,9606)", fun f => List.length (bvalYZ f));
    ("(0018,9607)", fun f => List.length (bvalZZ f));
    ("(0020,0032)", fun f => List.length (IPPs f));
    ("(0020,9057)", fun f => List.length (ISPnums f));
    ("(0020,9128)", fun f => List.length (repno f));
    ("(0020,9157)", fun f => List.length (DIVs f));
    ("(0020,9158)", fun f => List.length (frame_comments f)) ].

(** The decoded value field of a tag line. *)
Definition line_value (line : string) : result pyval :=
  val <- raw_value (lstrip_chars (chars line)) ;;
  OK (components val).

(** The text of the value field before the brackets are removed:
    [pline[:pline.rfind('#')].rstrip()[15:]]. *)
Definition value_field (line : string) : list ascii :=
  skipn 15 (rstrip_chars (upto_last "#"%char (lstrip_chars (chars line)))).

(** [line] is a tag line whose tag is one of those that the scan reads. *)
Definition recognised (line : string) : bool :=
  match line_tag line with
  | Some t => existsb (String.eqb t) known_tags
  | None => false
  end.

(** The values of the lines carrying the tag [t], in the order of the dump. *)
Definition values_of {A : Type} (parse : pyval -> result A) (t : string)
    (dump : list string) : result (list A) :=
  mapM (fun line => v <- line_value line ;; parse v) (filter (has_tag t) dump).

(** The tags whose value goes through [int]. *)
Definition int_tags : list string :=
  [ "(0020,9057)"; "(0020,9128)"; "(0028,0008)"; "(0028,0010)";
    "(0028,0011)" ].


(** The tags whose variables ([acqdims], [thk], [bruker_sequence]) are
    assigned by the scan and read nowhere after it. *)
Definition unused_tags : list string :=
  [ "(0018,0023)"; "(0018,0050)"; "(0018,9005)" ].

Definition carries_unused (line : string) : bool :=
  existsb (fun t => has_tag t line) unused_tags.

(** The scan accepts the line: it has a value, a float for [thk]. *)
Definition accepted_unused (line : string) : bool :=
  if has_tag "(0018,0050)" line
  then match (v <- line_value line ;; py_float v) with
       | OK _ => true
       | Raise _ => false
       end
  else match line_value line with
       | OK _ => true
       | Raise _ => false
       end.

(** The state without the three variables that nothing reads. *)
Definition used_part (st : State) : State :=
  let sc := scalars st in
  {| scalars :=
       {| acqdate := acqdate sc; acqtime := acqtime sc; patID := patID sc;
          acqdims := None; thk := None; TR := TR sc; protocol := protocol sc;
          patpos := patpos sc; bruker_sequence := PList [];
          cosines := cosines sc; frames := frames sc; rows := rows sc;
          cols := cols sc; pixspac := pixspac sc |};
     per_frame := per_frame st |}.

(** ** [recursive_dcm_to_nii] (source lines 394-430)

    A directory as [os.walk] lists it: its file names and its
    sub-directories, each in listing order.  The session directory is an
    absolute, normalised path, so that the paths joined from it are the ones
    [os.path.abspath] returns in [dcm_to_nii]; the tree does not change
    during the walk.  [dcmdump] stands for the two runs of the external
    tool: the dump text and the raw sample vector of a file. *)

#[warnings="-register-all"] Inductive directory : Type :=
| Dir (files : list string) (dirs : list (string * directory)).

(** [os.walk(top)]: the directory itself, then each sub-directory in turn. *)
Fixpoint walk (top : string) (d : directory) : list (string * list string) :=
  match d with
  | Dir files dirs =>
      (top, files)
      :: flat_map (fun entry => walk (path_join top (fst entry)) (snd entry))
                  dirs
  end.

(** The paths given to [dcm_to_nii], in the order of the two loops. *)
Definition dicom_files (session_directory : string) (session : directory)
  : list string :=
  flat_map (fun visit => map (path_join (fst visit))
                             (filter _is_dicom (snd visit)))
           (walk session_directory session).

(** The tree without the files that [_is_dicom] rejects. *)
Fixpoint only_dicom (d : directory) : directory :=
  match d with
  | Dir files dirs =>
      Dir (filter _is_dicom files)
          (map (fun entry => (fst entry, only_dicom (snd entry))) dirs)
  end.

(** A session with one file at the top and one in a sub-directory. *)
Definition session_top : string := "/data/s1/7/pdata/1/dicom".

Definition small_session : directory :=
  Dir ["EnIm1.dcm"; "notes.txt"] [("more", Dir ["visu_pars"; "EnIm2.dcm"] [])].

Definition convert_file (dcmdump : string -> list string * list Z)
    (save_directory : string) (o : Options) (path : string) : result string :=
  r <- dcm_to_nii (fst (dcmdump path)) (snd (dcmdump path)) path
         save_directory o ;;
  OK (nii_filename r).

Definition recursive_dcm_to_nii (dcmdump : string -> list string * list Z)
    (session_directory : string) (session : directory)
    (save_directory : string) (o : Options) : result (list string) :=
  mapM (convert_file dcmdump save_directory o)
       (dicom_files session_directory session).

(** * Properties *)

(** ** Generic facts on the error monad *)

Lemma bind_OK {A B : Type} (m : result A) (k : A -> result B) (b : B) :
  bind m k = OK b -> exists a, m = OK a /\ k a = OK b.
Proof.
  destruct m as [a | e]; simpl; intros H.
  - exists a. split; [reflexivity | exact H].
  - discriminate H.
Qed.

Lemma failed_bind {A B : Type} (m : result A) (k : A -> result B) :
  failed m -> failed (bind m k).
Proof.
  intros [e He]. exists e. rewrite He. reflexivity.
Qed.

Lemma failed_bind_each {A B : Type} (m : result A) (k : A -> result B) :
  (forall a, m = OK a -> failed (k a)) -> failed (bind m k).
Proof.
  intros H. destruct m as [a | e]; simpl.
  - apply H. reflexivity.
  - exists e. reflexivity.
Qed.

Lemma failed_not_OK {A : Type} (m : result A) (a : A) :
  failed m -> m <> OK a.
Proof.
  intros [e He] H. rewrite He in H. discriminate H.
Qed.

(** Splits a hypothesis [x <- m ;; k = OK b] into its stages. *)
Ltac stages H :=
  match type of H with
  | bind ?m ?k = OK ?b =>
      let a := fresh "a" in
      let Hm := fresh "Stage" in
      apply bind_OK in H; destruct H as (a & Hm & H);
      try match type of a with
          | (_ * _)%type => destruct a
          end;
      stages H
  | _ => idtac
  end.

(** ** The volume reshape *)

Lemma filter_nonnegative (dims : list Z) :
  Forall (fun d => 0 <= d) dims ->
  filter (fun d => 0 <=? d) dims = dims /\ filter (fun d => d <? 0) dims = [].
Proof.
  induction 1 as [| d dims Hd _ [IH1 IH2]]; simpl.
  - split; reflexivity.
  - destruct (Z.leb_spec 0 d); [| lia].
    destruct (Z.ltb_spec d 0); [lia |].
    rewrite IH1, IH2. split; reflexivity.
Qed.

Lemma fix_shape_exact (size : Z) (dims : list Z) :
  Forall (fun d => 0 <= d) dims -> size_of dims = size ->
  fix_shape size dims = OK dims.
Proof.
  intros Hpos Hsize. unfold fix_shape.
  destruct (filter_nonnegative dims Hpos) as [-> ->].
  rewrite Hsize, Z.eqb_refl. reflexivity.
Qed.

Lemma fix_shape_mismatch (size : Z) (dims : list Z) :
  Forall (fun d => 0 <= d) dims -> size_of dims <> size ->
  fix_shape size dims = Raise cannot_reshape.
Proof.
  intros Hpos Hsize. unfold fix_shape.
  destruct (filter_nonnegative dims Hpos) as [-> ->].
  destruct (Z.eqb_spec (size_of dims) size); [contradiction | reflexivity].
Qed.

Lemma item_in_range {A : Type} (what : string) (l : list A) (i : nat) :
  (i < List.length l)%nat -> exists x, item what l i = OK x /\ nth_error l i = Some x.
Proof.
  intros Hi. unfold item. destruct (nth_error l i) as [x |] eqn:E.
  - exists x. split; reflexivity.
  - apply nth_error_None in E. lia.
Qed.

Lemma in_range_test (d i : Z) :
  0 <= i < d -> ((i <? - d) || (d <=? i)) = false /\ (i <? 0) = false.
Proof.
  intros H. repeat split.
  - apply orb_false_iff. split; [apply Z.ltb_ge | apply Z.leb_gt]; lia.
  - apply Z.ltb_ge. lia.
Qed.

(** When the slice count divides the frame count, lines 302-304 succeed and
    give the axes (columns, rows, slices, repetitions). *)
Lemma reshape_frames_divisible (rawarray : list Z) (f r c s : Z) :
  0 <= f -> 0 <= r -> 0 <= c -> 0 < s -> f mod s = 0 ->
  Z.of_nat (List.length rawarray) = f * r * c ->
  reshape_frames rawarray f r c s =
    OK {| shape := [c; r; s; f / s];
          strides := [1; c * 1; r * (c * 1); s * (r * (c * 1))];
          buffer := rawarray |}.
Proof.
  intros Hf Hr Hc Hs Hmod Hlen.
  assert (Hq : f = s * (f / s)) by (apply Z_div_exact_full_2; lia).
  assert (Hq0 : 0 <= f / s) by (apply Z.div_pos; lia).
  unfold reshape_frames, np_reshape.
  rewrite (fix_shape_exact _ [f; r; c]);
    [| repeat constructor; assumption | simpl; lia].
  simpl bind. unfold repetitions.
  destruct (Z.eqb_spec s 0); [lia |]. simpl bind.
  rewrite Z.quot_div_nonneg by lia.
  rewrite (fix_shape_exact _ [f / s; s; r; c]);
    [| repeat constructor; lia | simpl; nia].
  reflexivity.
Qed.

(** C1. For a frame count [f] that the slice count [s] divides, a buffer of
    [f * r * c] samples is reshaped into a volume with axes (columns, rows,
    slices, repetitions), and voxel [(col, row, slice, rep)] of the volume is
    the sample at flat index
    [rep * s * r * c + slice * r * c + row * c + col]. *)
Theorem reshape_reads_back (rawarray : list Z) (f s r c col row slice rep : Z) :
  f mod s = 0 ->
  Z.of_nat (List.length rawarray) = f * r * c ->
  0 <= col < c -> 0 <= row < r -> 0 <= slice < s -> 0 <= rep < f / s ->
  exists vol x,
    reshape_frames rawarray f r c s = OK vol /\
    shape vol = [c; r; s; f / s] /\
    getitem vol [col; row; slice; rep] = OK x /\
    nth_error rawarray
      (Z.to_nat (rep * s * r * c + slice * r * c + row * c + col)) = Some x.
Proof.
  intros Hmod Hlen Hcol Hrow Hslice Hrep.
  assert (Hs : 0 < s) by lia.
  assert (Hf : 0 <= f).
  { destruct (Z.lt_ge_cases f 0) as [Hneg | Hnn]; [| exact Hnn].
    assert (f / s < 0) by (apply Z.div_lt_upper_bound; lia). lia. }
  assert (Hq : f = s * (f / s)) by (apply Z_div_exact_full_2; lia).
  set (i := rep * s * r * c + slice * r * c + row * c + col).
  assert (Hi : 0 <= i < f * r * c).
  { assert (H1 : 0 <= row * c + col < r * c) by nia.
    assert (H2 : 0 <= slice * (r * c) + (row * c + col) < s * (r * c)) by nia.
    assert (H3 : 0 <= rep * (s * (r * c)) + (slice * (r * c) + (row * c + col))
                 < (f / s) * (s * (r * c))) by nia.
    assert (Hfrc : f * r * c = (f / s) * (s * (r * c))).
    { transitivity (s * (f / s) * r * c); [rewrite <- Hq; reflexivity | ring]. }
    rewrite Hfrc.
    replace i with (rep * (s * (r * c)) + (slice * (r * c) + (row * c + col)))
      by (unfold i; ring).
    exact H3. }
  destruct (item_in_range "buffer" rawarray (Z.to_nat i)) as (x & Hx & Hnth);
    [lia |].
  eexists. exists x.
  split; [apply reshape_frames_divisible; lia |].
  split; [reflexivity |].
  split; [| exact Hnth].
  unfold getitem. cbn [shape strides buffer offset].
  destruct (in_range_test c col Hcol) as [-> ->].
  destruct (in_range_test r row Hrow) as [-> ->].
  destruct (in_range_test s slice Hslice) as [-> ->].
  destruct (in_range_test (f / s) rep Hrep) as [-> ->].
  cbn [bind].
  replace (col * 1 + (row * (c * 1) + (slice * (r * (c * 1))
            + (rep * (s * (r * (c * 1))) + 0)))) with i by (unfold i; ring).
  exact Hx.
Qed.

(** ** The tag scan leaves alone what no line names *)

Lemma keeps_refl (tag : string) (st : State) : keeps tag st st.
Proof.
  unfold keeps. repeat split; reflexivity.
Qed.

Lemma keeps_trans (tag : string) (st1 st2 st3 : State) :
  keeps tag st1 st2 -> keeps tag st2 st3 -> keeps tag st1 st3.
Proof.
  unfold keeps.
  intros (A1 & A2 & A3 & A4 & A5 & A6) (B1 & B2 & B3 & B4 & B5 & B6).
  repeat split; intros Hne;
    [ rewrite (B1 Hne); exact (A1 Hne) | rewrite (B2 Hne); exact (A2 Hne)
    | rewrite (B3 Hne); exact (A3 Hne) | rewrite (B4 Hne); exact (A4 Hne)
    | rewrite (B5 Hne); exact (A5 Hne) | rewrite (B6 Hne); exact (A6 Hne) ].
Qed.

Lemma run_handlers_keeps (hs : list (string * handler)) (tag : string)
    (vals : pyval) :
  (forall t h st st', In (t, h) hs -> tag = t -> h vals st = OK st' ->
                      keeps tag st st') ->
  forall st st', run_handlers hs tag vals st = OK st' -> keeps tag st st'.
Proof.
  induction hs as [| [t h] hs IH]; intros Hall st st' Hrun; simpl in Hrun.
  - injection Hrun as <-. apply keeps_refl.
  - apply bind_OK in Hrun. destruct Hrun as (st1 & Hfirst & Hrest).
    apply keeps_trans with st1.
    + revert Hfirst. destruct (String.eqb_spec tag t) as [Heq | Hne];
        intros Hfirst.
      * apply (Hall t h); [left; reflexivity | exact Heq | exact Hfirst].
      * injection Hfirst as <-. apply keeps_refl.
    + apply IH; [| exact Hrest].
      intros t' h' s s' Hin. apply (Hall t' h'). right. exact Hin.
Qed.

Ltac handler_result H :=
  unfold assign, assign_float, assign_int, assign_floats, append,
    append_float, append_int, append_floats, append_ints in H;
  first [ injection H as <-
        | apply bind_OK in H; destruct H as (? & _ & H); injection H as <- ].

Lemma dispatch_keeps (tag : string) (vals : pyval) (st st' : State) :
  dispatch tag vals st = OK st' -> keeps tag st st'.
Proof.
  apply run_handlers_keeps.
  clear st st'. intros t h st st' Hin Htag Hh. subst t.
  destruct st as [sc fr]. destruct sc, fr.
  unfold handlers in Hin. simpl in Hin.
  repeat (destruct Hin as [Hin | Hin];
          [ injection Hin as <- <-; handler_result Hh;
            unfold keeps; simpl; repeat split; intros Hne;
            first [reflexivity | exfalso; apply Hne; reflexivity]
          | ]).
  contradiction.
Qed.

Lemma keeps_untouched (tag t : string) (st st' : State) :
  tag <> t -> keeps tag st st' -> untouched t st st'.
Proof.
  unfold keeps, untouched.
  intros Hne (A1 & A2 & A3 & A4 & A5 & A6).
  repeat split; intros ->; auto.
Qed.

Lemma scan_line_untouched (t : string) (line : string) (st st' : State) :
  has_tag t line = false -> scan_line line st = OK st' -> untouched t st st'.
Proof.
  unfold has_tag, line_tag, scan_line. intros Hno Hline.
  destruct (tag_of (lstrip_chars (chars line))) as [tag |].
  - apply bind_OK in Hline. destruct Hline as (val & _ & Hd).
    apply keeps_untouched with tag.
    + intros ->. rewrite String.eqb_refl in Hno. discriminate Hno.
    + apply dispatch_keeps with (vals := components val). exact Hd.
  - injection Hline as <-. unfold untouched. repeat split; reflexivity.
Qed.

(** A variable keeps its value through a scan none of whose lines carries
    its tag. *)
Lemma scan_untouched (t : string) (dump : list string) (st st' : State) :
  tag_absent t dump = true -> scan dump st = OK st' -> untouched t st st'.
Proof.
  revert st. induction dump as [| line dump IH]; intros st Habs Hscan.
  - injection Hscan as <-. unfold untouched. repeat split; reflexivity.
  - simpl in Habs. apply andb_true_iff in Habs. destruct Habs as [Hline Hrest].
    apply negb_true_iff in Hline.
    simpl in Hscan. apply bind_OK in Hscan.
    destruct Hscan as (st1 & Hfirst & Hscan).
    pose proof (scan_line_untouched t line st st1 Hline Hfirst) as U1.
    pose proof (IH st1 Hrest Hscan) as U2.
    unfold untouched in *.
    destruct U1 as (A1 & A2 & A3 & A4 & A5 & A6).
    destruct U2 as (B1 & B2 & B3 & B4 & B5 & B6).
    repeat split; intros Heq;
      [ rewrite (B1 Heq); exact (A1 Heq) | rewrite (B2 Heq); exact (A2 Heq)
      | rewrite (B3 Heq); exact (A3 Heq) | rewrite (B4 Heq); exact (A4 Heq)
      | rewrite (B5 Heq); exact (A5 Heq) | rewrite (B6 Heq); exact (A6 Heq) ].
Qed.

(** ** The slice count *)

Lemma fold_max_bounds (l : list Z) (x : Z) :
  x <= fold_left Z.max l x /\
  (forall z, In z l -> z <= fold_left Z.max l x) /\
  In (fold_left Z.max l x) (x :: l).
Proof.
  revert x. induction l as [| y l IH]; intros x; simpl.
  - repeat split; [lia | contradiction | left; reflexivity].
  - destruct (IH (Z.max x y)) as (Hlow & Hall & Hin).
    repeat split.
    + lia.
    + intros z [<- | Hz]; [lia | apply Hall; exact Hz].
    + destruct Hin as [Heq | Hin]; [| right; right; exact Hin].
      rewrite <- Heq.
      destruct (Z.max_spec x y) as [[_ ->] | [_ ->]];
        [right; left | left]; reflexivity.
Qed.

Lemma py_max_spec (l : list Z) (m : Z) :
  py_max l = OK m -> In m l /\ forall z, In z l -> z <= m.
Proof.
  destruct l as [| x l]; simpl; intros H; [discriminate H |].
  injection H as <-.
  destruct (fold_max_bounds l x) as (Hlow & Hall & Hin).
  split; [exact Hin |].
  intros z [<- | Hz]; [exact Hlow | apply Hall; exact Hz].
Qed.

(** ** Slice positions *)

Lemma rows_where_first (k : Z) (positions : list (list float)) (nums : list Z)
    (p : list float) :
  nth_error (rows_where k positions nums) 0 = Some p ->
  exists i, nth_error nums i = Some k /\ nth_error positions i = Some p /\
            forall j, (j < i)%nat -> nth_error nums j <> Some k.
Proof.
  unfold rows_where. revert nums.
  induction positions as [| q positions IH]; intros nums H.
  - discriminate H.
  - destruct nums as [| n nums]; [discriminate H |]. simpl in H.
    destruct (Z.eqb_spec n k) as [-> | Hne].
    + simpl in H. injection H as ->. exists 0%nat.
      repeat split. intros j Hj. lia.
    + destruct (IH nums H) as (i & Hn & Hp & Hmin). exists (S i).
      repeat split; [exact Hn | exact Hp |].
      intros [| j] Hj; simpl.
      * intros E. injection E as E. contradiction.
      * apply Hmin. lia.
Qed.

Lemma position_of_first (k : Z) (positions : list (list float)) (nums : list Z)
    (p : list float) :
  position_of k positions nums = OK p ->
  exists i, nth_error nums i = Some k /\ nth_error positions i = Some p /\
            forall j, (j < i)%nat -> nth_error nums j <> Some k.
Proof.
  unfold position_of, item. intros H.
  destruct (negb (rectangular positions)); [discriminate H |].
  destruct (negb (List.length positions =? List.length nums)%nat);
    [discriminate H |].
  destruct (nth_error (rows_where k positions nums) 0) as [q |] eqn:E;
    [| discriminate H].
  injection H as ->. apply rows_where_first. exact E.
Qed.

Lemma euclid_spec (d : list float) (dist : float) :
  euclid d = OK dist ->
  exists d0 d1 d2 rest,
    d = d0 :: d1 :: d2 :: rest /\
    dist = fpow (fadd (fadd (fpow d0 (of_int 2)) (fpow d1 (of_int 2)))
                      (fpow d2 (of_int 2))) fhalf.
Proof.
  unfold euclid, item. intros H.
  destruct d as [| d0 [| d1 [| d2 rest]]]; simpl in H; try discriminate H.
  injection H as <-. exists d0, d1, d2, rest. split; reflexivity.
Qed.

(** The stages of lines 307-319. *)
Lemma slice_geometry_OK (positions : list (list float)) (nums : list Z)
    (slices : Z) (g : Geometry) :
  slice_geometry positions nums slices = OK g ->
  exists first last dist,
    position_of 1 positions nums = OK first /\
    position_of slices positions nums = OK last /\
    euclid (vsub first last) = OK dist /\
    fsp g = first /\ lsp g = last /\ eucliddist g = dist /\
    step g = (if slices =? 1 then [PInt 0; PInt 0; PInt (-1)]
              else map (fun x => PFloat (fdiv x (of_int (1 - slices))))
                       (vsub first last)) /\
    slicegap g = (if slices =? 1 then None
                  else Some (fdiv dist (of_int (slices - 1)))).
Proof.
  unfold slice_geometry. intros H. stages H.
  exists a, a0, a1. repeat (split; [assumption |]).
  destruct (slices =? 1); injection H as <-; repeat split.
Qed.

(** C4. The step vector of a single-slice stack is (0, 0, -1) whatever the
    image positions; for more than one slice it is (fsp - lsp) / (1 - slices)
    and the inter-slice distance is the Euclidean norm of fsp - lsp divided
    by slices - 1, where fsp and lsp are the positions of the first frames
    whose in-stack position numbers are 1 and slices. *)
Theorem slice_step (positions : list (list float)) (nums : list Z)
    (slices : Z) (g : Geometry) :
  slice_geometry positions nums slices = OK g ->
  (exists i j,
      nth_error nums i = Some 1 /\ nth_error positions i = Some (fsp g) /\
      nth_error nums j = Some slices /\ nth_error positions j = Some (lsp g)) /\
  (slices = 1 -> step g = [PInt 0; PInt 0; PInt (-1)]) /\
  (1 < slices ->
   step g = map (fun x => PFloat (fdiv x (of_int (1 - slices))))
                (vsub (fsp g) (lsp g)) /\
   exists d0 d1 d2 rest,
     vsub (fsp g) (lsp g) = d0 :: d1 :: d2 :: rest /\
     slicegap g =
       Some (fdiv (fpow (fadd (fadd (fpow d0 (of_int 2)) (fpow d1 (of_int 2)))
                              (fpow d2 (of_int 2))) fhalf)
                  (of_int (slices - 1)))).
Proof.
  intros H.
  destruct (slice_geometry_OK _ _ _ _ H)
    as (first & last & dist & Hfirst & Hlast & Hdist & <- & <- & _ & Hstep
        & Hgap).
  destruct (position_of_first _ _ _ _ Hfirst) as (i & Hi1 & Hi2 & _).
  destruct (position_of_first _ _ _ _ Hlast) as (j & Hj1 & Hj2 & _).
  destruct (euclid_spec _ _ Hdist) as (d0 & d1 & d2 & rest & Hd & Hnorm).
  split; [exists i, j; auto |].
  split.
  - intros ->. exact Hstep.
  - intros Hmany. destruct (Z.eqb_spec slices 1) as [Hone |]; [lia |].
    split; [exact Hstep |].
    exists d0, d1, d2, rest. split; [exact Hd |].
    rewrite Hgap, Hnorm. reflexivity.
Qed.

(** ** The stages of a successful conversion *)

Lemma convert_OK (st : State) (rawarray : list Z) (dfn sd : string)
    (o : Options) (r : Converted) :
  convert st rawarray dfn sd o = OK r ->
  exists table slices vol g base aff printed names,
    build_ptbl (per_frame st) = OK table /\
    py_max (ISPnums (per_frame st)) = OK slices /\
    reshape_volume (scalars st) slices rawarray = OK vol /\
    slice_geometry (IPPs (per_frame st)) (ISPnums (per_frame st)) slices
      = OK g /\
    base_affine (scalars st) g = OK base /\
    orient (siap_fix o) (scalars st) base = OK (aff, printed) /\
    output_names o (scalars st) dfn sd = OK names /\
    r = {| volume := vol; affine := aff; pixdim4 := TR (scalars st);
           ptbl_data := table; nii_filename := nii_path names;
           txt_filename := txt_path names;
           diagnostics := (printed ++ warnings names)%list |}.
Proof.
  unfold convert. intros H. stages H. injection H as <-.
  repeat eexists; eassumption.
Qed.

Lemma dcm_to_nii_OK (dump : list string) (rawarray : list Z) (dfn sd : string)
    (o : Options) (r : Converted) :
  dcm_to_nii dump rawarray dfn sd o = OK r ->
  exists st, scan dump initial_state = OK st /\
             convert st rawarray dfn sd o = OK r.
Proof.
  unfold dcm_to_nii. intros H. apply bind_OK in H. exact H.
Qed.

Lemma dcm_to_nii_scanned (dump : list string) (rawarray : list Z)
    (dfn sd : string) (o : Options) (st : State) :
  scan dump initial_state = OK st ->
  dcm_to_nii dump rawarray dfn sd o = convert st rawarray dfn sd o.
Proof.
  intros H. unfold dcm_to_nii. rewrite H. reflexivity.
Qed.


Lemma convert_raises_in_reshape (st : State) (rawarray : list Z)
    (dfn sd : string) (o : Options) (table : list (list cell)) (slices : Z)
    (e : PyError) :
  build_ptbl (per_frame st) = OK table ->
  py_max (ISPnums (per_frame st)) = OK slices ->
  reshape_volume (scalars st) slices rawarray = Raise e ->
  convert st rawarray dfn sd o = Raise e.
Proof.
  intros Ht Hm Hv. unfold convert. rewrite Ht. simpl. rewrite Hm. simpl.
  rewrite Hv. reflexivity.
Qed.

Lemma convert_raises_in_affine (st : State) (rawarray : list Z)
    (dfn sd : string) (o : Options) (table : list (list cell)) (slices : Z)
    (vol : ndarray) (g : Geometry) (e : PyError) :
  build_ptbl (per_frame st) = OK table ->
  py_max (ISPnums (per_frame st)) = OK slices ->
  reshape_volume (scalars st) slices rawarray = OK vol ->
  slice_geometry (IPPs (per_frame st)) (ISPnums (per_frame st)) slices
    = OK g ->
  base_affine (scalars st) g = Raise e ->
  convert st rawarray dfn sd o = Raise e.
Proof.
  intros Ht Hm Hv Hg Hb. unfold convert. rewrite Ht. simpl. rewrite Hm. simpl.
  rewrite Hv. simpl. rewrite Hg. simpl. rewrite Hb. reflexivity.
Qed.

Lemma convert_raises_in_orient (st : State) (rawarray : list Z)
    (dfn sd : string) (o : Options) (table : list (list cell)) (slices : Z)
    (vol : ndarray) (g : Geometry) (base : matrix float) (e : PyError) :
  build_ptbl (per_frame st) = OK table ->
  py_max (ISPnums (per_frame st)) = OK slices ->
  reshape_volume (scalars st) slices rawarray = OK vol ->
  slice_geometry (IPPs (per_frame st)) (ISPnums (per_frame st)) slices
    = OK g ->
  base_affine (scalars st) g = OK base ->
  orient (siap_fix o) (scalars st) base = Raise e ->
  convert st rawarray dfn sd o = Raise e.
Proof.
  intros Ht Hm Hv Hg Hb Ho. unfold convert. rewrite Ht. simpl. rewrite Hm.
  simpl. rewrite Hv. simpl. rewrite Hg. simpl. rewrite Hb. simpl. rewrite Ho.
  reflexivity.
Qed.

Lemma item_OK {A : Type} (what : string) (l : list A) (i : nat) (a : A) :
  item what l i = OK a -> nth_error l i = Some a.
Proof.
  unfold item. destruct (nth_error l i); intros H;
    [injection H as ->; reflexivity | discriminate H].
Qed.

Lemma cosine_spacing_OK (sc : Scalars) (i j : nat) (c s : float) :
  cosine_spacing sc i j = OK (c, s) ->
  exists cs px, cosines sc = Some cs /\ nth_error cs i = Some c /\
                pixspac sc = Some px /\ nth_error px j = Some s.
Proof.
  unfold cosine_spacing, local. intros H.
  destruct (cosines sc) as [cs |]; [| discriminate H].
  destruct (pixspac sc) as [px |].
  - simpl in H. stages H. injection H as <- <-.
    exists cs, px. repeat split; eapply item_OK; eassumption.
  - simpl in H. destruct (item "cosines" cs i); discriminate H.
Qed.

Lemma first_three {A : Type} (l : list A) (x0 x1 x2 : A) :
  nth_error l 0 = Some x0 -> nth_error l 1 = Some x1 ->
  nth_error l 2 = Some x2 -> exists rest, l = x0 :: x1 :: x2 :: rest.
Proof.
  destruct l as [| y0 [| y1 [| y2 rest]]]; simpl; intros H0 H1 H2;
    try discriminate.
  injection H0 as ->. injection H1 as ->. injection H2 as ->.
  exists rest. reflexivity.
Qed.

(** The entries of the matrix of lines 321-325. *)
Lemma base_affine_OK (sc : Scalars) (g : Geometry) (base : matrix float) :
  base_affine sc g = OK base ->
  exists c0 c1 c2 c3 c4 c5 cs sRow sCol px t0 t1 t2 ts p0 p1 p2 ps,
    cosines sc = Some (c0 :: c1 :: c2 :: c3 :: c4 :: c5 :: cs) /\
    pixspac sc = Some (sRow :: sCol :: px) /\
    step g = t0 :: t1 :: t2 :: ts /\
    fsp g = p0 :: p1 :: p2 :: ps /\
    base =
      [ [fmul (fneg c0) sCol; fmul (fneg c3) sRow; to_float (neg t0); fneg p0];
        [fmul (fneg c1) sCol; fmul (fneg c4) sRow; to_float (neg t1); fneg p1];
        [fmul c2 sCol; fmul c5 sRow; to_float t2; p2];
        [of_int 0; of_int 0; of_int 0; of_int 1] ].
Proof.
  unfold base_affine. intros H. stages H. injection H as <-.
  repeat match goal with
         | S : cosine_spacing _ _ _ = OK _ |- _ =>
             apply cosine_spacing_OK in S;
             destruct S as (? & ? & ? & ? & ? & ?)
         | S : item _ _ _ = OK _ |- _ => apply item_OK in S
         end.
  repeat match goal with
         | A : cosines sc = Some ?x, B : cosines sc = Some ?y |- _ =>
             rewrite A in B; injection B as <-
         | A : pixspac sc = Some ?x, B : pixspac sc = Some ?y |- _ =>
             rewrite A in B; injection B as <-
         end.
  match goal with
  | A : cosines sc = Some ?cs, B : pixspac sc = Some ?px |- _ =>
      rewrite A, B;
      destruct cs as [| k0 [| k1 [| k2 [| k3 [| k4 [| k5 cs']]]]]];
      simpl in *; try discriminate;
      destruct px as [| q0 [| q1 px']]; simpl in *; try discriminate
  end.
  repeat match goal with
         | E : Some _ = Some _ |- _ => injection E as ->
         end.
  destruct (first_three (step g) _ _ _ ltac:(eassumption) ltac:(eassumption)
              ltac:(eassumption)) as (ts & ->).
  destruct (first_three (fsp g) _ _ _ ltac:(eassumption) ltac:(eassumption)
              ltac:(eassumption)) as (ps & ->).
  repeat eexists.
Qed.

(** C2. The base affine has the rows
    [-c0*sCol, -c3*sRow, -step0, -fsp0], [-c1*sCol, -c4*sRow, -step1, -fsp1],
    [c2*sCol, c5*sRow, step2, fsp2], [0, 0, 0, 1]: the first two components
    of the step enter negated and the third as it is, each as the float of an
    integer (the step of a single slice) or as the float it is.  With the
    axis correction
    the affine of the image is
    rot270X . rot180Y . rot180Z . ppaff . base, multiplied from the left in
    this order; without it the base affine is used as it is, [ppaff] is not
    applied and the note that the correction was skipped is printed. *)
Theorem affine_composition (dump : list string) (rawarray : list Z)
    (dfn sd : string) (o : Options) (r : Converted) :
  dcm_to_nii dump rawarray dfn sd o = OK r ->
  exists st slices g c0 c1 c2 c3 c4 c5 cs sRow sCol px t0 t1 t2 ts k0 k1 k2
         p0 p1 p2 ps,
    scan dump initial_state = OK st /\
    py_max (ISPnums (per_frame st)) = OK slices /\
    slice_geometry (IPPs (per_frame st)) (ISPnums (per_frame st)) slices
      = OK g /\
    cosines (scalars st) = Some (c0 :: c1 :: c2 :: c3 :: c4 :: c5 :: cs) /\
    pixspac (scalars st) = Some (sRow :: sCol :: px) /\
    step g = t0 :: t1 :: t2 :: ts /\
    ((exists z, t0 = PInt z /\ k0 = of_int (- z)) \/
     (exists x, t0 = PFloat x /\ k0 = fneg x)) /\
    ((exists z, t1 = PInt z /\ k1 = of_int (- z)) \/
     (exists x, t1 = PFloat x /\ k1 = fneg x)) /\
    ((exists z, t2 = PInt z /\ k2 = of_int z) \/
     (exists x, t2 = PFloat x /\ k2 = x)) /\
    fsp g = p0 :: p1 :: p2 :: ps /\
    let base :=
      [ [fmul (fneg c0) sCol; fmul (fneg c3) sRow; k0; fneg p0];
        [fmul (fneg c1) sCol; fmul (fneg c4) sRow; k1; fneg p1];
        [fmul c2 sCol; fmul c5 sRow; k2; p2];
        [of_int 0; of_int 0; of_int 0; of_int 1] ] in
    if siap_fix o
    then exists code ppaff,
        patpos (scalars st) = Some code /\
        patient_position_affine code = Some ppaff /\
        affine r =
          matmul (matmul (matmul (matmul (_rotate_affine 270 "x")
                                         (_rotate_affine 180 "y"))
                                 (_rotate_affine 180 "z"))
                         ppaff)
                 base
    else affine r = base /\ In "siap_fix is False" (diagnostics r).
Proof.
  intros H.
  destruct (dcm_to_nii_OK _ _ _ _ _ _ H) as (st & Hscan & Hconv).
  destruct (convert_OK _ _ _ _ _ _ Hconv)
    as (table & slices & vol & g & base & aff & printed & names
        & _ & Hmax & _ & Hgeo & Hbase & Horient & _ & ->).
  destruct (base_affine_OK _ _ _ Hbase)
    as (c0 & c1 & c2 & c3 & c4 & c5 & cs & sRow & sCol & px & t0 & t1 & t2
        & ts & p0 & p1 & p2 & ps & Hcos & Hpix & Hstep & Hfsp & ->).
  exists st, slices, g, c0, c1, c2, c3, c4, c5, cs, sRow, sCol, px,
    t0, t1, t2, ts, (to_float (neg t0)), (to_float (neg t1)), (to_float t2),
    p0, p1, p2, ps.
  repeat (split; [assumption |]).
  split; [destruct t0 as [z | x]; [left | right]; eexists; split; reflexivity |].
  split; [destruct t1 as [z | x]; [left | right]; eexists; split; reflexivity |].
  split; [destruct t2 as [z | x]; [left | right]; eexists; split; reflexivity |].
  split; [assumption |].
  cbv zeta. unfold orient, local in Horient.
  destruct (patpos (scalars st)) as [code |]; [| discriminate Horient].
  simpl in Horient. destruct (siap_fix o).
  - destruct (patient_position_affine code) as [ppaff |] eqn:Hpp;
      [| discriminate Horient].
    simpl in Horient. injection Horient as <- <-.
    exists code, ppaff. repeat split. exact Hpp.
  - injection Horient as <- <-. simpl. split; [reflexivity | left; reflexivity].
Qed.

(** The three assignments of [ppaff]. *)
Lemma patient_position_cases (code : pyval) :
  patient_position_affine code =
    if pyval_eqb_str code "HFP" then Some (_rotate_affine 180 "x")
    else if pyval_eqb_str code "FFS" then Some affineident
    else if pyval_eqb_str code "HFS" then Some (_rotate_affine 180 "y")
    else None.
Proof.
  reflexivity.
Qed.

Lemma unsupported_position_unbound (code : pyval) :
  supported_position code = false -> patient_position_affine code = None.
Proof.
  unfold supported_position. intros H.
  apply orb_false_iff in H. destruct H as [H HP].
  apply orb_false_iff in H. destruct H as [HS FS].
  rewrite patient_position_cases, HP, FS, HS. reflexivity.
Qed.

(** C3, as the code has it.  With the axis correction enabled, a
    patient-position code other than HFS, FFS and HFP makes the conversion
    fail and no affine is returned: when the stages up to the base affine
    succeed, [ppaff] is read unassigned where the affine is composed. *)
Theorem unsupported_position_fails (dump : list string) (rawarray : list Z)
    (dfn sd : string) (o : Options) (st : State) (code : pyval) :
  scan dump initial_state = OK st ->
  patpos (scalars st) = Some code ->
  supported_position code = false ->
  siap_fix o = true ->
  failed (dcm_to_nii dump rawarray dfn sd o) /\
  forall table slices vol g base,
    build_ptbl (per_frame st) = OK table ->
    py_max (ISPnums (per_frame st)) = OK slices ->
    reshape_volume (scalars st) slices rawarray = OK vol ->
    slice_geometry (IPPs (per_frame st)) (ISPnums (per_frame st)) slices
      = OK g ->
    base_affine (scalars st) g = OK base ->
    dcm_to_nii dump rawarray dfn sd o = Raise (UnboundLocalError "ppaff").
Proof.
  intros Hscan Hpos Hcode Hfix.
  assert (Horient : forall base, orient (siap_fix o) (scalars st) base
                                 = Raise (UnboundLocalError "ppaff")).
  { intros base. unfold orient. rewrite Hpos, Hfix. simpl.
    rewrite (unsupported_position_unbound code Hcode). reflexivity. }
  split.
  - unfold dcm_to_nii. rewrite Hscan. simpl. unfold convert.
    repeat (apply failed_bind_each; intros ? ?).
    match goal with
    | Ho : orient _ _ _ = OK _ |- _ => rewrite Horient in Ho; discriminate Ho
    end.
  - intros table slices vol g base Ht Hm Hv Hg Hb.
    rewrite (dcm_to_nii_scanned _ _ _ _ _ _ Hscan).
    eapply convert_raises_in_orient; eauto.
Qed.

(** ** The parameter table *)

Lemma na_unless_aligned_spec {A : Type} (to_cell : A -> cell) (x : list A)
    (n : nat) :
  all_or_nothing to_cell x n (na_unless_aligned to_cell x n).
Proof.
  unfold all_or_nothing, na_unless_aligned.
  destruct (Nat.eqb_spec (List.length x) n); split; intros H;
    first [reflexivity | contradiction].
Qed.

Lemma na_unless_aligned_length {A : Type} (to_cell : A -> cell) (x : list A)
    (n : nat) :
  List.length (na_unless_aligned to_cell x n) = n.
Proof.
  unfold na_unless_aligned. destruct (Nat.eqb_spec (List.length x) n).
  - rewrite length_map. assumption.
  - apply repeat_length.
Qed.

Lemma nth_all {A : Type} (d : A) (l : list A) :
  map (fun i => nth i l d) (seq 0 (List.length l)) = l.
Proof.
  apply nth_ext with (d := d) (d' := d).
  - rewrite length_map, length_seq. reflexivity.
  - intros i Hi. rewrite length_map, length_seq in Hi.
    rewrite nth_indep with (d' := nth 0 l d)
      by (rewrite length_map, length_seq; exact Hi).
    change (nth 0 l d) with ((fun i => nth i l d) 0%nat).
    rewrite map_nth, seq_nth by exact Hi. reflexivity.
Qed.

Lemma same_length_nth {A : Type} (n : nat) (ls : list (list A)) (k : nat) :
  same_length n ls = true -> (k < List.length ls)%nat ->
  List.length (nth k ls []) = n.
Proof.
  unfold same_length. intros Hall Hk.
  rewrite forallb_forall in Hall.
  apply Nat.eqb_eq. apply Hall. apply nth_In. exact Hk.
Qed.

Lemma column_transpose {A : Type} (d : A) (n k : nat) (columns : list (list A)) :
  same_length n columns = true -> (k < List.length columns)%nat ->
  column d k (transpose d n columns) = nth k columns [].
Proof.
  intros Hall Hk. unfold column, transpose. rewrite map_map.
  rewrite <- (nth_all d (nth k columns [])) at 1.
  rewrite (same_length_nth n columns k Hall Hk).
  apply map_ext. intros i.
  rewrite nth_indep with (d' := (fun c => nth i c d) [])
    by (rewrite length_map; exact Hk).
  exact (map_nth (fun c => nth i c d) columns [] k).
Qed.

Lemma transpose_rows {A : Type} (d : A) (n : nat) (columns : list (list A)) :
  List.length (transpose d n columns) = n /\
  Forall (fun row => List.length row = List.length columns)
         (transpose d n columns).
Proof.
  unfold transpose. split.
  - rewrite length_map, length_seq. reflexivity.
  - apply Forall_forall. intros row Hrow. apply in_map_iff in Hrow.
    destruct Hrow as (i & <- & _). apply length_map.
Qed.

Lemma hstack3_length {A : Type} (a b c : list (list A)) :
  List.length a = List.length b -> List.length a = List.length c ->
  List.length (hstack3 a b c) = List.length a.
Proof.
  revert b c. induction a as [| x a IH]; intros [| y b] [| z c] Hb Hc;
    simpl in *; try reflexivity; try discriminate.
  f_equal. apply IH; congruence.
Qed.

Lemma column_hstack3_left {A : Type} (d : A) (k : nat) (a b c : list (list A)) :
  List.length a = List.length b -> List.length a = List.length c ->
  Forall (fun row => (k < List.length row)%nat) a ->
  column d k (hstack3 a b c) = column d k a.
Proof.
  revert b c. induction a as [| x a IH]; intros [| y b] [| z c] Hb Hc Hrows;
    simpl in *; try reflexivity; try discriminate.
  inversion Hrows as [| ? ? Hx Hrest]; subst.
  rewrite app_nth1 by exact Hx.
  f_equal. apply IH; [congruence | congruence | exact Hrest].
Qed.

Lemma column_hstack3_single {A : Type} (d : A) (w : nat) (a : list (list A))
    (ys : list A) (c : list (list A)) :
  List.length a = List.length ys -> List.length a = List.length c ->
  Forall (fun row => List.length row = w) a ->
  column d w (hstack3 a (map (fun y => [y]) ys) c) = ys.
Proof.
  revert ys c. induction a as [| x a IH]; intros [| y ys] [| z c] Hb Hc Hrows;
    simpl in *; try reflexivity; try discriminate.
  inversion Hrows as [| ? ? Hx Hrest]; subst.
  rewrite app_nth2 by lia. rewrite Nat.sub_diag. simpl.
  f_equal. apply IH; [congruence | congruence | exact Hrest].
Qed.

Lemma first_block_OK (f : Frames) (o : Optional) (a : list (list cell)) :
  first_block f o = OK a ->
  same_length (List.length (o_repno o)) (table_columns f o) = true /\
  a = transpose NA (List.length (o_repno o)) (table_columns f o).
Proof.
  unfold first_block. intros H.
  destruct (same_length _ _); [| discriminate H].
  destruct (forallb _ _); [| discriminate H].
  injection H as <-. split; reflexivity.
Qed.

(** The table of a frame list: one row per in-stack position number, the
    twelve leading columns being the lists of the source in their order. *)
Lemma build_ptbl_columns (f : Frames) (table : list (list cell)) :
  build_ptbl f = OK table ->
  List.length table = List.length (ISPnums f) /\
  (forall k, (k < 12)%nat ->
             column NA k table = nth k (table_columns f (normalise f)) []) /\
  (forallb is_scalar (o_frame_comments (normalise f)) = true ->
   column NA 12 table = o_frame_comments (normalise f)).
Proof.
  unfold build_ptbl. intros H. stages H.
  rename a into blockA, a0 into blockB, a1 into blockC.
  destruct (Nat.eqb_spec (List.length blockA) (List.length blockB)) as [Hab |];
    [| discriminate H].
  destruct (Nat.eqb_spec (List.length blockA) (List.length blockC)) as [Hac |];
    [| discriminate H].
  injection H as <-.
  apply first_block_OK in Stage. destruct Stage as [Hsame HA].
  pose proof (transpose_rows NA (List.length (o_repno (normalise f)))
                (table_columns f (normalise f))) as [Hn Hrows].
  rewrite <- HA in Hn, Hrows.
  assert (Hlen : List.length (o_repno (normalise f)) = List.length (ISPnums f))
    by apply na_unless_aligned_length.
  split; [rewrite hstack3_length by assumption; congruence |].
  split.
  - intros k Hk. rewrite column_hstack3_left; try assumption.
    + rewrite HA. apply column_transpose; [exact Hsame | exact Hk].
    + eapply Forall_impl; [| exact Hrows]. simpl. intros row ->. exact Hk.
  - intros Hscalar. unfold comment_block in Stage0.
    rewrite Hscalar in Stage0. injection Stage0 as <-.
    apply column_hstack3_single with (w := 12%nat).
    + rewrite length_map in Hab. exact Hab.
    + exact Hac.
    + exact Hrows.
Qed.

(** C5. Each of the eleven optional per-frame sequences whose length differs
    from the number of in-stack position numbers, whether it is shorter or
    longer, is replaced as a whole by that many copies of ["NA"]; a sequence
    with exactly that many entries is left as it is.  The sequences so
    obtained are the columns of the parameter table (column 12, the frame
    comments, when each comment has a single component). *)
Theorem optional_sequences_all_or_nothing (f : Frames) :
  let n := List.length (ISPnums f) in
  let o := normalise f in
  (all_or_nothing cell_of_val (diffdir f) n (o_diffdir o) /\
   all_or_nothing CFloat (TIs f) n (o_TIs o) /\
   all_or_nothing CFloat (bval f) n (o_bval o) /\
   all_or_nothing CFloat (bvalXX f) n (o_bvalXX o) /\
   all_or_nothing CFloat (bvalXY f) n (o_bvalXY o) /\
   all_or_nothing CFloat (bvalXZ f) n (o_bvalXZ o) /\
   all_or_nothing CFloat (bvalYY f) n (o_bvalYY o) /\
   all_or_nothing CFloat (bvalYZ f) n (o_bvalYZ o) /\
   all_or_nothing CFloat (bvalZZ f) n (o_bvalZZ o) /\
   all_or_nothing CInt (repno f) n (o_repno o) /\
   all_or_nothing cell_of_val (frame_comments f) n (o_frame_comments o)) /\
  forall table,
    build_ptbl f = OK table ->
    List.length table = n /\
    column (CStr "NA") 0 table = o_repno o /\
    column (CStr "NA") 2 table = o_diffdir o /\
    column (CStr "NA") 3 table = o_TIs o /\
    column (CStr "NA") 4 table = o_bval o /\
    column (CStr "NA") 5 table = o_bvalXX o /\
    column (CStr "NA") 6 table = o_bvalXY o /\
    column (CStr "NA") 7 table = o_bvalXZ o /\
    column (CStr "NA") 8 table = o_bvalYY o /\
    column (CStr "NA") 9 table = o_bvalYZ o /\
    column (CStr "NA") 10 table = o_bvalZZ o /\
    (forallb is_scalar (o_frame_comments o) = true ->
     column (CStr "NA") 12 table = o_frame_comments o).
Proof.
  intros n o. split.
  - repeat split; apply na_unless_aligned_spec.
  - intros table Htable.
    destruct (build_ptbl_columns f table Htable) as (Hrows & Hcols & Hfc).
    split; [exact Hrows |].
    repeat (split; [apply Hcols; lia |]).
    exact Hfc.
Qed.

(** ** Frame and slice counts *)


Lemma reshape_frames_indivisible (rawarray : list Z) (f r c s : Z) :
  0 <= f -> 0 < r -> 0 < c -> 0 < s -> f mod s <> 0 ->
  reshape_frames rawarray f r c s = Raise cannot_reshape.
Proof.
  intros Hf Hr Hc Hs Hmod.
  destruct (Z.eq_dec (Z.of_nat (List.length rawarray)) (f * r * c))
    as [Hlen | Hlen]; unfold reshape_frames, np_reshape.
  - rewrite (fix_shape_exact _ [f; r; c]);
      [| repeat constructor; lia | simpl; lia].
    simpl bind. unfold repetitions.
    destruct (Z.eqb_spec s 0); [lia |]. simpl bind.
    rewrite Z.quot_div_nonneg by lia.
    assert (Hq0 : 0 <= f / s) by (apply Z.div_pos; lia).
    rewrite (fix_shape_mismatch _ [f / s; s; r; c]);
      [reflexivity | repeat constructor; lia |].
    simpl. rewrite Hlen.
    pose proof (Z.div_mod f s ltac:(lia)) as Hdm.
    pose proof (Z.mod_pos_bound f s Hs) as Hb.
    assert (f / s * s < f) by lia.
    assert (0 < r * c) by nia.
    nia.
  - rewrite (fix_shape_mismatch _ [f; r; c]);
      [reflexivity | repeat constructor; lia | simpl; lia].
Qed.

(** C7, as the code has it.  With at least one row and one column per frame,
    a non-negative frame count that the (positive) slice count does not
    divide makes [np.reshape] raise: the conversion fails, with this
    [ValueError] when the parameter table was built.  A frame count that the
    slice count divides is reshaped with repetitions = frames / slices. *)
Theorem indivisible_frames_rejected (dump : list string) (rawarray : list Z)
    (dfn sd : string) (o : Options) (st : State) (f r c s : Z) :
  scan dump initial_state = OK st ->
  frames (scalars st) = Some f ->
  rows (scalars st) = Some r ->
  cols (scalars st) = Some c ->
  py_max (ISPnums (per_frame st)) = OK s ->
  0 <= f -> 0 < r -> 0 < c -> 0 < s ->
  (f mod s <> 0 ->
   reshape_volume (scalars st) s rawarray = Raise cannot_reshape /\
   failed (dcm_to_nii dump rawarray dfn sd o) /\
   forall table,
     build_ptbl (per_frame st) = OK table ->
     dcm_to_nii dump rawarray dfn sd o = Raise cannot_reshape) /\
  (f mod s = 0 ->
   Z.of_nat (List.length rawarray) = f * r * c ->
   exists vol, reshape_volume (scalars st) s rawarray = OK vol /\
               shape vol = [c; r; s; f / s]).
Proof.
  intros Hscan Hframes Hrows Hcols Hmax Hf Hr Hc Hs.
  assert (Hvol : reshape_volume (scalars st) s rawarray
                 = reshape_frames rawarray f r c s).
  { unfold reshape_volume. rewrite Hframes, Hrows, Hcols. reflexivity. }
  rewrite Hvol. rewrite (dcm_to_nii_scanned _ _ _ _ _ _ Hscan). split.
  - intros Hmod.
    pose proof (reshape_frames_indivisible rawarray f r c s Hf Hr Hc Hs Hmod)
      as Hraise.
    split; [exact Hraise |]. split.
    + unfold convert. apply failed_bind_each. intros table _.
      rewrite Hmax. simpl. rewrite Hvol, Hraise. eexists. reflexivity.
    + intros table Ht. eapply convert_raises_in_reshape; eauto.
      rewrite Hvol. exact Hraise.
  - intros Hmod Hlen.
    rewrite reshape_frames_divisible by lia.
    eexists. split; reflexivity.
Qed.

Lemma fix_shape_OK (size : Z) (dims dims' : list Z) :
  fix_shape size dims = OK dims' ->
  exists q, dims' = map (fun d => if d <? 0 then q else d) dims.
Proof.
  unfold fix_shape. intros H.
  destruct (filter (fun d => d <? 0) dims) as [| x [| y rest]] eqn:Hneg.
  - destruct (_ =? size); [| discriminate H]. injection H as <-.
    exists 0. symmetry. rewrite <- (map_id dims) at 2.
    apply map_ext_in. intros d Hd.
    destruct (Z.ltb_spec d 0) as [Hlt |]; [| reflexivity].
    assert (Hin : In d (filter (fun d => d <? 0) dims)).
    { apply filter_In. split; [exact Hd | apply Z.ltb_lt; exact Hlt]. }
    rewrite Hneg in Hin. contradiction.
  - destruct (_ || _); [discriminate H |]. injection H as <-.
    eexists. reflexivity.
  - discriminate H.
Qed.

Lemma np_reshape_OK (samples : list Z) (newshape : list Z) (a : ndarray) :
  np_reshape samples newshape = OK a ->
  buffer a = samples /\
  exists q, shape a = map (fun d => if d <? 0 then q else d) newshape.
Proof.
  unfold np_reshape. intros H. apply bind_OK in H.
  destruct H as (dims & Hdims & H). injection H as <-. simpl.
  split; [reflexivity |]. apply fix_shape_OK with (size := Z.of_nat (List.length samples)).
  exact Hdims.
Qed.

(** The slice axis of the volume is [slices] whenever [slices] is not
    negative. *)
Lemma reshape_volume_slices (sc : Scalars) (slices : Z) (rawarray : list Z)
    (vol : ndarray) :
  reshape_volume sc slices rawarray = OK vol -> 0 <= slices ->
  nth 2 (shape vol) 0 = slices.
Proof.
  unfold reshape_volume, reshape_frames. intros H Hs.
  stages H. injection H as <-.
  match goal with
  | S : np_reshape _ [_; slices; _; _] = OK ?a |- _ =>
      destruct (np_reshape_OK _ _ _ S) as (_ & q & Hshape)
  end.
  unfold np_transpose, permute. simpl. rewrite Hshape. simpl.
  destruct (Z.ltb_spec slices 0); [lia | reflexivity].
Qed.

(** C8, as the code has it.  The slice count is the largest parsed in-stack
    position number and is the slice axis of the volume; the conversion needs
    the number 1 among the parsed numbers (the position of its first frame is
    fsp) and rejects a dump without it.  The numbers between 1 and the slice
    count are not looked at. *)
Theorem slices_is_largest_position (dump : list string) (rawarray : list Z)
    (dfn sd : string) (o : Options) (st : State) :
  scan dump initial_state = OK st ->
  (~ In 1 (ISPnums (per_frame st)) ->
   failed (dcm_to_nii dump rawarray dfn sd o)) /\
  (forall r,
      dcm_to_nii dump rawarray dfn sd o = OK r ->
      exists slices,
        py_max (ISPnums (per_frame st)) = OK slices /\
        In slices (ISPnums (per_frame st)) /\
        (forall z, In z (ISPnums (per_frame st)) -> z <= slices) /\
        In 1 (ISPnums (per_frame st)) /\
        nth 2 (shape (volume r)) 0 = slices).
Proof.
  intros Hscan.
  assert (Hone : forall slices g,
             slice_geometry (IPPs (per_frame st)) (ISPnums (per_frame st))
               slices = OK g -> In 1 (ISPnums (per_frame st))).
  { intros slices g Hg.
    destruct (slice_geometry_OK _ _ _ _ Hg) as (first & _ & _ & Hfirst & _).
    destruct (position_of_first _ _ _ _ Hfirst) as (i & Hi & _).
    eapply nth_error_In. exact Hi. }
  split.
  - intros Hno. unfold dcm_to_nii. rewrite Hscan. simpl. unfold convert.
    repeat (apply failed_bind_each; intros ? ?).
    exfalso. apply Hno.
    match goal with
    | Hg : slice_geometry _ _ _ = OK _ |- _ => exact (Hone _ _ Hg)
    end.
  - intros r Hr. unfold dcm_to_nii in Hr. rewrite Hscan in Hr. simpl in Hr.
    destruct (convert_OK _ _ _ _ _ _ Hr)
      as (table & slices & vol & g & base & aff & printed & names
          & _ & Hmax & Hvol & Hgeo & _ & _ & _ & ->).
    destruct (py_max_spec _ _ Hmax) as [Hin Hle].
    pose proof (Hone _ _ Hgeo) as H1.
    exists slices. repeat (split; [assumption |]).
    simpl. apply (reshape_volume_slices _ _ _ _ Hvol).
    specialize (Hle 1 H1). lia.
Qed.

(** ** The fallback name *)

(** With every name component off, the stem of the output names is made of
    the characters of the input's basename, joined by underscores, and the
    warning is emitted. *)
Lemma fallback_names (o : Options) (sc : Scalars) (dfn sd folder : string) :
  id_in_filename o = false -> date_in_filename o = false ->
  time_in_filename o = false -> protocol_in_filename o = false ->
  siap_in_filename o = false -> paravision_folder_in_filename o = false ->
  item_from_end "list index out of range" (split "/"%char dfn) 5 = OK folder ->
  exists names,
    output_names o sc dfn sd = OK names /\
    basename_no_ext names = join "_" (iter_str (basename dfn)) /\
    warnings names = [naming_warning].
Proof.
  intros Hid Hdate Htime Hprot Hsiap Hpv Hfolder.
  unfold output_names.
  rewrite Hfolder, Hid, Hdate, Htime, Hprot, Hsiap, Hpv. simpl.
  eexists. repeat split.
Qed.

(** ** Dumps that lack a tag *)

Lemma scan_initial_untouched (t : string) (dump : list string) (st : State) :
  tag_absent t dump = true -> scan dump initial_state = OK st ->
  (t = "(0028,0008)" -> frames (scalars st) = None) /\
  (t = "(0028,0010)" -> rows (scalars st) = None) /\
  (t = "(0028,0011)" -> cols (scalars st) = None) /\
  (t = "(0020,0037)" -> cosines (scalars st) = None) /\
  (t = "(0028,0030)" -> pixspac (scalars st) = None) /\
  (t = "(0020,9057)" -> ISPnums (per_frame st) = []).
Proof.
  intros Habs Hscan. exact (scan_untouched t dump _ _ Habs Hscan).
Qed.




Lemma reshape_volume_unbound (sc : Scalars) (slices : Z) (rawarray : list Z) :
  (frames sc = None ->
   reshape_volume sc slices rawarray = Raise (UnboundLocalError "frames")) /\
  (unset (frames sc) = false -> rows sc = None ->
   reshape_volume sc slices rawarray = Raise (UnboundLocalError "rows")) /\
  (unset (frames sc) = false -> unset (rows sc) = false -> cols sc = None ->
   reshape_volume sc slices rawarray = Raise (UnboundLocalError "cols")).
Proof.
  unfold reshape_volume.
  destruct (frames sc), (rows sc), (cols sc); simpl;
    repeat split; intros; first [reflexivity | discriminate].
Qed.

Lemma base_affine_unbound (sc : Scalars) (g : Geometry) :
  (cosines sc = None ->
   base_affine sc g = Raise (UnboundLocalError "cosines")) /\
  (forall c cs, cosines sc = Some (c :: cs) -> pixspac sc = None ->
                base_affine sc g = Raise (UnboundLocalError "pixspac")).
Proof.
  unfold base_affine, cosine_spacing. split.
  - intros ->. reflexivity.
  - intros c cs -> ->. reflexivity.
Qed.

(** C6, as the code has it.  A dump that lacks the tag of the orientation
    cosines, the pixel spacing, the rows, the columns or the number of frames
    is never converted: no volume and no affine is returned.  Nothing checks
    the tags after the scan; the variable of the absent tag is read
    unassigned and, when the stages before that read succeed, the error of
    the conversion names it: [frames], [rows], [cols] at the reshape,
    [cosines], [pixspac] at the affine, the first in reading order. *)
Theorem missing_required_tag_fails (dump : list string) (rawarray : list Z)
    (dfn sd : string) (o : Options) :
  existsb (fun t => tag_absent t dump) required_tags = true ->
  failed (dcm_to_nii dump rawarray dfn sd o) /\
  forall st table slices,
    scan dump initial_state = OK st ->
    build_ptbl (per_frame st) = OK table ->
    py_max (ISPnums (per_frame st)) = OK slices ->
    (tag_absent "(0028,0008)" dump = true ->
     dcm_to_nii dump rawarray dfn sd o = Raise (UnboundLocalError "frames")) /\
    (tag_absent "(0028,0010)" dump = true ->
     unset (frames (scalars st)) = false ->
     dcm_to_nii dump rawarray dfn sd o = Raise (UnboundLocalError "rows")) /\
    (tag_absent "(0028,0011)" dump = true ->
     unset (frames (scalars st)) = false ->
     unset (rows (scalars st)) = false ->
     dcm_to_nii dump rawarray dfn sd o = Raise (UnboundLocalError "cols")) /\
    forall vol g,
      reshape_volume (scalars st) slices rawarray = OK vol ->
      slice_geometry (IPPs (per_frame st)) (ISPnums (per_frame st)) slices
        = OK g ->
      (tag_absent "(0020,0037)" dump = true ->
       dcm_to_nii dump rawarray dfn sd o
       = Raise (UnboundLocalError "cosines")) /\
      (tag_absent "(0028,0030)" dump = true ->
       forall c cs, cosines (scalars st) = Some (c :: cs) ->
       dcm_to_nii dump rawarray dfn sd o
       = Raise (UnboundLocalError "pixspac")).
Proof.
  intros Habs.
  assert (Hfields : forall st t,
             scan dump initial_state = OK st -> tag_absent t dump = true ->
             (t = "(0028,0008)" -> frames (scalars st) = None) /\
             (t = "(0028,0010)" -> rows (scalars st) = None) /\
             (t = "(0028,0011)" -> cols (scalars st) = None) /\
             (t = "(0020,0037)" -> cosines (scalars st) = None) /\
             (t = "(0028,0030)" -> pixspac (scalars st) = None)).
  { intros st t Hscan Ht.
    destruct (scan_initial_untouched t dump st Ht Hscan)
      as (A1 & A2 & A3 & A4 & A5 & _).
    repeat split; assumption. }
  split.
  - unfold dcm_to_nii. apply failed_bind_each. intros st Hscan.
    unfold convert.
    repeat (apply failed_bind_each; intros ? ?).
    exfalso.
    repeat match goal with
           | Hv : reshape_volume _ _ _ = OK _ |- _ =>
               unfold reshape_volume, local in Hv
           | Hb : base_affine _ _ = OK _ |- _ =>
               apply base_affine_OK in Hb;
               destruct Hb as (? & ? & ? & ? & ? & ? & ? & ? & ? & ? & ? & ?
                               & ? & ? & ? & ? & ? & ? & Hcos & Hpix & _)
           end.
    simpl in Habs. repeat rewrite orb_true_iff in Habs.
    destruct Habs as [Ht | [Ht | [Ht | [Ht | [Ht | Ht]]]]];
      try discriminate Ht;
      destruct (Hfields st _ Hscan Ht) as (A1 & A2 & A3 & A4 & A5);
      first [ rewrite (A4 eq_refl) in Hcos; discriminate Hcos
            | rewrite (A5 eq_refl) in Hpix; discriminate Hpix
            | match goal with
              | Hv : bind _ _ = OK _ |- _ =>
                  first [ rewrite (A1 eq_refl) in Hv
                        | rewrite (A2 eq_refl) in Hv
                        | rewrite (A3 eq_refl) in Hv ];
                  destruct (frames (scalars st)); try discriminate Hv;
                  destruct (rows (scalars st)); discriminate Hv
              end ].
  - intros st table slices Hscan Htable Hmax.
    rewrite (dcm_to_nii_scanned _ _ _ _ _ _ Hscan).
    repeat split.
    + intros Ht.
      destruct (Hfields st _ Hscan Ht) as (A1 & _).
      eapply convert_raises_in_reshape; eauto.
      apply reshape_volume_unbound. apply A1. reflexivity.
    + intros Ht Hf.
      destruct (Hfields st _ Hscan Ht) as (_ & A2 & _).
      eapply convert_raises_in_reshape; eauto.
      apply reshape_volume_unbound; [exact Hf | apply A2; reflexivity].
    + intros Ht Hf Hr.
      destruct (Hfields st _ Hscan Ht) as (_ & _ & A3 & _).
      eapply convert_raises_in_reshape; eauto.
      apply reshape_volume_unbound;
        [exact Hf | exact Hr | apply A3; reflexivity].
    + intros Ht.
      destruct (Hfields st _ Hscan Ht) as (_ & _ & _ & A4 & _).
      eapply convert_raises_in_affine; eauto.
      apply base_affine_unbound. apply A4. reflexivity.
    + intros Ht c cs Hcos.
      destruct (Hfields st _ Hscan Ht) as (_ & _ & _ & _ & A5).
      eapply convert_raises_in_affine; eauto.
      apply (proj2 (base_affine_unbound (scalars st) g) c cs Hcos).
      apply A5. reflexivity.
Qed.

(** * Further properties of the source *)

(** ** Strings *)

Lemma chars_app (a b : string) : chars (a ++ b) = (chars a ++ chars b)%list.
Proof.
  unfold chars. induction a as [| c a IH]; simpl; [reflexivity |].
  rewrite IH. reflexivity.
Qed.

Lemma str_chars (s : string) : str (chars s) = s.
Proof.
  apply string_of_list_ascii_of_string.
Qed.

Lemma chars_str (l : list ascii) : chars (str l) = l.
Proof.
  apply list_ascii_of_string_of_list_ascii.
Qed.

Lemma chars_inj (a b : string) : chars a = chars b -> a = b.
Proof.
  intros H. rewrite <- (str_chars a), <- (str_chars b), H. reflexivity.
Qed.

Lemma prefix_chars (p s : string) :
  String.prefix p s = true <-> exists t, chars s = (chars p ++ t)%list.
Proof.
  revert s. induction p as [| c p IH]; intros s; simpl.
  - split; [intros _; exists (chars s); reflexivity |].
    intros _. destruct s; reflexivity.
  - destruct s as [| d s]; simpl.
    + split; [discriminate | intros [t H]; discriminate H].
    + destruct (Ascii.ascii_dec c d) as [-> | Hne].
      * rewrite IH. split; intros [t H]; exists t.
        -- unfold chars in *. simpl. rewrite H. reflexivity.
        -- unfold chars in *. simpl in H. injection H as H. exact H.
      * split; [discriminate |].
        intros [t H]. unfold chars in H. simpl in H. injection H as E _.
        congruence.
Qed.

Lemma endswith_chars (p s : string) :
  endswith p s = true <-> exists t, chars s = (t ++ chars p)%list.
Proof.
  unfold endswith. rewrite prefix_chars, !chars_str. split.
  - intros [t H]. exists (rev t).
    rewrite <- (rev_involutive (chars s)), H, rev_app_distr, rev_involutive.
    reflexivity.
  - intros [t H]. exists (rev t). rewrite H, rev_app_distr. reflexivity.
Qed.

(** X1. [_is_dicom] accepts exactly the names made of [EnIm], any text and
    [.dcm]. *)
Theorem is_dicom_names (filename : string) :
  _is_dicom filename = true <->
  exists middle, filename = "EnIm" ++ middle ++ ".dcm".
Proof.
  unfold _is_dicom, startswith.
  destruct (String.prefix "EnIm" filename) eqn:Hp;
    destruct (endswith ".dcm" filename) eqn:He; cbn [andb].
  - split; [intros _ | reflexivity].
    apply prefix_chars in Hp. apply endswith_chars in He.
    destruct Hp as [t Ht]. destruct He as [u Hu].
    rewrite Hu in Ht. change (chars "EnIm") with ["E"; "n"; "I"; "m"]%char in Ht.
    change (chars ".dcm") with ["."; "d"; "c"; "m"]%char in Ht.
    destruct u as [| a [| b [| c [| d u]]]]; simpl in Ht; try discriminate Ht.
    injection Ht as -> -> -> -> _. exists (str u). apply chars_inj.
    rewrite Hu. symmetry.
    rewrite (chars_app "EnIm" (str u ++ ".dcm")), chars_app, chars_str.
    reflexivity.
  - split; [discriminate |]. intros [m ->].
    assert (endswith ".dcm" ("EnIm" ++ m ++ ".dcm") = true) as H.
    { apply endswith_chars. exists (chars "EnIm" ++ chars m)%list.
      rewrite !chars_app, app_assoc. reflexivity. }
    rewrite H in He. discriminate He.
  - split; [discriminate |]. intros [m ->].
    assert (String.prefix "EnIm" ("EnIm" ++ m ++ ".dcm") = true) as H.
    { apply prefix_chars. exists (chars (m ++ ".dcm")).
      rewrite chars_app. reflexivity. }
    rewrite H in Hp. discriminate Hp.
  - split; [discriminate |]. intros [m ->].
    assert (String.prefix "EnIm" ("EnIm" ++ m ++ ".dcm") = true) as H.
    { apply prefix_chars. exists (chars (m ++ ".dcm")).
      rewrite chars_app. reflexivity. }
    rewrite H in Hp. discriminate Hp.
Qed.

Lemma split_chars_whole (c : ascii) (l : list ascii) :
  ~ In c l -> split_chars c l = [l].
Proof.
  induction l as [| x l IH]; intros Hno; simpl; [reflexivity |].
  destruct (Ascii.eqb_spec x c) as [-> | _].
  - exfalso. apply Hno. left. reflexivity.
  - rewrite IH; [reflexivity |]. intros Hin. apply Hno. right. exact Hin.
Qed.

Lemma split_chars_first (c : ascii) (l rest : list ascii) :
  ~ In c l -> split_chars c (l ++ c :: rest) = l :: split_chars c rest.
Proof.
  induction l as [| x l IH]; intros Hno; simpl.
  - rewrite Ascii.eqb_refl. reflexivity.
  - destruct (Ascii.eqb_spec x c) as [-> | _].
    + exfalso. apply Hno. left. reflexivity.
    + rewrite IH; [reflexivity |]. intros Hin. apply Hno. right. exact Hin.
Qed.

Lemma split_joined (c : ascii) (parts : list string) :
  parts <> [] -> Forall (fun p => ~ In c (chars p)) parts ->
  split c (join (String c EmptyString) parts) = parts.
Proof.
  unfold split. intros Hne Hall.
  induction Hall as [| p ps Hp Hps IH]; [contradiction |].
  destruct ps as [| q ps].
  - simpl. rewrite split_chars_whole by exact Hp. simpl.
    rewrite str_chars. reflexivity.
  - change (join (String c EmptyString) (p :: q :: ps))
      with (p ++ String c EmptyString ++ join (String c EmptyString) (q :: ps)).
    rewrite chars_app. change (chars (String c EmptyString ++ ?x)) with (c :: chars x).
    rewrite split_chars_first by exact Hp.
    simpl map. rewrite str_chars. f_equal. apply IH. discriminate.
Qed.

(** X2. Decoding undoes the joining of components: the value field made of
    one or more backslash-free components separated by backslashes is decoded
    to these components, a single one as a plain string. *)
Theorem components_of_joined (parts : list string) :
  parts <> [] ->
  Forall (fun p => ~ In backslash (chars p)) parts ->
  components (chars (join (String backslash EmptyString) parts))
  = match parts with
    | [p] => PStr p
    | _ => PList parts
    end.
Proof.
  intros Hne Hall. unfold components.
  rewrite str_chars, (split_joined backslash parts Hne Hall).
  destruct parts as [| p [| q ps]]; reflexivity.
Qed.

Lemma rfind_chars_absent (c : ascii) (l : list ascii) :
  ~ In c l -> rfind_chars c l = None.
Proof.
  induction l as [| x l IH]; intros Hno; simpl; [reflexivity |].
  rewrite IH by (intros Hin; apply Hno; right; exact Hin).
  destruct (Ascii.eqb_spec x c) as [-> | _]; [| reflexivity].
  exfalso. apply Hno. left. reflexivity.
Qed.

Lemma rfind_chars_last (c : ascii) (l rest : list ascii) :
  ~ In c rest -> rfind_chars c (l ++ c :: rest) = Some (List.length l).
Proof.
  intros Hno. induction l as [| x l IH]; simpl.
  - rewrite (rfind_chars_absent c rest Hno), Ascii.eqb_refl. reflexivity.
  - rewrite IH. reflexivity.
Qed.

Lemma upto_last_found (c : ascii) (l rest : list ascii) :
  ~ In c rest -> upto_last c (l ++ c :: rest) = l.
Proof.
  intros Hno. unfold upto_last. rewrite (rfind_chars_last c l rest Hno).
  rewrite firstn_app, Nat.sub_diag, firstn_all. simpl. apply app_nil_r.
Qed.

Lemma lstrip_chars_spaces (ws l : list ascii) :
  Forall (fun c => isspace c = true) ws ->
  lstrip_chars (ws ++ l) = lstrip_chars l.
Proof.
  induction 1 as [| c ws Hc _ IH]; simpl; [reflexivity |].
  rewrite Hc. exact IH.
Qed.

Lemma rstrip_chars_spaces (l pad : list ascii) :
  Forall (fun c => isspace c = true) pad ->
  rstrip_chars (l ++ pad) = rstrip_chars l.
Proof.
  intros Hpad. unfold rstrip_chars. rewrite rev_app_distr.
  rewrite lstrip_chars_spaces by (apply Forall_rev; exact Hpad).
  reflexivity.
Qed.

Lemma rstrip_chars_kept (l : list ascii) (x : ascii) :
  isspace x = false -> rstrip_chars (l ++ [x]) = (l ++ [x])%list.
Proof.
  intros Hx. unfold rstrip_chars. rewrite rev_app_distr. simpl.
  rewrite Hx. simpl. rewrite rev_involutive. reflexivity.
Qed.

Lemma skipn_head {A : Type} (head rest : list A) (n : nat) :
  List.length head = n -> skipn n (head ++ rest) = rest.
Proof.
  intros <-. induction head as [| x head IH]; simpl; [reflexivity | exact IH].
Qed.

(** X3. The value of a bracketed field is the text between the brackets:
    after the fifteen characters of tag and value representation, whatever
    stands between [[] and []] is returned, the padding and the comment after
    the last [#] being dropped.  The text itself may contain [#], brackets
    and blanks. *)
Theorem raw_value_bracketed (head v pad comment : list ascii) :
  List.length head = 15%nat ->
  Forall (fun c => isspace c = true) pad ->
  ~ In "#"%char comment ->
  raw_value
    (head ++ "["%char :: v ++ "]"%char :: pad ++ "#"%char :: comment)%list
  = OK v.
Proof.
  intros Hhead Hpad Hcomment. unfold raw_value.
  replace (head ++ "["%char :: v ++ "]"%char :: pad ++ "#"%char :: comment)%list
    with ((((head ++ "["%char :: v) ++ ["]"%char]) ++ pad)
           ++ "#"%char :: comment)%list
    by (rewrite <- !app_assoc; reflexivity).
  rewrite (upto_last_found _ _ _ Hcomment).
  rewrite (rstrip_chars_spaces _ _ Hpad).
  rewrite rstrip_chars_kept by reflexivity.
  rewrite <- app_assoc. rewrite (skipn_head _ _ _ Hhead).
  simpl. rewrite removelast_last. reflexivity.
Qed.

(** X4. The value of an unbracketed field is the text up to the padding
    before the last [#]: it is returned as it is when it does not begin with
    [[] and does not end in white space. *)
Theorem raw_value_plain (head v pad comment : list ascii) (y : ascii) :
  List.length head = 15%nat ->
  nth_error (v ++ [y])%list 0 <> Some "["%char ->
  isspace y = false ->
  Forall (fun c => isspace c = true) pad ->
  ~ In "#"%char comment ->
  raw_value (head ++ (v ++ [y]) ++ pad ++ "#"%char :: comment)%list
  = OK (v ++ [y])%list.
Proof.
  intros Hhead Hfirst Hy Hpad Hcomment. unfold raw_value.
  replace (head ++ (v ++ [y]) ++ pad ++ "#"%char :: comment)%list
    with ((((head ++ v) ++ [y]) ++ pad) ++ "#"%char :: comment)%list
    by (rewrite <- !app_assoc; reflexivity).
  rewrite (upto_last_found _ _ _ Hcomment).
  rewrite (rstrip_chars_spaces _ _ Hpad).
  rewrite (rstrip_chars_kept _ _ Hy).
  rewrite <- app_assoc. rewrite (skipn_head _ _ _ Hhead).
  destruct (v ++ [y])%list as [| c rest] eqn:E.
  - destruct v; discriminate E.
  - destruct (Ascii.eqb_spec c "["%char) as [-> | _]; [| reflexivity].
    exfalso. apply Hfirst. reflexivity.
Qed.

(** X5. A tag line without any [#] loses its last character: [rfind]
    answers -1 and the slice [pline[:-1]] drops it, so that an unbracketed
    value [v] followed by one more character [x] is read as [v]. *)
Theorem raw_value_without_hash (head v : list ascii) (y x : ascii) :
  List.length head = 15%nat ->
  nth_error (v ++ [y])%list 0 <> Some "["%char ->
  isspace y = false ->
  ~ In "#"%char (head ++ (v ++ [y]) ++ [x])%list ->
  raw_value (head ++ (v ++ [y]) ++ [x])%list = OK (v ++ [y])%list.
Proof.
  intros Hhead Hfirst Hy Hno. unfold raw_value, upto_last.
  rewrite (rfind_chars_absent _ _ Hno).
  replace (head ++ (v ++ [y]) ++ [x])%list
    with ((head ++ v ++ [y]) ++ [x])%list
    by (rewrite <- !app_assoc; reflexivity).
  rewrite removelast_last.
  replace (head ++ v ++ [y])%list with ((head ++ v) ++ [y])%list
    by (rewrite <- app_assoc; reflexivity).
  rewrite (rstrip_chars_kept _ _ Hy).
  rewrite <- app_assoc. rewrite (skipn_head _ _ _ Hhead).
  destruct (v ++ [y])%list as [| c rest] eqn:E.
  - destruct v; discriminate E.
  - destruct (Ascii.eqb_spec c "["%char) as [-> | _]; [| reflexivity].
    exfalso. apply Hfirst. reflexivity.
Qed.

(** ** The scan *)

Lemma bind_ret {A : Type} (m : result A) : bind m (fun a => OK a) = m.
Proof.
  destruct m; reflexivity.
Qed.

Lemma run_handlers_unknown (hs : list (string * handler)) (tag : string)
    (vals : pyval) (st : State) :
  ~ In tag (map fst hs) -> run_handlers hs tag vals st = OK st.
Proof.
  induction hs as [| [t h] hs IH]; simpl; intros Hno; [reflexivity |].
  destruct (String.eqb_spec tag t) as [-> | _].
  - exfalso. apply Hno. left. reflexivity.
  - simpl. apply IH. intros Hin. apply Hno. right. exact Hin.
Qed.

Lemma run_handlers_known (hs : list (string * handler)) (t : string)
    (h : handler) (vals : pyval) (st : State) :
  NoDup (map fst hs) -> In (t, h) hs ->
  run_handlers hs t vals st = h vals st.
Proof.
  induction hs as [| [t0 h0] hs IH]; intros Hnd Hin; [contradiction |].
  simpl in Hnd. inversion Hnd as [| ? ? Hfresh Hrest]; subst.
  simpl. destruct Hin as [Heq | Hin].
  - injection Heq as -> ->. rewrite String.eqb_refl.
    destruct (h vals st) as [st' | e]; simpl; [| reflexivity].
    apply run_handlers_unknown. exact Hfresh.
  - destruct (String.eqb_spec t t0) as [-> | _].
    + exfalso. apply Hfresh. apply (in_map fst _ _ Hin).
    + simpl. apply IH; assumption.
Qed.

Lemma known_tags_distinct : NoDup known_tags.
Proof.
  pose proof (NoDup_nodup string_dec known_tags) as H.
  vm_compute in H. exact H.
Qed.

Lemma dispatch_unknown (tag : string) (vals : pyval) (st : State) :
  ~ In tag known_tags -> dispatch tag vals st = OK st.
Proof.
  apply run_handlers_unknown.
Qed.

Lemma dispatch_known (t : string) (h : handler) (vals : pyval) (st : State) :
  In (t, h) handlers -> dispatch t vals st = h vals st.
Proof.
  apply run_handlers_known. exact known_tags_distinct.
Qed.

Lemma known_tag_handler (t : string) :
  In t known_tags -> exists h, In (t, h) handlers.
Proof.
  unfold known_tags. intros Hin. apply in_map_iff in Hin.
  destruct Hin as ([t' h] & Heq & Hin). simpl in Heq. subst t'.
  exists h. exact Hin.
Qed.

Lemma scan_app (d1 d2 : list string) (st : State) :
  scan (d1 ++ d2) st = (st1 <- scan d1 st ;; scan d2 st1).
Proof.
  revert st. induction d1 as [| line d1 IH]; intros st; simpl; [reflexivity |].
  destruct (scan_line line st) as [st1 | e]; simpl; [apply IH | reflexivity].
Qed.

Lemma scan_line_tagged (line t : string) (h : handler) (st : State) :
  has_tag t line = true -> In (t, h) handlers ->
  scan_line line st = (v <- line_value line ;; h v st).
Proof.
  unfold has_tag, line_tag, scan_line, line_value. intros Htag Hin.
  destruct (tag_of (lstrip_chars (chars line))) as [tag |]; [| discriminate Htag].
  apply String.eqb_eq in Htag. subst tag.
  destruct (raw_value (lstrip_chars (chars line))) as [val | e]; simpl;
    [| reflexivity].
  apply dispatch_known. exact Hin.
Qed.

(** What the handlers of the other tags leave alone is left alone by every
    line that does not carry the tag. *)
Lemma scan_line_preserves {T : Type} (proj : State -> T) (t : string) :
  (forall t' h vals st st', In (t', h) handlers -> t' <> t ->
                            h vals st = OK st' -> proj st' = proj st) ->
  forall line st st',
    has_tag t line = false -> scan_line line st = OK st' -> proj st' = proj st.
Proof.
  intros Hothers line st st'. unfold has_tag, line_tag, scan_line.
  destruct (tag_of (lstrip_chars (chars line))) as [tag |];
    intros Htag Hline.
  - apply bind_OK in Hline. destruct Hline as (val & _ & Hd).
    apply String.eqb_neq in Htag.
    destruct (in_dec string_dec tag known_tags) as [Hin | Hout].
    + destruct (known_tag_handler tag Hin) as [h Hh].
      rewrite (dispatch_known tag h _ _ Hh) in Hd.
      apply (Hothers tag h (components val)); assumption.
    + rewrite (dispatch_unknown tag _ _ Hout) in Hd.
      injection Hd as <-. reflexivity.
  - injection Hline as <-. reflexivity.
Qed.

Lemma scan_preserves {T : Type} (proj : State -> T) (t : string) :
  (forall t' h vals st st', In (t', h) handlers -> t' <> t ->
                            h vals st = OK st' -> proj st' = proj st) ->
  forall dump st st',
    tag_absent t dump = true -> scan dump st = OK st' -> proj st' = proj st.
Proof.
  intros Hothers dump. induction dump as [| line dump IH]; intros st st' Habs Hscan.
  - injection Hscan as <-. reflexivity.
  - simpl in Habs. apply andb_true_iff in Habs. destruct Habs as [Hline Hrest].
    apply negb_true_iff in Hline.
    simpl in Hscan. apply bind_OK in Hscan.
    destruct Hscan as (st1 & Hfirst & Hscan).
    rewrite (IH st1 st' Hrest Hscan).
    apply (scan_line_preserves proj t Hothers line); assumption.
Qed.

(** Settles, handler by handler, that the handlers of the other tags leave a
    variable alone. *)
Ltac other_handlers :=
  let t := fresh "t" in
  let h := fresh "h" in
  let vals := fresh "vals" in
  let st := fresh "st" in
  let st' := fresh "st'" in
  let Hin := fresh "Hin" in
  let Hne := fresh "Hne" in
  let Hh := fresh "Hh" in
  intros t h vals st st' Hin Hne Hh;
  destruct st as [[] []];
  unfold handlers in Hin; simpl in Hin;
  repeat (destruct Hin as [Hin | Hin];
          [ injection Hin as <- <-; handler_result Hh;
            first [reflexivity | exfalso; apply Hne; reflexivity]
          | ]);
  contradiction.

Lemma value_field_raw (line : string) :
  value_field line <> [] ->
  exists val, raw_value (lstrip_chars (chars line)) = OK val.
Proof.
  unfold value_field, raw_value. intros Hne.
  destruct (skipn 15 _) as [| c rest]; [contradiction |].
  destruct (Ascii.eqb c "["%char); eexists; reflexivity.
Qed.

Lemma scan_line_unrecognised (line : string) (st : State) :
  recognised line = false ->
  (is_tag_line line = true -> value_field line <> []) ->
  scan_line line st = OK st.
Proof.
  unfold recognised, is_tag_line, line_tag, scan_line. intros Hun Hval.
  destruct (tag_of (lstrip_chars (chars line))) as [tag |]; [| reflexivity].
  destruct (value_field_raw line (Hval eq_refl)) as [val ->]. simpl.
  apply dispatch_unknown. intros Hin.
  assert (existsb (String.eqb tag) known_tags = true) as Hex.
  { apply existsb_exists. exists tag. split; [exact Hin | apply String.eqb_refl]. }
  rewrite Hex in Hun. discriminate Hun.
Qed.

Lemma recognised_tag_line (line : string) :
  recognised line = true -> is_tag_line line = true.
Proof.
  unfold recognised, is_tag_line. destruct (line_tag line); [reflexivity |].
  intros H. discriminate H.
Qed.

(** X6. Only the lines carrying one of the twenty-eight tags matter: all
    other lines (text that is no tag line, and tag lines with another tag, as
    long as these have a value) can be removed from the dump without changing
    the result of the conversion, whether a value or an exception. *)
Theorem other_lines_ignored (dump : list string) (rawarray : list Z)
    (dfn sd : string) (o : Options) :
  (forall line, In line dump -> is_tag_line line = true ->
                recognised line = false -> value_field line <> []) ->
  dcm_to_nii (filter recognised dump) rawarray dfn sd o
  = dcm_to_nii dump rawarray dfn sd o.
Proof.
  intros Hval. unfold dcm_to_nii. f_equal.
  generalize initial_state.
  induction dump as [| line dump IH]; intros st; [reflexivity |].
  simpl. destruct (recognised line) eqn:Hrec.
  - simpl. destruct (scan_line line st) as [st1 | e]; simpl; [| reflexivity].
    apply IH. intros l Hl. apply Hval. right. exact Hl.
  - rewrite (scan_line_unrecognised line st Hrec).
    + simpl. apply IH. intros l Hl. apply Hval. right. exact Hl.
    + intros Htag. apply Hval; [left; reflexivity | exact Htag | exact Hrec].
Qed.

Lemma scan_raises (d1 d2 : list string) (line : string) (st : State) :
  (forall st1, failed (scan_line line st1)) ->
  failed (scan (d1 ++ line :: d2) st).
Proof.
  intros Hline. rewrite scan_app. apply failed_bind_each. intros st1 _.
  simpl. apply failed_bind. apply Hline.
Qed.

(** X7. A tag line without a value stops the conversion, whatever its tag:
    when fewer than sixteen characters remain before the last [#] once the
    white space around them is removed, [val[0]] raises [IndexError] on this
    line, so no dump holding such a line is converted. *)
Theorem valueless_tag_line_fails (dump : list string) (line : string)
    (rawarray : list Z) (dfn sd : string) (o : Options) :
  is_tag_line line = true -> value_field line = [] ->
  (forall st,
      scan_line line st = Raise (IndexError "string index out of range")) /\
  (In line dump -> failed (dcm_to_nii dump rawarray dfn sd o)).
Proof.
  intros Htag Hval.
  assert (forall st,
             scan_line line st = Raise (IndexError "string index out of range"))
    as Hraise.
  { intros st. revert Htag Hval.
    unfold is_tag_line, line_tag, value_field, scan_line, raw_value.
    destruct (tag_of (lstrip_chars (chars line))) as [tag |];
      [| intros H; discriminate H].
    intros _ ->. reflexivity. }
  split; [exact Hraise |].
  intros Hin. apply in_split in Hin. destruct Hin as (d1 & d2 & ->).
  unfold dcm_to_nii. apply failed_bind. apply scan_raises.
  intros st1. eexists. apply Hraise.
Qed.

Lemma count_tag_cons (t line : string) (dump : list string) :
  count_tag t (line :: dump)
  = ((if has_tag t line then 1 else 0) + count_tag t dump)%nat.
Proof.
  unfold count_tag. simpl. destruct (has_tag t line); reflexivity.
Qed.

Lemma frame_lists_known (t : string) (len : Frames -> nat) :
  In (t, len) frame_lists -> In t known_tags.
Proof.
  unfold frame_lists. simpl. intros Hin.
  repeat (destruct Hin as [Hin | Hin];
          [injection Hin as <- _; vm_compute; tauto |]).
  contradiction.
Qed.

Lemma handler_counts (tag : string) (h : handler) (vals : pyval)
    (st st' : State) (t : string) (len : Frames -> nat) :
  In (tag, h) handlers -> h vals st = OK st' -> In (t, len) frame_lists ->
  len (per_frame st')
  = (len (per_frame st) + if String.eqb tag t then 1 else 0)%nat.
Proof.
  intros Hin Hh Hlen. destruct st as [[] []].
  unfold handlers in Hin. simpl in Hin.
  repeat (destruct Hin as [Hin | Hin];
          [ injection Hin as <- <-; handler_result Hh;
            unfold frame_lists in Hlen; simpl in Hlen;
            repeat (destruct Hlen as [Hlen | Hlen];
                    [ injection Hlen as <- <-; simpl;
                      rewrite ?length_app; simpl; lia
                    | ]);
            contradiction
          | ]).
  contradiction.
Qed.

Lemma scan_line_counts (line : string) (st st' : State) (t : string)
    (len : Frames -> nat) :
  scan_line line st = OK st' -> In (t, len) frame_lists ->
  len (per_frame st')
  = (len (per_frame st) + if has_tag t line then 1 else 0)%nat.
Proof.
  unfold has_tag, line_tag, scan_line. intros Hline Hlen.
  destruct (tag_of (lstrip_chars (chars line))) as [tag |].
  - apply bind_OK in Hline. destruct Hline as (val & _ & Hd).
    destruct (in_dec string_dec tag known_tags) as [Hin | Hout].
    + destruct (known_tag_handler tag Hin) as [h Hh].
      rewrite (dispatch_known tag h _ _ Hh) in Hd.
      apply (handler_counts tag h (components val)); assumption.
    + rewrite (dispatch_unknown tag _ _ Hout) in Hd. injection Hd as <-.
      destruct (String.eqb_spec tag t) as [-> | _]; [| lia].
      exfalso. apply Hout. apply (frame_lists_known t len Hlen).
  - injection Hline as <-. lia.
Qed.

Lemma frame_lists_count_lines_aux (dump : list string) (st st' : State)
    (t : string) (len : Frames -> nat) :
  scan dump st = OK st' -> In (t, len) frame_lists ->
  len (per_frame st') = (len (per_frame st) + count_tag t dump)%nat.
Proof.
  intros Hscan Hlen. revert st Hscan.
  induction dump as [| line dump IH]; intros st Hscan.
  - injection Hscan as <-. unfold count_tag. simpl. lia.
  - simpl in Hscan. apply bind_OK in Hscan.
    destruct Hscan as (st1 & Hfirst & Hscan).
    rewrite (IH st1 Hscan), (scan_line_counts line st st1 t len Hfirst Hlen).
    rewrite count_tag_cons. lia.
Qed.

(** X8. Each of the fourteen per-frame lists grows by one entry for every
    line of the dump that carries its tag, and by nothing else: a scan that
    ends well leaves in each list as many entries as the dump has lines with
    the tag of the list, also for the lists that lines 260-281 later replace
    by sentinels. *)
Theorem frame_lists_count_lines (dump : list string) (st : State)
    (t : string) (len : Frames -> nat) :
  scan dump initial_state = OK st -> In (t, len) frame_lists ->
  len (per_frame st) = count_tag t dump.
Proof.
  intros Hscan Hlen.
  rewrite (frame_lists_count_lines_aux dump initial_state st t len Hscan Hlen).
  revert Hlen. unfold frame_lists. simpl. intros Hlen.
  repeat (destruct Hlen as [Hlen | Hlen];
          [injection Hlen as <- <-; reflexivity |]).
  contradiction.
Qed.

Lemma values_of_cons {A : Type} (parse : pyval -> result A) (t line : string)
    (dump : list string) :
  values_of parse t (line :: dump)
  = if has_tag t line
    then x <- (v <- line_value line ;; parse v) ;;
         xs <- values_of parse t dump ;; OK (x :: xs)
    else values_of parse t dump.
Proof.
  unfold values_of. simpl. destruct (has_tag t line); reflexivity.
Qed.

(** A list that only the handler of [t] extends holds, after the scan, the
    parsed values of the lines carrying [t], in their order. *)
Lemma scan_collects {A : Type} (proj : Frames -> list A)
    (parse : pyval -> result A) (add : A -> Frames -> Frames)
    (t : string) (h : handler) :
  In (t, h) handlers ->
  (forall v st, h v st = (x <- parse v ;; OK (on_frames (add x) st))) ->
  (forall x f, proj (add x f) = (proj f ++ [x])%list) ->
  (forall t' h' vals st st', In (t', h') handlers -> t' <> t ->
     h' vals st = OK st' -> proj (per_frame st') = proj (per_frame st)) ->
  forall dump st st',
    scan dump st = OK st' ->
    exists l, values_of parse t dump = OK l /\
              proj (per_frame st') = (proj (per_frame st) ++ l)%list.
Proof.
  intros Hin Hh Hadd Hothers dump.
  induction dump as [| line dump IH]; intros st st' Hscan.
  - injection Hscan as <-. exists []. split; [reflexivity |].
    symmetry. apply app_nil_r.
  - simpl in Hscan. apply bind_OK in Hscan.
    destruct Hscan as (st1 & Hfirst & Hscan).
    destruct (IH st1 st' Hscan) as (l & Hl & Hproj).
    rewrite values_of_cons, Hl, Hproj.
    destruct (has_tag t line) eqn:Htag.
    + rewrite (scan_line_tagged line t h st Htag Hin) in Hfirst.
      apply bind_OK in Hfirst. destruct Hfirst as (v & Hv & Hfirst).
      rewrite Hh in Hfirst. apply bind_OK in Hfirst.
      destruct Hfirst as (x & Hx & Hfirst). injection Hfirst as <-.
      rewrite Hv. simpl. rewrite Hx. simpl. exists (x :: l).
      split; [reflexivity |]. rewrite Hadd, <- app_assoc. reflexivity.
    + exists l. split; [reflexivity |].
      rewrite (scan_line_preserves (fun s => proj (per_frame s)) t Hothers
                 line st st1 Htag Hfirst).
      reflexivity.
Qed.

(** X9. Frames are paired by order of occurrence: after the scan, [ISPnums]
    holds the integers of the In-Stack Position Number lines and [IPPs] the
    float triples of the Image Position (Patient) lines, each in the order of
    the dump, so that entry [i] of one list meets entry [i] of the other
    whatever items the lines stood in. *)
Theorem positions_in_dump_order (dump : list string) (st : State) :
  scan dump initial_state = OK st ->
  values_of py_int "(0020,9057)" dump = OK (ISPnums (per_frame st)) /\
  values_of py_floats "(0020,0032)" dump = OK (IPPs (per_frame st)).
Proof.
  intros Hscan. split.
  - assert (exists l, values_of py_int "(0020,9057)" dump = OK l /\
                      ISPnums (per_frame st)
                      = (ISPnums (per_frame initial_state) ++ l)%list)
      as (l & Hl & Hproj).
    { apply (scan_collects ISPnums py_int add_ISPnums "(0020,9057)"
               (append_int add_ISPnums)).
      - unfold handlers. simpl. tauto.
      - reflexivity.
      - intros x []. reflexivity.
      - other_handlers.
      - exact Hscan. }
    rewrite Hl, Hproj. reflexivity.
  - assert (exists l, values_of py_floats "(0020,0032)" dump = OK l /\
                      IPPs (per_frame st)
                      = (IPPs (per_frame initial_state) ++ l)%list)
      as (l & Hl & Hproj).
    { apply (scan_collects IPPs py_floats add_IPPs "(0020,0032)"
               (append_floats add_IPPs)).
      - unfold handlers. simpl. tauto.
      - reflexivity.
      - intros x []. reflexivity.
      - other_handlers.
      - exact Hscan. }
    rewrite Hl, Hproj. reflexivity.
Qed.

(** ** The parameter table *)

Lemma div_block_OK (divs : list (list Z)) (c : list (list cell)) :
  div_block divs = OK c ->
  c = map (map CInt) divs /\ divs <> [] /\
  Forall (fun d => List.length d = List.length (hd [] divs)) divs.
Proof.
  unfold div_block. destruct divs as [| d ds]; [intros H; discriminate H |].
  destruct (same_length (List.length d) ds) eqn:Hsame;
    [| intros H; discriminate H].
  intros H. injection H as <-.
  split; [reflexivity |]. split; [discriminate |].
  constructor; [reflexivity |].
  unfold same_length in Hsame. rewrite forallb_forall in Hsame.
  apply Forall_forall. intros x Hx. apply Nat.eqb_eq. apply Hsame. exact Hx.
Qed.

Lemma build_ptbl_aligned (f : Frames) (table : list (list cell)) :
  build_ptbl f = OK table ->
  List.length (IPPs f) = List.length (ISPnums f) /\
  List.length (DIVs f) = List.length (ISPnums f) /\
  DIVs f <> [] /\
  Forall (fun d => List.length d = List.length (hd [] (DIVs f))) (DIVs f).
Proof.
  unfold build_ptbl. intros H. stages H.
  destruct (first_block_OK _ _ _ Stage) as [Hsame ->].
  destruct (div_block_OK _ _ Stage1) as (-> & Hne & Hdiv).
  destruct (transpose_rows NA (List.length (o_repno (normalise f)))
              (table_columns f (normalise f))) as [Hrows _].
  destruct (_ =? _)%nat eqn:Hab; [| discriminate H].
  destruct (List.length _ =? List.length (map _ _))%nat eqn:Hac;
    [| discriminate H].
  apply Nat.eqb_eq in Hac. rewrite Hrows, length_map in Hac.
  assert (List.length (o_repno (normalise f)) = List.length (ISPnums f)) as Hn
    by apply na_unless_aligned_length.
  pose proof (same_length_nth _ _ 11 Hsame) as Hipp.
  simpl in Hipp. rewrite length_map in Hipp.
  repeat split; [| | exact Hne | exact Hdiv].
  - rewrite <- Hn. apply Hipp. lia.
  - rewrite <- Hn. symmetry. exact Hac.
Qed.

(** X10. A dump is converted only if it has as many Image Position
    (Patient) lines and as many Dimension Index Values lines as In-Stack
    Position Number lines, and at least one of each; the parameter table then
    has one row per In-Stack Position Number line. *)
Theorem converted_dump_has_aligned_frames (dump : list string)
    (rawarray : list Z) (dfn sd : string) (o : Options) (r : Converted) :
  dcm_to_nii dump rawarray dfn sd o = OK r ->
  let n := count_tag "(0020,9057)" dump in
  (1 <= n)%nat /\
  count_tag "(0020,0032)" dump = n /\
  count_tag "(0020,9157)" dump = n /\
  List.length (ptbl_data r) = n.
Proof.
  intros Hr n.
  destruct (dcm_to_nii_OK _ _ _ _ _ _ Hr) as (st & Hscan & Hconv).
  destruct (convert_OK _ _ _ _ _ _ Hconv)
    as (table & slices & vol & g & base & aff & printed & names
        & Htable & _ & _ & _ & _ & _ & _ & ->).
  destruct (build_ptbl_aligned _ _ Htable) as (Hipp & Hdiv & Hne & _).
  destruct (build_ptbl_columns _ _ Htable) as (Hlen & _).
  pose proof (frame_lists_count_lines_aux dump initial_state st "(0020,9057)"
                (fun f => List.length (ISPnums f)) Hscan
                ltac:(unfold frame_lists; simpl; tauto)) as Hisp.
  pose proof (frame_lists_count_lines_aux dump initial_state st "(0020,0032)"
                (fun f => List.length (IPPs f)) Hscan
                ltac:(unfold frame_lists; simpl; tauto)) as Hipps.
  pose proof (frame_lists_count_lines_aux dump initial_state st "(0020,9157)"
                (fun f => List.length (DIVs f)) Hscan
                ltac:(unfold frame_lists; simpl; tauto)) as Hdivs.
  simpl in Hisp, Hipps, Hdivs. fold n in Hisp.
  simpl ptbl_data.
  repeat split; try lia.
  destruct (DIVs (per_frame st)); [contradiction | simpl in *; lia].
Qed.

(** ** Variables assigned by the scan *)

(** A variable that only the handler of [t] assigns holds, after the scan,
    the parsed value of the last line carrying [t]. *)
Lemma scan_assigns {A : Type} (proj : Scalars -> option A)
    (parse : pyval -> result A) (set : A -> Scalars -> Scalars)
    (t : string) (h : handler) :
  In (t, h) handlers ->
  (forall v st, h v st = (x <- parse v ;; OK (on_scalars (set x) st))) ->
  (forall x s, proj (set x s) = Some x) ->
  (forall t' h' vals st st', In (t', h') handlers -> t' <> t ->
     h' vals st = OK st' -> proj (scalars st') = proj (scalars st)) ->
  forall d1 line d2 st st',
    has_tag t line = true -> tag_absent t d2 = true ->
    scan (d1 ++ line :: d2) st = OK st' ->
    exists x, (v <- line_value line ;; parse v) = OK x /\
              proj (scalars st') = Some x.
Proof.
  intros Hin Hh Hset Hothers d1 line d2 st st' Htag Habs Hscan.
  rewrite scan_app in Hscan. apply bind_OK in Hscan.
  destruct Hscan as (st1 & _ & Hscan). simpl in Hscan.
  apply bind_OK in Hscan. destruct Hscan as (st2 & Hline & Hrest).
  rewrite (scan_line_tagged line t h st1 Htag Hin) in Hline.
  apply bind_OK in Hline. destruct Hline as (v & Hv & Hline).
  rewrite Hh in Hline. apply bind_OK in Hline.
  destruct Hline as (x & Hx & Hline). injection Hline as <-.
  exists x. split; [rewrite Hv; simpl; exact Hx |].
  rewrite (scan_preserves (fun s => proj (scalars s)) t Hothers d2 _ st'
             Habs Hrest).
  simpl. apply Hset.
Qed.

(** X11. When a dump repeats the Number of Frames, the Rows or the Columns
    line, the last one counts: after the scan the variable holds the integer
    of the last line carrying the tag, whatever earlier lines said. *)
Theorem last_dimension_line_wins (d1 d2 : list string) (line : string)
    (st : State) :
  scan (d1 ++ line :: d2) initial_state = OK st ->
  (has_tag "(0028,0008)" line = true ->
   tag_absent "(0028,0008)" d2 = true ->
   exists z, (v <- line_value line ;; py_int v) = OK z /\
             frames (scalars st) = Some z) /\
  (has_tag "(0028,0010)" line = true ->
   tag_absent "(0028,0010)" d2 = true ->
   exists z, (v <- line_value line ;; py_int v) = OK z /\
             rows (scalars st) = Some z) /\
  (has_tag "(0028,0011)" line = true ->
   tag_absent "(0028,0011)" d2 = true ->
   exists z, (v <- line_value line ;; py_int v) = OK z /\
             cols (scalars st) = Some z).
Proof.
  intros Hscan. repeat split; intros Htag Habs.
  - apply (scan_assigns frames py_int set_frames "(0028,0008)"
             (assign_int set_frames)) with (7 := Hscan);
      [ unfold handlers; simpl; tauto | reflexivity
      | intros x []; reflexivity | other_handlers | exact Htag | exact Habs ].
  - apply (scan_assigns rows py_int set_rows "(0028,0010)"
             (assign_int set_rows)) with (7 := Hscan);
      [ unfold handlers; simpl; tauto | reflexivity
      | intros x []; reflexivity | other_handlers | exact Htag | exact Habs ].
  - apply (scan_assigns cols py_int set_cols "(0028,0011)"
             (assign_int set_cols)) with (7 := Hscan);
      [ unfold handlers; simpl; tauto | reflexivity
      | intros x []; reflexivity | other_handlers | exact Htag | exact Habs ].
Qed.

(** X12. The fourth pixel dimension of the header is the repetition time of
    the last Repetition Time line, parsed as a float; it is left unset when
    the dump has no such line. *)
Theorem repetition_time_in_header (dump : list string) (rawarray : list Z)
    (dfn sd : string) (o : Options) (r : Converted) :
  dcm_to_nii dump rawarray dfn sd o = OK r ->
  (tag_absent "(0018,0080)" dump = true -> pixdim4 r = None) /\
  (forall d1 line d2,
      dump = (d1 ++ line :: d2)%list ->
      has_tag "(0018,0080)" line = true ->
      tag_absent "(0018,0080)" d2 = true ->
      exists x, (v <- line_value line ;; py_float v) = OK x /\
                pixdim4 r = Some x).
Proof.
  intros Hr.
  destruct (dcm_to_nii_OK _ _ _ _ _ _ Hr) as (st & Hscan & Hconv).
  destruct (convert_OK _ _ _ _ _ _ Hconv)
    as (table & slices & vol & g & base & aff & printed & names
        & _ & _ & _ & _ & _ & _ & _ & ->).
  simpl pixdim4. split.
  - intros Habs.
    apply (scan_preserves (fun s => TR (scalars s)) "(0018,0080)")
      with (2 := Habs) (3 := Hscan).
    other_handlers.
  - intros d1 line d2 -> Htag Habs.
    apply (scan_assigns TR py_float set_TR "(0018,0080)"
             (assign_float set_TR)) with (7 := Hscan);
      [ unfold handlers; simpl; tauto | reflexivity
      | intros x []; reflexivity | other_handlers | exact Htag | exact Habs ].
Qed.

(** ** The volume *)

Lemma getitem_column_major (rawarray : list Z) (c r s q col row slice rep : Z) :
  0 <= col < c -> 0 <= row < r -> 0 <= slice < s -> 0 <= rep < q ->
  getitem {| shape := [c; r; s; q];
             strides := [1; c * 1; r * (c * 1); s * (r * (c * 1))];
             buffer := rawarray |} [col; row; slice; rep]
  = item "buffer" rawarray
      (Z.to_nat (col + c * (row + r * (slice + s * rep)))).
Proof.
  intros Hcol Hrow Hslice Hrep.
  unfold getitem. cbn [shape strides buffer offset].
  destruct (in_range_test c col Hcol) as [-> ->].
  destruct (in_range_test r row Hrow) as [-> ->].
  destruct (in_range_test s slice Hslice) as [-> ->].
  destruct (in_range_test q rep Hrep) as [-> ->].
  cbn [bind]. do 2 f_equal. ring.
Qed.

(** X13. Every sample of the raw vector is a voxel of the volume: sample [i]
    is read back at column [i mod c], row [(i / c) mod r], slice
    [(i / (c * r)) mod s] and repetition [i / (c * r * s)], so that the
    reshape loses and repeats nothing. *)
Theorem every_sample_is_a_voxel (rawarray : list Z) (f s r c i x : Z) :
  0 <= f -> 0 < r -> 0 < c -> 0 < s -> f mod s = 0 ->
  Z.of_nat (List.length rawarray) = f * r * c ->
  0 <= i -> nth_error rawarray (Z.to_nat i) = Some x ->
  exists vol,
    reshape_frames rawarray f r c s = OK vol /\
    getitem vol [i mod c; (i / c) mod r; (i / (c * r)) mod s; i / (c * r * s)]
    = OK x.
Proof.
  intros Hf Hr Hc Hs Hmod Hlen Hi Hx.
  assert (Hlt : i < f * r * c).
  { assert (Z.to_nat i < List.length rawarray)%nat
      by (apply nth_error_Some; rewrite Hx; discriminate).
    lia. }
  assert (Hq : f = s * (f / s)) by (apply Z_div_exact_full_2; lia).
  eexists. split; [apply reshape_frames_divisible; lia |].
  pose proof (Z.mod_pos_bound i c Hc) as Hcol.
  pose proof (Z.mod_pos_bound (i / c) r Hr) as Hrow.
  pose proof (Z.mod_pos_bound (i / (c * r)) s Hs) as Hslice.
  assert (Hrep : 0 <= i / (c * r * s) < f / s).
  { split; [apply Z.div_pos; nia |].
    apply Z.div_lt_upper_bound; [nia |].
    replace (c * r * s * (f / s)) with (s * (f / s) * r * c) by ring.
    rewrite <- Hq. exact Hlt. }
  rewrite getitem_column_major by assumption.
  replace (i mod c + c * ((i / c) mod r
             + r * ((i / (c * r)) mod s + s * (i / (c * r * s)))))
    with i.
  - unfold item. rewrite Hx. reflexivity.
  - rewrite <- (Z.div_div i (c * r) s) by nia.
    rewrite <- (Z.div_div i c r) by lia.
    pose proof (Z.div_mod i c ltac:(lia)) as H1.
    pose proof (Z.div_mod (i / c) r ltac:(lia)) as H2.
    pose proof (Z.div_mod (i / c / r) s ltac:(lia)) as H3.
    replace ((i / c / r) mod s + s * (i / c / r / s)) with (i / c / r) by lia.
    replace ((i / c) mod r + r * (i / c / r)) with (i / c) by lia.
    lia.
Qed.

(** X14. The raw vector must hold exactly frames x rows x columns samples:
    with any other number of samples the first [np.reshape] raises, whatever
    the slice count, and the dump is not converted. *)
Theorem wrong_sample_count_rejected (dump : list string) (rawarray : list Z)
    (dfn sd : string) (o : Options) (st : State) (f r c : Z) :
  scan dump initial_state = OK st ->
  frames (scalars st) = Some f ->
  rows (scalars st) = Some r ->
  cols (scalars st) = Some c ->
  0 <= f -> 0 <= r -> 0 <= c ->
  Z.of_nat (List.length rawarray) <> f * r * c ->
  (forall slices,
      reshape_volume (scalars st) slices rawarray = Raise cannot_reshape) /\
  failed (dcm_to_nii dump rawarray dfn sd o).
Proof.
  intros Hscan Hframes Hrows Hcols Hf Hr Hc Hlen.
  assert (forall slices,
             reshape_volume (scalars st) slices rawarray = Raise cannot_reshape)
    as Hraise.
  { intros slices. unfold reshape_volume. rewrite Hframes, Hrows, Hcols.
    simpl. unfold reshape_frames, np_reshape.
    rewrite (fix_shape_mismatch _ [f; r; c]);
      [reflexivity | repeat constructor; lia | simpl; lia]. }
  split; [exact Hraise |].
  rewrite (dcm_to_nii_scanned _ _ _ _ _ _ Hscan). unfold convert.
  apply failed_bind_each. intros table _.
  apply failed_bind_each. intros slices _.
  apply failed_bind. rewrite Hraise. eexists. reflexivity.
Qed.

(** ** Rows of the parameter table *)

Lemma column_hstack3_right {A : Type} (d : A) (wa wb k : nat)
    (a b c : list (list A)) :
  List.length a = List.length b -> List.length a = List.length c ->
  Forall (fun row => List.length row = wa) a ->
  Forall (fun row => List.length row = wb) b ->
  column d (wa + wb + k) (hstack3 a b c) = column d k c.
Proof.
  revert b c. induction a as [| x a IH]; intros [| y b] [| z c] Hb Hc Ha Hbs;
    simpl in *; try reflexivity; try discriminate.
  inversion Ha as [| ? ? Hx Hrest]; subst.
  inversion Hbs as [| ? ? Hy Hrest']; subst.
  rewrite app_nth2 by lia. rewrite app_nth2 by lia.
  replace (List.length x + List.length y + k - List.length x - List.length y)%nat
    with k by lia.
  f_equal. apply IH; [congruence | congruence | exact Hrest | exact Hrest'].
Qed.

(** X15. Besides the optional sequences, the parameter table holds, frame by
    frame, the in-stack position numbers in column 1, the image positions in
    column 11 and, when each frame comment has a single component, the
    dimension index values from column 13 on. *)
Theorem table_holds_positions (f : Frames) (table : list (list cell)) :
  build_ptbl f = OK table ->
  column NA 1 table = map CInt (ISPnums f) /\
  column NA 11 table = map CPos (IPPs f) /\
  (forallb is_scalar (o_frame_comments (normalise f)) = true ->
   forall k, column NA (13 + k) table
             = map (fun d => nth k (map CInt d) NA) (DIVs f)).
Proof.
  intros Htable.
  destruct (build_ptbl_columns f table Htable) as (_ & Hcols & _).
  split; [apply (Hcols 1%nat); lia |].
  split; [apply (Hcols 11%nat); lia |].
  intros Hscalar k. revert Htable.
  unfold build_ptbl. intros H. stages H.
  rename a into blockA, a0 into blockB, a1 into blockC.
  destruct (Nat.eqb_spec (List.length blockA) (List.length blockB)) as [Hab |];
    [| discriminate H].
  destruct (Nat.eqb_spec (List.length blockA) (List.length blockC)) as [Hac |];
    [| discriminate H].
  injection H as <-.
  apply first_block_OK in Stage. destruct Stage as [_ HA].
  pose proof (transpose_rows NA (List.length (o_repno (normalise f)))
                (table_columns f (normalise f))) as [_ Hrows].
  rewrite <- HA in Hrows.
  unfold comment_block in Stage0. rewrite Hscalar in Stage0.
  injection Stage0 as <-.
  destruct (div_block_OK _ _ Stage1) as (-> & _ & _).
  change (13 + k)%nat with (12 + 1 + k)%nat.
  rewrite (column_hstack3_right NA 12 1 k); try assumption.
  - unfold column. rewrite map_map. reflexivity.
  - apply Forall_forall. intros row Hrow. apply in_map_iff in Hrow.
    destruct Hrow as (y & <- & _). reflexivity.
Qed.

(** ** Lines of the dump *)

Lemma scan_line_indented (ws line : string) (st : State) :
  Forall (fun c => isspace c = true) (chars ws) ->
  scan_line (ws ++ line) st = scan_line line st.
Proof.
  intros Hws. unfold scan_line.
  rewrite chars_app, (lstrip_chars_spaces _ _ Hws). reflexivity.
Qed.

(** X16. Leading white space of the lines is irrelevant: indenting every
    line of the dump by any blanks, each line by its own, changes nothing in
    the result of the conversion. *)
Theorem indentation_ignored (indent : string -> string) (dump : list string)
    (rawarray : list Z) (dfn sd : string) (o : Options) :
  (forall line, Forall (fun c => isspace c = true) (chars (indent line))) ->
  dcm_to_nii (map (fun line => indent line ++ line) dump) rawarray dfn sd o
  = dcm_to_nii dump rawarray dfn sd o.
Proof.
  intros Hws. unfold dcm_to_nii. f_equal. generalize initial_state.
  induction dump as [| line dump IH]; intros st; [reflexivity |].
  simpl. rewrite (scan_line_indented _ _ _ (Hws line)).
  destruct (scan_line line st) as [st1 | e]; simpl; [apply IH | reflexivity].
Qed.

(** X17. A value that [int] rejects stops the conversion: on a line of In-Stack
    Position Number, Temporal Position Index, Number of Frames, Rows or
    Columns whose value is no integer literal, or has several components,
    the scan raises the exception of [int], and no dump holding such a line
    is converted. *)
Theorem bad_integer_fails (dump : list string) (line t : string)
    (rawarray : list Z) (dfn sd : string) (o : Options) (e : PyError) :
  In t int_tags -> has_tag t line = true ->
  (v <- line_value line ;; py_int v) = Raise e ->
  (forall st, scan_line line st = Raise e) /\
  (In line dump -> failed (dcm_to_nii dump rawarray dfn sd o)).
Proof.
  intros Ht Htag Hv.
  assert (forall st, scan_line line st = Raise e) as Hraise.
  { intros st. unfold int_tags in Ht. simpl in Ht.
    destruct (line_value line) as [v | e'] eqn:Hline; simpl in Hv.
    - repeat (destruct Ht as [<- | Ht];
              [ erewrite scan_line_tagged;
                [ | exact Htag | unfold handlers; simpl; tauto ];
                rewrite Hline; simpl;
                unfold append_int, assign_int; rewrite Hv; reflexivity
              | ]).
      contradiction.
    - injection Hv as ->.
      repeat (destruct Ht as [<- | Ht];
              [ erewrite scan_line_tagged;
                [ | exact Htag | unfold handlers; simpl; tauto ];
                rewrite Hline; reflexivity
              | ]).
      contradiction. }
  split; [exact Hraise |].
  intros Hin. apply in_split in Hin. destruct Hin as (d1 & d2 & ->).
  unfold dcm_to_nii. apply failed_bind. apply scan_raises.
  intros st1. eexists. apply Hraise.
Qed.

(** ** Output names *)





Lemma item_from_end_short {A : Type} (what : string) (l : list A) (k : nat) :
  (List.length l < k)%nat -> item_from_end what l k = Raise (IndexError what).
Proof.
  intros Hlt. unfold item_from_end.
  destruct (Nat.leb_spec k (List.length l)); [lia | reflexivity].
Qed.

Lemma convert_names (st : State) (rawarray : list Z) (dfn sd : string)
    (o : Options) :
  failed (output_names o (scalars st) dfn sd) ->
  failed (convert st rawarray dfn sd o).
Proof.
  intros Hnames. unfold convert.
  apply failed_bind_each. intros table _.
  apply failed_bind_each. intros slices _.
  apply failed_bind_each. intros vol _.
  apply failed_bind_each. intros g _.
  apply failed_bind_each. intros base _.
  apply failed_bind_each. intros [aff printed] _.
  apply failed_bind. exact Hnames.
Qed.

(** X18. A DICOM path with fewer than five components between its
    separators is never converted: the experiment folder is read five
    components from the end even when it is not asked for in the name, and a
    shorter path raises [IndexError], whatever the dump and the options. *)
Theorem shallow_path_fails (dump : list string) (rawarray : list Z)
    (dfn sd : string) (o : Options) :
  (List.length (split "/"%char dfn) < 5)%nat ->
  (forall sc, output_names o sc dfn sd
              = Raise (IndexError "list index out of range")) /\
  failed (dcm_to_nii dump rawarray dfn sd o).
Proof.
  intros Hshort.
  assert (forall sc, output_names o sc dfn sd
                     = Raise (IndexError "list index out of range")) as Hraise.
  { intros sc. unfold output_names.
    rewrite (item_from_end_short _ _ _ Hshort). reflexivity. }
  split; [exact Hraise |].
  unfold dcm_to_nii. apply failed_bind_each. intros st _.
  apply convert_names. rewrite Hraise. eexists. reflexivity.
Qed.


Lemma output_names_unbound (o : Options) (sc : Scalars) (dfn sd : string) :
  (id_in_filename o = true /\ patID sc = None) \/
  (date_in_filename o = true /\ acqdate sc = None) \/
  (time_in_filename o = true /\ acqtime sc = None) ->
  failed (output_names o sc dfn sd) /\
  forall folder,
    item_from_end "list index out of range" (split "/"%char dfn) 5
    = OK folder ->
    exists name, In name ["patID"; "acqdate"; "acqtime"] /\
                 output_names o sc dfn sd = Raise (UnboundLocalError name).
Proof.
  intros H.
  assert (forall folder,
             item_from_end "list index out of range" (split "/"%char dfn) 5
             = OK folder ->
             exists name, In name ["patID"; "acqdate"; "acqtime"] /\
                          output_names o sc dfn sd
                          = Raise (UnboundLocalError name)) as Hname.
  { intros folder Hfolder. unfold output_names. rewrite Hfolder.
    unfold append_part, local. cbn [bind].
    destruct (id_in_filename o), (patID sc), (date_in_filename o), (acqdate sc),
      (time_in_filename o), (acqtime sc); cbn [bind];
      try (exists "patID"; split; [simpl; tauto | reflexivity]);
      try (exists "acqdate"; split; [simpl; tauto | reflexivity]);
      try (exists "acqtime"; split; [simpl; tauto | reflexivity]);
      exfalso; destruct H as [[? ?] | [[? ?] | [? ?]]]; discriminate. }
  split; [| exact Hname].
  destruct (item_from_end "list index out of range" (split "/"%char dfn) 5)
    as [folder | e] eqn:Hfolder.
  - destruct (Hname folder eq_refl) as (name & _ & ->). eexists. reflexivity.
  - unfold output_names. rewrite Hfolder. eexists. reflexivity.
Qed.

(** X20. A name component needs its line: with the patient, the date or the
    time asked for in the name (the defaults), a dump without Patient ID,
    Series Date or Series Time line is not converted; once everything else
    went well, the name of the unassigned variable is reported. *)
Theorem name_component_needs_its_line (dump : list string) (rawarray : list Z)
    (dfn sd : string) (o : Options) :
  (id_in_filename o = true /\ tag_absent "(0010,0020)" dump = true) \/
  (date_in_filename o = true /\ tag_absent "(0008,0021)" dump = true) \/
  (time_in_filename o = true /\ tag_absent "(0008,0031)" dump = true) ->
  failed (dcm_to_nii dump rawarray dfn sd o) /\
  forall st folder,
    scan dump initial_state = OK st ->
    item_from_end "list index out of range" (split "/"%char dfn) 5
    = OK folder ->
    exists name, In name ["patID"; "acqdate"; "acqtime"] /\
                 output_names o (scalars st) dfn sd
                 = Raise (UnboundLocalError name).
Proof.
  intros H.
  assert (forall st, scan dump initial_state = OK st ->
            (id_in_filename o = true /\ patID (scalars st) = None) \/
            (date_in_filename o = true /\ acqdate (scalars st) = None) \/
            (time_in_filename o = true /\ acqtime (scalars st) = None)) as Hst.
  { intros st Hscan.
    destruct H as [[Hflag Habs] | [[Hflag Habs] | [Hflag Habs]]].
    - left. split; [exact Hflag |].
      apply (scan_preserves (fun s => patID (scalars s)) "(0010,0020)")
        with (2 := Habs) (3 := Hscan).
      other_handlers.
    - right. left. split; [exact Hflag |].
      apply (scan_preserves (fun s => acqdate (scalars s)) "(0008,0021)")
        with (2 := Habs) (3 := Hscan).
      other_handlers.
    - right. right. split; [exact Hflag |].
      apply (scan_preserves (fun s => acqtime (scalars s)) "(0008,0031)")
        with (2 := Habs) (3 := Hscan).
      other_handlers. }
  split.
  - unfold dcm_to_nii. apply failed_bind_each. intros st Hscan.
    apply convert_names.
    apply (output_names_unbound o (scalars st) dfn sd (Hst st Hscan)).
  - intros st folder Hscan Hfolder.
    destruct (output_names_unbound o (scalars st) dfn sd (Hst st Hscan))
      as [_ Hname].
    apply (Hname folder Hfolder).
Qed.

(** ** The recursive conversion *)

Lemma mapM_OK {A B : Type} (f : A -> result B) (l : list A) (bs : list B) :
  mapM f l = OK bs -> Forall2 (fun a b => f a = OK b) l bs.
Proof.
  revert bs. induction l as [| a l IH]; intros bs H; simpl in H.
  - injection H as <-. constructor.
  - stages H. injection H as <-. constructor; [assumption |].
    apply IH. assumption.
Qed.

Lemma mapM_failed {A B : Type} (f : A -> result B) (l : list A) (a : A) :
  In a l -> failed (f a) -> failed (mapM f l).
Proof.
  intros Hin Hf. induction l as [| a' l IH]; [contradiction |].
  simpl. destruct Hin as [-> | Hin].
  - apply failed_bind. exact Hf.
  - apply failed_bind_each. intros b _. apply failed_bind. apply IH. exact Hin.
Qed.

Lemma mapM_all {A B : Type} (f : A -> result B) (l : list A) :
  (forall a, In a l -> exists b, f a = OK b) -> exists bs, mapM f l = OK bs.
Proof.
  induction l as [| a l IH]; intros Hall; simpl.
  - exists []. reflexivity.
  - destruct (Hall a (or_introl eq_refl)) as [b ->].
    destruct IH as [bs ->]; [intros x Hx; apply Hall; right; exact Hx |].
    exists (b :: bs). reflexivity.
Qed.

(** X21. The recursive conversion is all or nothing: it returns a list only
    when every file named [EnIm...dcm] below the session directory converts,
    and then one output path per such file, in the order of the walk; a
    single file that fails makes the whole call raise, and the paths of the
    files already written are not returned. *)
Theorem recursive_all_or_nothing (dcmdump : string -> list string * list Z)
    (top : string) (session : directory) (sd : string) (o : Options) :
  (forall names,
      recursive_dcm_to_nii dcmdump top session sd o = OK names ->
      Forall2 (fun path name => convert_file dcmdump sd o path = OK name)
              (dicom_files top session) names) /\
  (forall path,
      In path (dicom_files top session) ->
      failed (convert_file dcmdump sd o path) ->
      failed (recursive_dcm_to_nii dcmdump top session sd o)) /\
  ((forall path, In path (dicom_files top session) ->
                 exists name, convert_file dcmdump sd o path = OK name) ->
   exists names, recursive_dcm_to_nii dcmdump top session sd o = OK names).
Proof.
  unfold recursive_dcm_to_nii. repeat split.
  - intros names. apply mapM_OK.
  - intros path. apply mapM_failed.
  - apply mapM_all.
Qed.

Lemma dicom_files_Dir (top : string) (files : list string)
    (dirs : list (string * directory)) :
  dicom_files top (Dir files dirs)
  = (map (path_join top) (filter _is_dicom files)
     ++ flat_map (fun entry => dicom_files (path_join top (fst entry))
                                           (snd entry)) dirs)%list.
Proof.
  unfold dicom_files. simpl. f_equal.
  induction dirs as [| entry dirs IH]; simpl; [reflexivity |].
  rewrite flat_map_app, IH. reflexivity.
Qed.

Lemma filter_twice {A : Type} (f : A -> bool) (l : list A) :
  filter f (filter f l) = filter f l.
Proof.
  induction l as [| a l IH]; simpl; [reflexivity |].
  destruct (f a) eqn:Hf; simpl; [rewrite Hf, IH; reflexivity | exact IH].
Qed.

Lemma dicom_files_only_dicom (session : directory) :
  forall top, dicom_files top (only_dicom session) = dicom_files top session.
Proof.
  revert session. fix IH 1. intros [files dirs] top.
  simpl only_dicom. rewrite !dicom_files_Dir, filter_twice. f_equal.
  clear files. induction dirs as [| [name sub] dirs IHdirs]; simpl;
    [reflexivity |].
  rewrite IH, IHdirs. reflexivity.
Qed.

(** X22. The walk is top-down and looks at [EnIm...dcm] files only: the
    files of a directory are converted in listing order before those of its
    sub-directories, and files with other names, wherever they stand in the
    tree, have no influence on the result. *)
Theorem recursive_visits_dicom_only (dcmdump : string -> list string * list Z)
    (top : string) (session : directory) (sd : string) (o : Options) :
  (forall files dirs,
      dicom_files top (Dir files dirs)
      = (map (path_join top) (filter _is_dicom files)
         ++ flat_map (fun entry => dicom_files (path_join top (fst entry))
                                               (snd entry)) dirs)%list) /\
  recursive_dcm_to_nii dcmdump top (only_dicom session) sd o
  = recursive_dcm_to_nii dcmdump top session sd o.
Proof.
  split.
  - intros files dirs. apply dicom_files_Dir.
  - unfold recursive_dcm_to_nii. rewrite dicom_files_only_dicom. reflexivity.
Qed.

(** ** Variables that nothing reads *)

Lemma convert_used_part (st : State) (rawarray : list Z) (dfn sd : string)
    (o : Options) :
  convert (used_part st) rawarray dfn sd o = convert st rawarray dfn sd o.
Proof.
  destruct st as [[] fr]. reflexivity.
Qed.

Lemma handler_used_part (t : string) (h : handler) (vals : pyval) (st : State) :
  In (t, h) handlers ->
  (s <- h vals (used_part st) ;; OK (used_part s))
  = (s <- h vals st ;; OK (used_part s)).
Proof.
  intros Hin. destruct st as [[] []].
  unfold handlers in Hin. simpl in Hin.
  repeat (destruct Hin as [Hin | Hin];
          [ injection Hin as <- <-;
            unfold assign, assign_float, assign_int, assign_floats, append,
              append_float, append_int, append_floats, append_ints;
            first [ reflexivity
                  | destruct (py_float vals); reflexivity
                  | destruct (py_int vals); reflexivity
                  | destruct (py_floats vals); reflexivity
                  | destruct (py_ints vals); reflexivity ]
          | ]).
  contradiction.
Qed.

Lemma scan_line_used_part (line : string) (st : State) :
  (s <- scan_line line (used_part st) ;; OK (used_part s))
  = (s <- scan_line line st ;; OK (used_part s)).
Proof.
  unfold scan_line.
  destruct (tag_of (lstrip_chars (chars line))) as [tag |]; [| reflexivity].
  destruct (raw_value (lstrip_chars (chars line))) as [val | e];
    [| reflexivity].
  cbn [bind].
  destruct (in_dec string_dec tag known_tags) as [Hin | Hout].
  - destruct (known_tag_handler tag Hin) as [h Hh].
    rewrite !(dispatch_known tag h _ _ Hh). apply handler_used_part with tag.
    exact Hh.
  - rewrite !(dispatch_unknown tag _ _ Hout). reflexivity.
Qed.

Lemma OK_inj {A : Type} (a b : A) : OK a = OK b -> a = b.
Proof.
  intros H. injection H as ->. reflexivity.
Qed.

Lemma scan_line_same_used (line : string) (st1 st2 : State) :
  used_part st1 = used_part st2 ->
  (s <- scan_line line st1 ;; OK (used_part s))
  = (s <- scan_line line st2 ;; OK (used_part s)).
Proof.
  intros Heq.
  rewrite <- (scan_line_used_part line st1), <- (scan_line_used_part line st2).
  rewrite Heq. reflexivity.
Qed.

Lemma scan_same_used (dump : list string) (st1 st2 : State) :
  used_part st1 = used_part st2 ->
  (s <- scan dump st1 ;; OK (used_part s))
  = (s <- scan dump st2 ;; OK (used_part s)).
Proof.
  revert st1 st2. induction dump as [| line dump IH]; intros st1 st2 Heq.
  - simpl. rewrite Heq. reflexivity.
  - simpl. pose proof (scan_line_same_used line st1 st2 Heq) as Hline.
    destruct (scan_line line st1) as [s1 | e1],
             (scan_line line st2) as [s2 | e2]; simpl in Hline |- *;
      try discriminate Hline.
    + apply IH. apply OK_inj. exact Hline.
    + exact Hline.
Qed.

Lemma scan_line_unused (line : string) (st : State) :
  carries_unused line = true -> accepted_unused line = true ->
  exists st', scan_line line st = OK st' /\ used_part st' = used_part st.
Proof.
  unfold carries_unused, accepted_unused, unused_tags. simpl.
  intros Hcarries Haccepted.
  destruct (has_tag "(0018,0050)" line) eqn:Hthk.
  - rewrite (scan_line_tagged line "(0018,0050)" (assign_float set_thk) st Hthk)
      by (unfold handlers; simpl; tauto).
    destruct (line_value line) as [v |]; [| discriminate Haccepted].
    simpl in Haccepted |- *. unfold assign_float.
    destruct (py_float v) as [x |]; [| discriminate Haccepted].
    simpl. eexists. split; [reflexivity |]. destruct st as [[] ?]. reflexivity.
  - destruct (has_tag "(0018,0023)" line) eqn:Hdims.
    + rewrite (scan_line_tagged line "(0018,0023)" (assign set_acqdims) st Hdims)
        by (unfold handlers; simpl; tauto).
      destruct (line_value line) as [v |]; [| discriminate Haccepted].
      simpl. eexists. split; [reflexivity |]. destruct st as [[] ?]. reflexivity.
    + destruct (has_tag "(0018,9005)" line) eqn:Hseq;
        [| discriminate Hcarries].
      rewrite (scan_line_tagged line "(0018,9005)"
                 (assign set_bruker_sequence) st Hseq)
        by (unfold handlers; simpl; tauto).
      destruct (line_value line) as [v |]; [| discriminate Haccepted].
      simpl. eexists. split; [reflexivity |]. destruct st as [[] ?]. reflexivity.
Qed.

Lemma scan_without_unused (dump : list string) (st : State) :
  (forall line, In line dump -> carries_unused line = true ->
                accepted_unused line = true) ->
  (s <- scan (filter (fun line => negb (carries_unused line)) dump) st ;;
   OK (used_part s))
  = (s <- scan dump st ;; OK (used_part s)).
Proof.
  revert st. induction dump as [| line dump IH]; intros st Hacc;
    [reflexivity |].
  assert (forall l, In l dump -> carries_unused l = true ->
                    accepted_unused l = true) as Hrest
    by (intros l Hl; apply Hacc; right; exact Hl).
  simpl. destruct (carries_unused line) eqn:Hcarries; simpl.
  - destruct (scan_line_unused line st Hcarries
                (Hacc line (or_introl eq_refl) Hcarries)) as (st' & -> & Heq).
    simpl. rewrite (IH st Hrest). apply scan_same_used. symmetry. exact Heq.
  - destruct (scan_line line st) as [st' | e]; simpl; [| reflexivity].
    apply IH. exact Hrest.
Qed.

(** X23. Slice thickness, acquisition type and pulse sequence name are read
    and never used: removing the lines of MR Acquisition Type, Slice
    Thickness and Pulse Sequence Name that the scan accepts changes nothing
    in the result of the conversion, in particular the spacing of the slices
    owes nothing to their thickness. *)
Theorem unused_lines_have_no_effect (dump : list string) (rawarray : list Z)
    (dfn sd : string) (o : Options) :
  (forall line, In line dump -> carries_unused line = true ->
                accepted_unused line = true) ->
  dcm_to_nii (filter (fun line => negb (carries_unused line)) dump)
             rawarray dfn sd o
  = dcm_to_nii dump rawarray dfn sd o.
Proof.
  intros Hacc. unfold dcm_to_nii.
  pose proof (scan_without_unused dump initial_state Hacc) as Hscan.
  destruct (scan (filter _ dump) initial_state) as [s1 | e1],
           (scan dump initial_state) as [s2 | e2]; simpl in Hscan |- *;
    try discriminate Hscan.
  - apply OK_inj in Hscan.
    rewrite <- (convert_used_part s1), <- (convert_used_part s2), Hscan.
    reflexivity.
  - injection Hscan as ->. reflexivity.
Qed.

End Conversion.

(** * The conversion on concrete dumps *)

Import Exact.

(** The three lines quoted in the source (lines 168-170). *)
Example series_date_line :
  let line :=
    "(0008,0021) DA [20160219]                      #   8, 1 SeriesDate" in
  line_tag line = Some "(0008,0021)" /\
  raw_value (chars line) = OK (chars "20160219") /\
  components (chars "20160219") = PStr "20160219".
Proof.
  repeat split.
Qed.

Example inversion_time_line :
  let line :=
    "(0018,9079) FD 35                              #   8, 1 InversionTimes" in
  line_tag line = Some "(0018,9079)" /\
  raw_value (chars line) = OK (chars "35") /\
  py_float (RT := Exact.runtime) (PStr "35") = OK 35%Q.
Proof.
  repeat split.
Qed.

Example image_position_line :
  let line :=
    "(0020,0032) DS [-9\-7.417465618\1.68366613]  #  26, 3 ImagePositionPatient" in
  line_tag line = Some "(0020,0032)" /\
  raw_value (chars line) = OK (chars "-9\-7.417465618\1.68366613") /\
  components (chars "-9\-7.417465618\1.68366613")
    = PList ["-9"; "-7.417465618"; "1.68366613"].
Proof.
  repeat split.
Qed.

Example recognised_names :
  _is_dicom "EnIm1.dcm" = true /\ _is_dicom "EnIm1.dcm.0.raw" = false /\
  _is_dicom "MRIm01.dcm" = false.
Proof.
  repeat split.
Qed.

Lemma reshape_reads_back_witness :
  exists vol x,
    reshape_frames (samples 24) 4 2 3 2 = OK vol /\
    shape vol = [3; 2; 2; 4 / 2] /\
    getitem vol [2; 1; 1; 1] = OK x /\
    nth_error (samples 24)
      (Z.to_nat (1 * 2 * 2 * 3 + 1 * 2 * 3 + 1 * 3 + 2)) = Some x.
Proof.
  apply (reshape_reads_back (samples 24) 4 2 2 3 2 1 1 1);
    first [reflexivity | lia | split; [lia | reflexivity]].
Defined.

Lemma affine_composition_witness :
  let base : matrix Q :=
    [ [-1 # 4; 0; -1; 9]; [0; -1 # 2; -1; 15 # 2]; [0; 0; 1; 5 # 4];
      [0; 0; 0; 1] ]%Q in
  (exists r,
      dcm_to_nii (RT := Exact.runtime) oblique_dump (samples 12) dicom_path
        out_dir (named false) = OK r /\
      affine r = base /\
      In "siap_fix is False" (diagnostics r)) /\
  (exists r,
      dcm_to_nii (RT := Exact.runtime) oblique_dump (samples 12) dicom_path
        out_dir (named true) = OK r /\
      affine r =
        matmul (matmul (matmul (matmul (_rotate_affine 270 "x")
                                       (_rotate_affine 180 "y"))
                               (_rotate_affine 180 "z"))
                       (_rotate_affine 180 "y"))
               base).
Proof.
  intros base. split.
  - eexists. split; [vm_compute; reflexivity |].
    match goal with
    | |- affine ?r = _ /\ _ =>
        destruct (affine_composition (RT := Exact.runtime) oblique_dump
                    (samples 12) dicom_path out_dir (named false) r
                    ltac:(vm_compute; reflexivity))
          as (st & slices & g & c0 & c1 & c2 & c3 & c4 & c5 & cs & sRow & sCol
              & px & t0 & t1 & t2 & ts & k0 & k1 & k2 & p0 & p1 & p2 & ps
              & Hscan & Hmax & Hgeo & Hcos & Hpix & Hstep & H0 & H1 & H2
              & Hfsp & Haff)
    end.
    cbv beta zeta iota delta [siap_fix named] in Haff.
    destruct Haff as [Haff Hdiag].
    vm_compute in Hscan. injection Hscan as <-.
    vm_compute in Hmax. injection Hmax as <-.
    vm_compute in Hgeo. injection Hgeo as <-.
    vm_compute in Hcos. injection Hcos as <- <- <- <- <- <- <-.
    vm_compute in Hpix. injection Hpix as <- <- <-.
    vm_compute in Hfsp. injection Hfsp as <- <- <- <-.
    vm_compute in Hstep. injection Hstep as <- <- <- <-.
    destruct H0 as [(z & H0 & _) | (x & H0 & ->)]; [discriminate H0 |].
    destruct H1 as [(z & H1 & _) | (y & H1 & ->)]; [discriminate H1 |].
    destruct H2 as [(z & H2 & _) | (w & H2 & ->)]; [discriminate H2 |].
    injection H0 as <-. injection H1 as <-. injection H2 as <-.
    split; [rewrite Haff; vm_compute; reflexivity | exact Hdiag].
  - eexists. split; [vm_compute; reflexivity |].
    match goal with
    | |- affine ?r = _ =>
        destruct (affine_composition (RT := Exact.runtime) oblique_dump
                    (samples 12) dicom_path out_dir (named true) r
                    ltac:(vm_compute; reflexivity))
          as (st & slices & g & c0 & c1 & c2 & c3 & c4 & c5 & cs & sRow & sCol
              & px & t0 & t1 & t2 & ts & k0 & k1 & k2 & p0 & p1 & p2 & ps
              & Hscan & Hmax & Hgeo & Hcos & Hpix & Hstep & H0 & H1 & H2
              & Hfsp & Haff)
    end.
    cbv beta zeta iota delta [siap_fix named] in Haff.
    destruct Haff as (code & ppaff & Hcode & Hpp & Haff).
    vm_compute in Hscan. injection Hscan as <-.
    vm_compute in Hmax. injection Hmax as <-.
    vm_compute in Hgeo. injection Hgeo as <-.
    vm_compute in Hcos. injection Hcos as <- <- <- <- <- <- <-.
    vm_compute in Hpix. injection Hpix as <- <- <-.
    vm_compute in Hfsp. injection Hfsp as <- <- <- <-.
    vm_compute in Hcode. injection Hcode as <-.
    vm_compute in Hpp. injection Hpp as <-.
    vm_compute in Hstep. injection Hstep as <- <- <- <-.
    destruct H0 as [(z & H0 & _) | (x & H0 & ->)]; [discriminate H0 |].
    destruct H1 as [(z & H1 & _) | (y & H1 & ->)]; [discriminate H1 |].
    destruct H2 as [(z & H2 & _) | (w & H2 & ->)]; [discriminate H2 |].
    injection H0 as <-. injection H1 as <-. injection H2 as <-.
    rewrite Haff. vm_compute. reflexivity.
Defined.

(** C3 fails as stated: the feet-first-prone study is converted when the
    axis correction is off. *)
Lemma prone_converted_without_correction :
  patpos (scalars (scanned (RT := Exact.runtime) prone_dump))
    = Some (PStr "FFP") /\
  supported_position (PStr "FFP") = false /\
  ~ failed (dcm_to_nii (RT := Exact.runtime) prone_dump (samples 24)
              dicom_path out_dir (named false)).
Proof.
  split; [reflexivity |]. split; [reflexivity |].
  intros [e He]. vm_compute in He. discriminate He.
Qed.

Lemma unsupported_position_fails_witness :
  failed (dcm_to_nii (RT := Exact.runtime) prone_dump (samples 24) dicom_path
            out_dir (named true)) /\
  dcm_to_nii (RT := Exact.runtime) prone_dump (samples 24) dicom_path out_dir
    (named true) = Raise (UnboundLocalError "ppaff").
Proof.
  destruct (unsupported_position_fails (RT := Exact.runtime) prone_dump
              (samples 24) dicom_path out_dir (named true)
              (scanned (RT := Exact.runtime) prone_dump) (PStr "FFP")
              ltac:(vm_compute; reflexivity) ltac:(vm_compute; reflexivity)
              ltac:(vm_compute; reflexivity) ltac:(vm_compute; reflexivity))
    as [Hfail Hppaff].
  split; [exact Hfail |].
  eapply Hppaff; [vm_compute; reflexivity ..].
Defined.

Lemma slice_step_witness :
  exists g,
    slice_geometry (RT := Exact.runtime) stack_of_five [1; 2; 3; 4; 5] 5
      = OK g /\
    step g = [PFloat 0%Q; PFloat 0%Q; PFloat (-1)%Q] /\
    slicegap g = Some 1%Q.
Proof.
  eexists. split; [vm_compute; reflexivity |].
  match goal with
  | |- context [step ?g] =>
      destruct (slice_step (RT := Exact.runtime) stack_of_five [1; 2; 3; 4; 5]
                  5 g ltac:(vm_compute; reflexivity)) as (_ & _ & Hmany)
  end.
  destruct (Hmany ltac:(reflexivity))
    as (Hstep & d0 & d1 & d2 & rest & Hd & Hgap).
  split; [rewrite Hstep; vm_compute; reflexivity |].
  rewrite Hgap. vm_compute in Hd. injection Hd as <- <- <- _.
  vm_compute. reflexivity.
Defined.

Lemma optional_sequences_all_or_nothing_witness :
  exists table,
    build_ptbl (per_frame (scanned (RT := Exact.runtime) sample_dump)) = OK table /\
    List.length table = 4%nat /\
    column (CStr "NA") 0 table = repeat (CStr "NA") 4 /\
    column (CStr "NA") 2 table
      = [CStr "DIRECTIONAL"; CStr "NONE"; CStr "DIRECTIONAL"; CStr "NONE"] /\
    column (CStr "NA") 3 table = repeat (CStr "NA") 4 /\
    column (CStr "NA") 12 table = repeat (CStr "NA") 4.
Proof.
  eexists. split; [vm_compute; reflexivity |].
  match goal with
  | |- context [column (CStr "NA") 0 ?table] =>
      destruct (proj2 (optional_sequences_all_or_nothing
                         (per_frame (scanned (RT := Exact.runtime) sample_dump)))
                  table ltac:(vm_compute; reflexivity))
        as (Hn & H0 & H2 & H3 & _ & _ & _ & _ & _ & _ & _ & H12)
  end.
  split; [exact Hn |].
  split; [rewrite H0; vm_compute; reflexivity |].
  split; [rewrite H2; vm_compute; reflexivity |].
  split; [rewrite H3; vm_compute; reflexivity |].
  rewrite H12; vm_compute; reflexivity.
Defined.

(** C6 fails as stated: without the Number of Frames line and without frame
    items the conversion stops at the parameter table, and the error is not
    the one of an unassigned variable. *)
Lemma missing_frames_masked_by_table_error :
  tag_absent "(0028,0008)" dump_without_frames_or_items = true /\
  dcm_to_nii (RT := Exact.runtime) dump_without_frames_or_items (samples 24)
    dicom_path out_dir (named true) = Raise hstack_mismatch /\
  forall name, hstack_mismatch <> UnboundLocalError name.
Proof.
  split; [vm_compute; reflexivity |].
  split; [vm_compute; reflexivity |].
  intros name. discriminate.
Qed.

Lemma missing_required_tag_fails_witness :
  failed (dcm_to_nii (RT := Exact.runtime) dump_without_frames (samples 24)
            dicom_path out_dir (named true)) /\
  dcm_to_nii (RT := Exact.runtime) dump_without_frames (samples 24) dicom_path
    out_dir (named true) = Raise (UnboundLocalError "frames").
Proof.
  destruct (missing_required_tag_fails (RT := Exact.runtime)
              dump_without_frames (samples 24) dicom_path out_dir (named true)
              ltac:(vm_compute; reflexivity)) as [Hfail Hnamed].
  split; [exact Hfail |].
  eapply (Hnamed (scanned (RT := Exact.runtime) dump_without_frames));
    [vm_compute; reflexivity ..].
Defined.

(** C7 fails as stated: three frames of no rows in two slices are
    reshaped and converted. *)
Lemma empty_frames_converted :
  frames (scalars (scanned (RT := Exact.runtime) odd_empty_dump)) = Some 3 /\
  py_max (ISPnums (per_frame (scanned (RT := Exact.runtime) odd_empty_dump)))
    = OK 2 /\
  3 mod 2 <> 0 /\
  ~ failed (dcm_to_nii (RT := Exact.runtime) odd_empty_dump [] dicom_path
              out_dir (named true)).
Proof.
  split; [vm_compute; reflexivity |].
  split; [vm_compute; reflexivity |].
  split; [discriminate |].
  intros [e He]. vm_compute in He. discriminate He.
Qed.

Lemma indivisible_frames_rejected_witness :
  failed (dcm_to_nii (RT := Exact.runtime) odd_dump (samples 18) dicom_path
            out_dir (named true)) /\
  dcm_to_nii (RT := Exact.runtime) odd_dump (samples 18) dicom_path out_dir
    (named true) = Raise cannot_reshape.
Proof.
  destruct (indivisible_frames_rejected (RT := Exact.runtime) odd_dump
              (samples 18) dicom_path out_dir (named true)
              (scanned (RT := Exact.runtime) odd_dump) 3 2 3 2
              ltac:(vm_compute; reflexivity) ltac:(vm_compute; reflexivity)
              ltac:(vm_compute; reflexivity) ltac:(vm_compute; reflexivity)
              ltac:(vm_compute; reflexivity) ltac:(lia) ltac:(lia) ltac:(lia)
              ltac:(lia)) as [Hodd _].
  destruct (Hodd ltac:(vm_compute; lia)) as (_ & Hfail & Hraise).
  split; [exact Hfail |].
  eapply Hraise. vm_compute. reflexivity.
Defined.

(** C8 fails as stated: the in-stack position numbers 1, 3, 3 leave out
    position 2 and the dump is converted. *)
Lemma gap_in_positions_converted :
  ISPnums (per_frame (scanned (RT := Exact.runtime) gap_dump)) = [1; 3; 3] /\
  ~ In 2 [1; 3; 3] /\
  ~ failed (dcm_to_nii (RT := Exact.runtime) gap_dump (samples 18) dicom_path
              out_dir (named true)).
Proof.
  split; [vm_compute; reflexivity |].
  split; [simpl; intros [H | [H | [H | H]]]; first [discriminate H | exact H] |].
  intros [e He]. vm_compute in He. discriminate He.
Qed.

Lemma slices_is_largest_position_witness :
  exists r,
    dcm_to_nii (RT := Exact.runtime) gap_dump (samples 18) dicom_path out_dir
      (named true) = OK r /\
    exists slices,
      py_max (ISPnums (per_frame (scanned (RT := Exact.runtime) gap_dump)))
        = OK slices /\
      nth 2 (shape (volume r)) 0 = slices.
Proof.
  eexists. split; [vm_compute; reflexivity |].
  match goal with
  | |- context [volume ?r] =>
      destruct (proj2 (slices_is_largest_position (RT := Exact.runtime)
                         gap_dump (samples 18) dicom_path out_dir (named true)
                         (scanned (RT := Exact.runtime) gap_dump)
                         ltac:(vm_compute; reflexivity))
                  r ltac:(vm_compute; reflexivity))
        as (slices & Hmax & _ & _ & _ & Haxis)
  end.
  exists slices. split; [exact Hmax | exact Haxis].
Defined.

(** C9.  With every name component off the conversion succeeds and warns,
    but the file is not named after the input: ['_'.join] runs over the
    characters of the basename [EnIm1.dcm]. *)
Theorem fallback_name_interleaved :
  exists r,
    dcm_to_nii (RT := Exact.runtime) sample_dump (samples 24) dicom_path
      out_dir (unnamed true) = OK r /\
    basename dicom_path = "EnIm1.dcm" /\
    nii_filename r = "/out/E_n_I_m_1_._d_c_m.nii.gz" /\
    nii_filename r <> path_join out_dir (basename dicom_path ++ ".nii.gz") /\
    diagnostics r = [naming_warning].
Proof.
  eexists. split; [vm_compute; reflexivity |].
  split; [vm_compute; reflexivity |].
  split; [vm_compute; reflexivity |].
  split; [vm_compute; discriminate | vm_compute; reflexivity].
Qed.



(** * Further properties on concrete inputs *)

Lemma is_dicom_names_witness : _is_dicom "EnIm1.dcm" = true.
Proof.
  apply (proj2 (is_dicom_names "EnIm1.dcm")). exists "1". reflexivity.
Defined.

Lemma components_of_joined_witness :
  components (chars "-9\-7.5\1.25") = PList ["-9"; "-7.5"; "1.25"].
Proof.
  apply (components_of_joined ["-9"; "-7.5"; "1.25"]).
  - discriminate.
  - repeat constructor; vm_compute; intuition discriminate.
Defined.

Lemma raw_value_bracketed_witness :
  raw_value
    (chars "(0008,0021) DA [20160219]                      #   8, 1 SeriesDate")
  = OK (chars "20160219").
Proof.
  apply (raw_value_bracketed (chars "(0008,0021) DA ") (chars "20160219")
           (chars "                      ") (chars "   8, 1 SeriesDate")).
  - reflexivity.
  - repeat constructor.
  - vm_compute. intuition discriminate.
Defined.

Lemma raw_value_plain_witness :
  raw_value
    (chars "(0018,9079) FD 35                              #   8, 1 InversionTimes")
  = OK (chars "35").
Proof.
  apply (raw_value_plain (chars "(0018,9079) FD ") (chars "3")
           (chars "                              ")
           (chars "   8, 1 InversionTimes") "5"%char).
  - reflexivity.
  - vm_compute. discriminate.
  - reflexivity.
  - repeat constructor.
  - vm_compute. intuition discriminate.
Defined.

Lemma raw_value_without_hash_witness :
  raw_value (chars "(0028,0010) US 128") = OK (chars "12").
Proof.
  apply (raw_value_without_hash (chars "(0028,0010) US ") (chars "1")
           "2"%char "8"%char).
  - reflexivity.
  - vm_compute. discriminate.
  - reflexivity.
  - vm_compute. intuition discriminate.
Defined.

Lemma other_lines_ignored_witness :
  dcm_to_nii (RT := Exact.runtime)
    (filter (recognised (RT := Exact.runtime)) extended_dump) (samples 24)
    dicom_path out_dir (named true)
  = dcm_to_nii (RT := Exact.runtime) extended_dump (samples 24) dicom_path
      out_dir (named true).
Proof.
  apply (other_lines_ignored (RT := Exact.runtime) extended_dump).
  intros line Hin. vm_compute in Hin.
  repeat (destruct Hin as [<- | Hin]; [vm_compute; intros; discriminate |]).
  contradiction.
Defined.

Lemma valueless_tag_line_fails_witness :
  scan_line (RT := Exact.runtime) valueless_line initial_state
  = Raise (IndexError "string index out of range") /\
  failed (dcm_to_nii (RT := Exact.runtime) (valueless_line :: sample_dump)
            (samples 24) dicom_path out_dir (named true)).
Proof.
  destruct (valueless_tag_line_fails (RT := Exact.runtime)
              (valueless_line :: sample_dump) valueless_line (samples 24)
              dicom_path out_dir (named true)
              ltac:(reflexivity) ltac:(reflexivity)) as [Hline Hdump].
  split; [apply Hline | apply Hdump; left; reflexivity].
Defined.

Lemma frame_lists_count_lines_witness :
  List.length (diffdir (per_frame (scanned (RT := Exact.runtime) sample_dump)))
  = count_tag "(0018,9075)" sample_dump.
Proof.
  apply (frame_lists_count_lines (RT := Exact.runtime) sample_dump
           (scanned (RT := Exact.runtime) sample_dump) "(0018,9075)"
           (fun f => List.length (diffdir f))).
  - vm_compute. reflexivity.
  - left. reflexivity.
Defined.

Lemma positions_in_dump_order_witness :
  values_of (py_int (RT := Exact.runtime)) "(0020,9057)" sample_dump
  = OK [1; 2; 1; 2].
Proof.
  destruct (positions_in_dump_order (RT := Exact.runtime) sample_dump
              (scanned (RT := Exact.runtime) sample_dump)
              ltac:(vm_compute; reflexivity)) as [Hisp _].
  rewrite Hisp. vm_compute. reflexivity.
Defined.

Lemma converted_dump_has_aligned_frames_witness :
  exists r,
    dcm_to_nii (RT := Exact.runtime) sample_dump (samples 24) dicom_path
      out_dir (named true) = OK r /\
    count_tag "(0020,0032)" sample_dump = count_tag "(0020,9057)" sample_dump /\
    List.length (ptbl_data r) = count_tag "(0020,9057)" sample_dump.
Proof.
  eexists. split; [vm_compute; reflexivity |].
  match goal with
  | |- context [ptbl_data ?r] =>
      destruct (converted_dump_has_aligned_frames (RT := Exact.runtime)
                  sample_dump (samples 24) dicom_path out_dir (named true) r
                  ltac:(vm_compute; reflexivity))
        as (_ & Hipp & _ & Hrows)
  end.
  split; [exact Hipp | exact Hrows].
Defined.

Lemma last_dimension_line_wins_witness :
  exists z,
    (v <- line_value frames_line ;; py_int (RT := Exact.runtime) v) = OK z /\
    frames (scalars (scanned (RT := Exact.runtime)
                       (sample_dump ++ [frames_line])))
    = Some z.
Proof.
  destruct (last_dimension_line_wins (RT := Exact.runtime) sample_dump []
              frames_line
              (scanned (RT := Exact.runtime) (sample_dump ++ [frames_line]))
              ltac:(vm_compute; reflexivity)) as (Hframes & _ & _).
  apply Hframes; reflexivity.
Defined.

Lemma repetition_time_in_header_witness :
  exists r x,
    dcm_to_nii (RT := Exact.runtime) extended_dump (samples 24) dicom_path
      out_dir (named true) = OK r /\
    pixdim4 r = Some x.
Proof.
  eexists. 
  match goal with
  | |- exists x, ?m = OK ?r /\ _ =>
      assert (m = OK r) as Hr by (vm_compute; reflexivity);
      destruct (repetition_time_in_header (RT := Exact.runtime) extended_dump
                  (samples 24) dicom_path out_dir (named true) r Hr)
        as [_ Hlast]
  end.
  destruct (Hlast sample_dump
              "(0018,0080) DS [2500]                          #   4, 1 RepetitionTime"
              [ "(0018,0050) DS [0.8]                           #   4, 1 SliceThickness";
                "(0018,0023) CS [2D]                            #   2, 1 MRAcquisitionType";
                "(0028,0100) US 16                              #   2, 1 BitsAllocated";
                "dcmdump: end of file" ]
              ltac:(reflexivity) ltac:(reflexivity) ltac:(reflexivity))
    as (x & _ & Hx).
  exists x. split; [exact Hr | exact Hx].
Defined.

Lemma every_sample_is_a_voxel_witness :
  exists vol,
    reshape_frames (samples 24) 4 2 3 2 = OK vol /\
    getitem vol [17 mod 3; (17 / 3) mod 2; (17 / (3 * 2)) mod 2;
                 17 / (3 * 2 * 2)] = OK 17.
Proof.
  apply (every_sample_is_a_voxel (samples 24) 4 2 2 3 17 17);
    first [reflexivity | lia].
Defined.

Lemma wrong_sample_count_rejected_witness :
  failed (dcm_to_nii (RT := Exact.runtime) sample_dump (samples 23) dicom_path
            out_dir (named true)).
Proof.
  apply (wrong_sample_count_rejected (RT := Exact.runtime) sample_dump
           (samples 23) dicom_path out_dir (named true)
           (scanned (RT := Exact.runtime) sample_dump) 4 2 3);
    first [vm_compute; reflexivity | lia | vm_compute; discriminate].
Defined.

Lemma table_holds_positions_witness :
  exists table,
    build_ptbl (per_frame (scanned (RT := Exact.runtime) sample_dump))
    = OK table /\
    column NA 1 table = map CInt [1; 2; 1; 2].
Proof.
  eexists. split; [vm_compute; reflexivity |].
  match goal with
  | |- column NA 1 ?table = _ =>
      destruct (table_holds_positions
                  (per_frame (scanned (RT := Exact.runtime) sample_dump)) table
                  ltac:(vm_compute; reflexivity)) as (Hisp & _ & _)
  end.
  rewrite Hisp. vm_compute. reflexivity.
Defined.

Lemma indentation_ignored_witness :
  dcm_to_nii (RT := Exact.runtime)
    (map (fun line => "    " ++ line) sample_dump) (samples 24) dicom_path
    out_dir (named true)
  = dcm_to_nii (RT := Exact.runtime) sample_dump (samples 24) dicom_path
      out_dir (named true).
Proof.
  apply (indentation_ignored (RT := Exact.runtime) (fun _ => "    ")).
  intros line. repeat constructor.
Defined.

Lemma bad_integer_fails_witness :
  scan_line (RT := Exact.runtime) bad_rows_line initial_state
  = Raise (ValueError "invalid literal for int()") /\
  failed (dcm_to_nii (RT := Exact.runtime) (bad_rows_line :: sample_dump)
            (samples 24) dicom_path out_dir (named true)).
Proof.
  destruct (bad_integer_fails (RT := Exact.runtime)
              (bad_rows_line :: sample_dump) bad_rows_line "(0028,0010)"
              (samples 24) dicom_path out_dir (named true)
              (ValueError "invalid literal for int()")
              ltac:(simpl; tauto) ltac:(reflexivity)
              ltac:(vm_compute; reflexivity)) as [Hline Hdump].
  split; [apply Hline | apply Hdump; left; reflexivity].
Defined.

Lemma shallow_path_fails_witness :
  failed (dcm_to_nii (RT := Exact.runtime) sample_dump (samples 24)
            "/dicom/EnIm1.dcm" out_dir (unnamed true)).
Proof.
  apply (shallow_path_fails (RT := Exact.runtime) sample_dump (samples 24)
           "/dicom/EnIm1.dcm" out_dir (unnamed true)).
  vm_compute. lia.
Defined.


Lemma name_component_needs_its_line_witness :
  dcm_to_nii (RT := Exact.runtime) anonymous_dump (samples 24) dicom_path
    out_dir (named true) = Raise (UnboundLocalError "patID") /\
  output_names (named true)
    (scalars (scanned (RT := Exact.runtime) anonymous_dump)) dicom_path out_dir
  = Raise (UnboundLocalError "patID").
Proof.
  destruct (name_component_needs_its_line (RT := Exact.runtime) anonymous_dump
              (samples 24) dicom_path out_dir (named true)
              ltac:(left; split; reflexivity)) as [_ Hname].
  destruct (Hname (scanned (RT := Exact.runtime) anonymous_dump) "7"
              ltac:(vm_compute; reflexivity) ltac:(vm_compute; reflexivity))
    as (name & _ & Hraise).
  assert (name = "patID") as ->.
  { vm_compute in Hraise. injection Hraise as <-. reflexivity. }
  split; [| exact Hraise].
  rewrite (dcm_to_nii_scanned (RT := Exact.runtime) anonymous_dump (samples 24)
             dicom_path out_dir (named true)
             (scanned (RT := Exact.runtime) anonymous_dump)
             ltac:(vm_compute; reflexivity)).
  vm_compute. reflexivity.
Defined.

Lemma recursive_all_or_nothing_witness :
  let dcmdump := fun path : string =>
    if String.eqb path "/data/s1/7/pdata/1/dicom/more/EnIm2.dcm"
    then (odd_dump, samples 18) else (sample_dump, samples 24) in
  dicom_files session_top small_session
  = [ "/data/s1/7/pdata/1/dicom/EnIm1.dcm";
      "/data/s1/7/pdata/1/dicom/more/EnIm2.dcm" ] /\
  failed (recursive_dcm_to_nii (RT := Exact.runtime) dcmdump session_top
            small_session out_dir (named true)).
Proof.
  intros dcmdump. split; [reflexivity |].
  destruct (recursive_all_or_nothing (RT := Exact.runtime) dcmdump session_top
              small_session out_dir (named true)) as (_ & Hfail & _).
  apply (Hfail "/data/s1/7/pdata/1/dicom/more/EnIm2.dcm").
  - right. left. reflexivity.
  - eexists. vm_compute. reflexivity.
Defined.

Lemma unused_lines_have_no_effect_witness :
  dcm_to_nii (RT := Exact.runtime)
    (filter (fun line => negb (carries_unused line)) extended_dump)
    (samples 24) dicom_path out_dir (named true)
  = dcm_to_nii (RT := Exact.runtime) extended_dump (samples 24) dicom_path
      out_dir (named true).
Proof.
  apply (unused_lines_have_no_effect (RT := Exact.runtime) extended_dump).
  intros line Hin. vm_compute in Hin.
  repeat (destruct Hin as [<- | Hin];
          [vm_compute; intros; first [reflexivity | discriminate] |]).
  contradiction.
Defined.
